(** * Document Forge front end: a shallow embedding of the Svelte components

    The repository holds the client of a document-generation service:
    - [routes/+page.svelte]: the three-step generator page (module [Page]);
    - [lib/components/Generator.svelte]: the generator component with batching,
      document settings and a live preview (module [Generator]);
    - [lib/components/Extractor.svelte]: the PDF data extractor (module
      [Extractor]);
    - the rest of [Generator.svelte]: the fuzzy matching of "Smart Map All"
      (module [Matcher]) and the upload, the data editor, the global memory
      and the progress socket (module [Studio]);
    - [lib/components/ThemeSwitcher.svelte]: the theme switcher (module
      [Theme]), and the colour that [lib/components/Particles.svelte] reads
      from it (module [Particles]).
    The service itself is not among the sources: its row batcher and its
    mapping resolver are modelled from the specification (modules [Batcher]
    and [Resolver]).

    Component state (the [let] variables of a [<script>] block) is a record;
    an event handler is a function from the state, and from what the network
    answered, to the next state and the effects it produced.  An [async]
    handler is split where it awaits the service: the part that issues the
    request, and the part that runs on the answer. *)

From Stdlib Require Import String Ascii List ZArith QArith Bool Arith Lia.
From Stdlib Require Import DecimalString.
Import ListNotations.

Open Scope string_scope.
Open Scope bool_scope.

(** ** JavaScript values used by the components *)

Module Js.

(** Strings are sequences of characters of the ASCII range; the case
    conversions and [\s] below are JavaScript's restricted to that range. *)

Definition lower_ascii (c : ascii) : ascii :=
  let n := nat_of_ascii c in
  if (65 <=? n)%nat && (n <=? 90)%nat then ascii_of_nat (n + 32) else c.

Definition upper_ascii (c : ascii) : ascii :=
  let n := nat_of_ascii c in
  if (97 <=? n)%nat && (n <=? 122)%nat then ascii_of_nat (n - 32) else c.

Fixpoint map_chars (f : ascii -> ascii) (s : string) : string :=
  match s with
  | EmptyString => EmptyString
  | String c s' => String (f c) (map_chars f s')
  end.

(** [s.toLowerCase()] and [s.toUpperCase()]. *)
Definition toLowerCase (s : string) : string := map_chars lower_ascii s.
Definition toUpperCase (s : string) : string := map_chars upper_ascii s.

(** The characters [\s] matches: tab, line feed, vertical tab, form feed,
    carriage return and space. *)
Definition is_space (c : ascii) : bool :=
  let n := nat_of_ascii c in
  ((9 <=? n)%nat && (n <=? 13)%nat) || (n =? 32)%nat.

(** [s.replace(/\s/g, "")]. *)
Fixpoint remove_spaces (s : string) : string :=
  match s with
  | EmptyString => EmptyString
  | String c s' => if is_space c then remove_spaces s' else String c (remove_spaces s')
  end.

(** [s.replace(c, "")] for a one-character pattern: only the first
    occurrence goes. *)
Fixpoint remove_first (c : ascii) (s : string) : string :=
  match s with
  | EmptyString => EmptyString
  | String d s' => if Ascii.eqb c d then s' else String d (remove_first c s')
  end.

(** [s.endsWith(suffix)]: some tail of [s] is [suffix]. *)
Fixpoint endsWith (s suffix : string) : bool :=
  String.eqb s suffix ||
  match s with
  | EmptyString => false
  | String _ s' => endsWith s' suffix
  end.

(** A string in a condition: the empty string is falsy. *)
Definition truthy (s : string) : bool := negb (String.eqb s "").

(** [a || b] on strings. *)
Definition or_else (a b : string) : string := if truthy a then a else b.

(** [String(n)] for an integer. *)
Definition string_of_Z (z : Z) : string := NilEmpty.string_of_int (Z.to_int z).

(** An object used as a record keyed by strings ([Record<string, A>]): its
    own properties in insertion order; its prototype is not part of the
    model.  [obj_set k v o] is the assignment [o[k] = v] for a key that [o]
    has or that is not ["__proto__"]: it overwrites the property in place
    when [o] has it and appends it otherwise.  [obj_assign] below is the
    assignment for any key. *)
Definition obj (A : Type) : Type := list (string * A).

Fixpoint obj_get {A} (k : string) (o : obj A) : option A :=
  match o with
  | [] => None
  | (k', v) :: o' => if String.eqb k k' then Some v else obj_get k o'
  end.

Fixpoint obj_set {A} (k : string) (v : A) (o : obj A) : obj A :=
  match o with
  | [] => [(k, v)]
  | (k', v') :: o' =>
      if String.eqb k k' then (k, v) :: o' else (k', v') :: obj_set k v o'
  end.

(** [Object.keys(o)]. *)
Definition obj_keys {A} (o : obj A) : list string := map fst o.

(** [arr.includes(x)] on an array of strings. *)
Definition includes (l : list string) (x : string) : bool :=
  existsb (String.eqb x) l.

(** [o[k] = v] for any key: assigning to ["__proto__"] on an object that
    has no property of that name of its own sets the prototype of the
    object and creates no property. *)
Definition obj_assign {A} (k : string) (v : A) (o : obj A) : obj A :=
  if String.eqb k "__proto__" && negb (includes (obj_keys o) k) then o
  else obj_set k v o.

(** JSON values as [JSON.stringify] writes them. *)
#[warnings="-register-all"]
Inductive json : Type :=
| JNull
| JBool (b : bool)
| JNum (q : Q)
| JStr (s : string)
| JObj (fields : list (string * json)).

Definition json_keys (j : json) : list string :=
  match j with
  | JObj fields => map fst fields
  | _ => []
  end.

Definition json_get (k : string) (j : json) : option json :=
  match j with
  | JObj fields => obj_get k fields
  | _ => None
  end.

Definition has_field (k : string) (j : json) : bool :=
  match json_get k j with Some _ => true | None => false end.

(** What an awaited promise gives: it rejects with an error, of which the
    handlers read [message], or resolves to a value. *)
Inductive promise (A : Type) : Type :=
| Rejects (message : string)
| Resolves (a : A).
Arguments Rejects {A} message.
Arguments Resolves {A} a.

(** A response of [fetch]: [ok], the [detail] message the service puts in the
    body of a failure ([None] when there is none), and the body read with
    [response.json()] or [response.blob()]. *)
Record response (A : Type) : Type := {
  ok : bool;
  detail : option string;
  body : promise A
}.
Arguments ok {A} r.
Arguments detail {A} r.
Arguments body {A} r.

(** A file picked or dropped by the user. *)
Record File : Type := { name : string; size : Z }.

(** The body of a response read as a blob, and the object URL
    [window.URL.createObjectURL(blob)] makes for it: a handle on that blob.
    A variable initialised to [""] holds no URL. *)
Definition Blob : Type := string.

Inductive url : Type :=
| NoUrl
| ObjectUrl (b : Blob).

End Js.

Import Js.

(** ** The PDF data extractor ([lib/components/Extractor.svelte]) *)

Module Extractor.

Inductive ProcessingOption : Type := allText | tablesOnly.
Inductive OutputFormat : Type := excel | csv.

Definition option_name (o : ProcessingOption) : string :=
  match o with allText => "allText" | tablesOnly => "tablesOnly" end.

Definition format_name (f : OutputFormat) : string :=
  match f with excel => "excel" | csv => "csv" end.

Record State : Type := {
  step : Z;
  pdfFile : option File;
  isUploading : bool;
  processingOption : ProcessingOption;
  outputFormat : OutputFormat;
  errorMsg : string
}.

Definition init : State :=
  {| step := 1; pdfFile := None; isUploading := false;
     processingOption := allText; outputFormat := excel; errorMsg := "" |}.

Definition set_errorMsg (m : string) (st : State) : State :=
  {| step := step st; pdfFile := pdfFile st; isUploading := isUploading st;
     processingOption := processingOption st; outputFormat := outputFormat st;
     errorMsg := m |}.

Definition set_isUploading (b : bool) (st : State) : State :=
  {| step := step st; pdfFile := pdfFile st; isUploading := b;
     processingOption := processingOption st; outputFormat := outputFormat st;
     errorMsg := errorMsg st |}.

Definition set_processingOption (o : ProcessingOption) (st : State) : State :=
  {| step := step st; pdfFile := pdfFile st; isUploading := isUploading st;
     processingOption := o; outputFormat := outputFormat st;
     errorMsg := errorMsg st |}.

Definition set_outputFormat (f : OutputFormat) (st : State) : State :=
  {| step := step st; pdfFile := pdfFile st; isUploading := isUploading st;
     processingOption := processingOption st; outputFormat := f;
     errorMsg := errorMsg st |}.

(** [processPdfSelection(file)] *)
Definition processPdfSelection (file : File) (st : State) : State :=
  if negb (endsWith (toLowerCase (name file)) ".pdf") then
    set_errorMsg "Please upload a valid PDF file." st
  else
    {| step := 2; pdfFile := Some file; isUploading := isUploading st;
       processingOption := processingOption st; outputFormat := outputFormat st;
       errorMsg := "" |}.

(** [handlePdfDrop(event)] and [handlePdfSelect(event)], on the files the
    event carries. *)
Definition handlePdfDrop (files : list File) (st : State) : State :=
  match files with
  | file :: _ => processPdfSelection file st
  | [] => st
  end.

Definition handlePdfSelect (files : list File) (st : State) : State :=
  match files with
  | file :: _ => processPdfSelection file st
  | [] => st
  end.

(** [clearFile()] *)
Definition clearFile (st : State) : State :=
  {| step := 1; pdfFile := None; isUploading := isUploading st;
     processingOption := processingOption st; outputFormat := outputFormat st;
     errorMsg := "" |}.

(** The form posted to [/converter/extract]. *)
Record ExtractRequest : Type := {
  form_pdfFile : File;
  form_processingOption : string;
  form_outputFormat : string
}.

(** The service's answer.  [error_detail] is [(await response.json()).detail]
    ([None] when the body has no such field); [tables] is the number of
    tables or pages the service put in the file, which the client never
    reads. *)
Record ExtractResponse : Type := {
  ok : bool;
  error_detail : promise (option string);
  blob : promise Blob;
  tables : nat
}.

(** The anchor the handler clicks: its [href] and [download] attributes. *)
Record Download : Type := { href : url; download : string }.

(** [handleExtract()] up to the [await fetch(...)]. *)
Definition handleExtract_request (st : State) : State * option ExtractRequest :=
  match pdfFile st with
  | None => (st, None)
  | Some file =>
      (set_errorMsg "" (set_isUploading true st),
       Some {| form_pdfFile := file;
               form_processingOption := option_name (processingOption st);
               form_outputFormat := format_name (outputFormat st) |})
  end.

(** The extension chosen for the downloaded file. *)
Definition download_ext (o : ProcessingOption) (f : OutputFormat) : string :=
  let ext := match f with csv => "csv" | excel => "xlsx" end in
  match o, f with
  | tablesOnly, csv => "zip"
  | _, _ => ext
  end.

(** The [catch] and [finally] blocks of [handleExtract]. *)
Definition extract_catch (message : string) (st : State) : State :=
  set_isUploading false
    (set_errorMsg (or_else message "Could not connect to the extraction server.") st).

(** [handleExtract()] from the answer of [fetch] on; [now] is
    [new Date().getTime()]. *)
Definition handleExtract_answer (answer : promise ExtractResponse) (now : Z)
    (st : State) : State * option Download :=
  match answer with
  | Rejects message => (extract_catch message st, None)
  | Resolves response =>
      if negb (ok response) then
        match error_detail response with
        | Rejects message => (extract_catch message st, None)
        | Resolves detail =>
            let d := match detail with Some d => d | None => "" end in
            (extract_catch (or_else d "Extraction failed") st, None)
        end
      else
        match blob response with
        | Rejects message => (extract_catch message st, None)
        | Resolves b =>
            let ext := download_ext (processingOption st) (outputFormat st) in
            (set_isUploading false (clearFile st),
             Some {| href := ObjectUrl b;
                     download := "Extracted_" ++ option_name (processingOption st)
                                 ++ "_" ++ string_of_Z now ++ "." ++ ext |})
        end
  end.

(** The whole of [handleExtract()] when nothing else happens while it
    awaits. *)
Definition handleExtract (answer : promise ExtractResponse) (now : Z)
    (st : State) : State * option ExtractRequest * option Download :=
  match handleExtract_request st with
  | (st1, None) => (st1, None, None)
  | (st1, Some request) =>
      let '(st2, dl) := handleExtract_answer answer now st1 in
      (st2, Some request, dl)
  end.

(** What can happen to the component: the user's gestures and the service's
    answers, in any order. *)
Inductive Event : Type :=
| PdfDrop (files : list File)
| PdfSelect (files : list File)
| ClearFile
| ChooseOption (o : ProcessingOption)
| ChooseFormat (f : OutputFormat)
| DismissError
| ExtractClick
| ExtractAnswer (answer : promise ExtractResponse) (now : Z).

Definition on_event (ev : Event) (st : State) : State * list ExtractRequest :=
  match ev with
  | PdfDrop files => (handlePdfDrop files st, [])
  | PdfSelect files => (handlePdfSelect files st, [])
  | ClearFile => (clearFile st, [])
  | ChooseOption o => (set_processingOption o st, [])
  | ChooseFormat f => (set_outputFormat f st, [])
  | DismissError => (set_errorMsg "" st, [])
  | ExtractClick =>
      match handleExtract_request st with
      | (st', Some request) => (st', [request])
      | (st', None) => (st', [])
      end
  | ExtractAnswer answer now => (fst (handleExtract_answer answer now st), [])
  end.

(** The state after a sequence of events, and the requests sent on the way. *)
Fixpoint run (evs : list Event) (st : State) : State * list ExtractRequest :=
  match evs with
  | [] => (st, [])
  | ev :: evs' =>
      let '(st1, sent1) := on_event ev st in
      let '(st2, sent2) := run evs' st1 in
      (st2, (sent1 ++ sent2)%list)
  end.

End Extractor.

(** ** The generator page ([routes/+page.svelte]) *)

Module Page.

Inductive MappingType : Type := csv_column | custom_text | combined.

(** The string a [MappingType] is. *)
Definition type_tag (t : MappingType) : string :=
  match t with
  | csv_column => "csv_column"
  | custom_text => "custom_text"
  | combined => "combined"
  end.

Record MappingConfig : Type := {
  type : MappingType;
  value : string;
  customText : string;
  prefix : string;
  suffix : string
}.

Record Options : Type := { docx : bool; pdf : bool }.

Record State : Type := {
  step : Z;
  csvFile : option File;
  docxFile : option File;
  isUploading : bool;
  sessionId : string;
  errorMsg : string;
  csvHeaders : list string;
  docxPlaceholders : list string;
  totalRows : Z;
  mappings : obj MappingConfig;
  options : Options;
  isGenerating : bool;
  generationComplete : bool;
  downloadUrl : url
}.

Definition init : State :=
  {| step := 1; csvFile := None; docxFile := None; isUploading := false;
     sessionId := ""; errorMsg := ""; csvHeaders := []; docxPlaceholders := [];
     totalRows := 0; mappings := [];
     options := {| docx := true; pdf := true |};
     isGenerating := false; generationComplete := false; downloadUrl := NoUrl |}.

Definition set_errorMsg (m : string) (st : State) : State :=
  {| step := step st; csvFile := csvFile st; docxFile := docxFile st;
     isUploading := isUploading st; sessionId := sessionId st; errorMsg := m;
     csvHeaders := csvHeaders st; docxPlaceholders := docxPlaceholders st;
     totalRows := totalRows st; mappings := mappings st; options := options st;
     isGenerating := isGenerating st;
     generationComplete := generationComplete st; downloadUrl := downloadUrl st |}.

Definition set_isUploading (b : bool) (st : State) : State :=
  {| step := step st; csvFile := csvFile st; docxFile := docxFile st;
     isUploading := b; sessionId := sessionId st; errorMsg := errorMsg st;
     csvHeaders := csvHeaders st; docxPlaceholders := docxPlaceholders st;
     totalRows := totalRows st; mappings := mappings st; options := options st;
     isGenerating := isGenerating st;
     generationComplete := generationComplete st; downloadUrl := downloadUrl st |}.

Definition set_sessionId (id : string) (st : State) : State :=
  {| step := step st; csvFile := csvFile st; docxFile := docxFile st;
     isUploading := isUploading st; sessionId := id; errorMsg := errorMsg st;
     csvHeaders := csvHeaders st; docxPlaceholders := docxPlaceholders st;
     totalRows := totalRows st; mappings := mappings st; options := options st;
     isGenerating := isGenerating st;
     generationComplete := generationComplete st; downloadUrl := downloadUrl st |}.

Definition set_mappings (m : obj MappingConfig) (st : State) : State :=
  {| step := step st; csvFile := csvFile st; docxFile := docxFile st;
     isUploading := isUploading st; sessionId := sessionId st;
     errorMsg := errorMsg st;
     csvHeaders := csvHeaders st; docxPlaceholders := docxPlaceholders st;
     totalRows := totalRows st; mappings := m; options := options st;
     isGenerating := isGenerating st;
     generationComplete := generationComplete st; downloadUrl := downloadUrl st |}.

Definition set_step (n : Z) (st : State) : State :=
  {| step := n; csvFile := csvFile st; docxFile := docxFile st;
     isUploading := isUploading st; sessionId := sessionId st;
     errorMsg := errorMsg st;
     csvHeaders := csvHeaders st; docxPlaceholders := docxPlaceholders st;
     totalRows := totalRows st; mappings := mappings st; options := options st;
     isGenerating := isGenerating st;
     generationComplete := generationComplete st; downloadUrl := downloadUrl st |}.

Definition set_isGenerating (b : bool) (st : State) : State :=
  {| step := step st; csvFile := csvFile st; docxFile := docxFile st;
     isUploading := isUploading st; sessionId := sessionId st;
     errorMsg := errorMsg st;
     csvHeaders := csvHeaders st; docxPlaceholders := docxPlaceholders st;
     totalRows := totalRows st; mappings := mappings st; options := options st;
     isGenerating := b;
     generationComplete := generationComplete st; downloadUrl := downloadUrl st |}.

(** The [for (const header of csvHeaders)] loop of [autoDetectMappings]:
    the first header that matches the placeholder, [""] when none does. *)
Fixpoint find_match (ph cleanPh : string) (headers : list string) : string :=
  match headers with
  | [] => ""
  | header :: rest =>
      let cleanHeader := remove_spaces (toLowerCase header) in
      if String.eqb cleanHeader cleanPh
         || (String.eqb header "P_ ADDRESS" && String.eqb ph "#P_ ADDRESS")
      then header
      else find_match ph cleanPh rest
  end.

(** The configuration [autoDetectMappings] gives placeholder [ph]. *)
Definition detect (headers : list string) (ph : string) : MappingConfig :=
  let cleanPh := remove_spaces (toLowerCase (remove_first "#"%char ph)) in
  let match_ := find_match ph cleanPh headers in
  {| type := if truthy match_ then csv_column else custom_text;
     value := match_; customText := ""; prefix := ""; suffix := "" |}.

(** [autoDetectMappings()] *)
Definition autoDetectMappings (st : State) : State :=
  set_mappings
    (fold_left (fun m ph => obj_assign ph (detect (csvHeaders st) ph) m)
       (docxPlaceholders st) (mappings st))
    st.

Record UploadData : Type := { session_id : string }.

Record MetaData : Type := {
  csv_headers : list string;
  docx_placeholders : list string;
  total_rows : Z
}.

(** The [catch] and [finally] blocks of [handleUpload]. *)
Definition upload_catch (message : string) (st : State) : State :=
  set_isUploading false (set_errorMsg message st).

(** [handleUpload()], given what [/upload] and [/metadata] answer. *)
Definition handleUpload (up : promise (response UploadData))
    (meta : promise (response MetaData)) (st : State) : State :=
  match csvFile st, docxFile st with
  | Some _, Some _ =>
      let st1 := set_errorMsg "" (set_isUploading true st) in
      match up with
      | Rejects message => upload_catch message st1
      | Resolves upRes =>
          if negb (ok upRes) then upload_catch "Upload failed" st1
          else
            match body upRes with
            | Rejects message => upload_catch message st1
            | Resolves upData =>
                let st2 := set_sessionId (session_id upData) st1 in
                match meta with
                | Rejects message => upload_catch message st2
                | Resolves metaRes =>
                    if negb (ok metaRes) then
                      upload_catch "Metadata extraction failed" st2
                    else
                      match body metaRes with
                      | Rejects message => upload_catch message st2
                      | Resolves metaData =>
                          let st3 :=
                            {| step := step st2; csvFile := csvFile st2;
                               docxFile := docxFile st2;
                               isUploading := isUploading st2;
                               sessionId := sessionId st2;
                               errorMsg := errorMsg st2;
                               csvHeaders := csv_headers metaData;
                               docxPlaceholders := docx_placeholders metaData;
                               totalRows := total_rows metaData;
                               mappings := mappings st2; options := options st2;
                               isGenerating := isGenerating st2;
                               generationComplete := generationComplete st2;
                               downloadUrl := downloadUrl st2 |} in
                          set_isUploading false
                            (set_step 2 (autoDetectMappings st3))
                      end
                end
            end
      end
  | _, _ => st
  end.

(** An entry of the [cleanMapping] payload. *)
Record CleanEntry : Type := {
  clean_type : string;
  clean_value : string;
  clean_prefix : string;
  clean_suffix : string
}.

Definition clean_entry (conf : MappingConfig) : CleanEntry :=
  {| clean_type := type_tag (type conf);
     clean_value := match type conf with
                    | custom_text => customText conf
                    | _ => value conf
                    end;
     clean_prefix := prefix conf;
     clean_suffix := suffix conf |}.

(** The [for (const [key, conf] of Object.entries(mappings))] loop. *)
Definition cleanMapping (m : obj MappingConfig) : obj CleanEntry :=
  fold_left (fun acc kc => obj_set (fst kc) (clean_entry (snd kc)) acc) m [].

Definition entry_json (e : CleanEntry) : json :=
  JObj [("type", JStr (clean_type e)); ("value", JStr (clean_value e));
        ("prefix", JStr (clean_prefix e)); ("suffix", JStr (clean_suffix e))].

(** The body posted to [/generate]. *)
Definition generate_body (st : State) : json :=
  JObj [("session_id", JStr (sessionId st));
        ("mapping",
         JObj (map (fun ke => (fst ke, entry_json (snd ke)))
                 (cleanMapping (mappings st))));
        ("generate_docx", JBool (docx (options st)));
        ("generate_pdf", JBool (pdf (options st)))].

(** [handleGenerate()] up to the [await fetch(...)]. *)
Definition handleGenerate_request (st : State) : State * json :=
  let st1 := set_errorMsg "" (set_isGenerating true st) in
  (st1, generate_body st1).

(** The [catch] and [finally] blocks of [handleGenerate]. *)
Definition generate_catch (message : string) (st : State) : State :=
  set_isGenerating false (set_errorMsg message st).

(** [handleGenerate()] from the answer of [fetch] on. *)
Definition handleGenerate_answer (answer : promise (response Blob))
    (st : State) : State :=
  match answer with
  | Rejects message => generate_catch message st
  | Resolves res =>
      if negb (ok res) then generate_catch "Generation failed" st
      else
        match body res with
        | Rejects message => generate_catch message st
        | Resolves blob =>
            {| step := 3; csvFile := csvFile st; docxFile := docxFile st;
               isUploading := isUploading st; sessionId := sessionId st;
               errorMsg := errorMsg st;
               csvHeaders := csvHeaders st;
               docxPlaceholders := docxPlaceholders st;
               totalRows := totalRows st; mappings := mappings st;
               options := options st;
               isGenerating := false;
               generationComplete := true; downloadUrl := ObjectUrl blob |}
        end
  end.

(** The whole of [handleGenerate()]. *)
Definition handleGenerate (answer : promise (response Blob)) (st : State)
    : State * json :=
  let '(st1, request) := handleGenerate_request st in
  (handleGenerate_answer answer st1, request).

(** The [disabled] attribute of the "Forge Documents" button, which is
    rendered in step 2. *)
Definition generate_disabled (st : State) : bool :=
  (length (obj_keys (mappings st)) =? 0)%nat || isGenerating st.

(** A click on that button: a disabled button runs no handler. *)
Definition generate_click (answer : promise (response Blob)) (st : State)
    : State * option json :=
  if (step st =? 2)%Z && negb (generate_disabled st) then
    let '(st', request) := handleGenerate answer st in (st', Some request)
  else (st, None).

Definition set_csvFile (f : option File) (st : State) : State :=
  {| step := step st; csvFile := f; docxFile := docxFile st;
     isUploading := isUploading st; sessionId := sessionId st;
     errorMsg := errorMsg st;
     csvHeaders := csvHeaders st; docxPlaceholders := docxPlaceholders st;
     totalRows := totalRows st; mappings := mappings st; options := options st;
     isGenerating := isGenerating st;
     generationComplete := generationComplete st; downloadUrl := downloadUrl st |}.

Definition set_docxFile (f : option File) (st : State) : State :=
  {| step := step st; csvFile := csvFile st; docxFile := f;
     isUploading := isUploading st; sessionId := sessionId st;
     errorMsg := errorMsg st;
     csvHeaders := csvHeaders st; docxPlaceholders := docxPlaceholders st;
     totalRows := totalRows st; mappings := mappings st; options := options st;
     isGenerating := isGenerating st;
     generationComplete := generationComplete st; downloadUrl := downloadUrl st |}.

Definition set_options (o : Options) (st : State) : State :=
  {| step := step st; csvFile := csvFile st; docxFile := docxFile st;
     isUploading := isUploading st; sessionId := sessionId st;
     errorMsg := errorMsg st;
     csvHeaders := csvHeaders st; docxPlaceholders := docxPlaceholders st;
     totalRows := totalRows st; mappings := mappings st; options := o;
     isGenerating := isGenerating st;
     generationComplete := generationComplete st; downloadUrl := downloadUrl st |}.

(** The [disabled] attribute of the "Proceed to Mapping" button, which is
    rendered in step 1. *)
Definition upload_disabled (st : State) : bool :=
  match csvFile st, docxFile st with
  | Some _, Some _ => isUploading st
  | _, _ => true
  end.

Definition upload_click (up : promise (response UploadData))
    (meta : promise (response MetaData)) (st : State) : State :=
  if (step st =? 1)%Z && negb (upload_disabled st) then handleUpload up meta st
  else st.

(** An edit of the card of placeholder [ph], rendered in step 2 for each
    element of [docxPlaceholders]: [mappings[ph].field = ...]. *)
Definition edit (ph : string) (change : MappingConfig -> MappingConfig)
    (st : State) : State :=
  if (step st =? 2)%Z && includes (docxPlaceholders st) ph then
    match obj_get ph (mappings st) with
    | Some conf => set_mappings (obj_set ph (change conf) (mappings st)) st
    | None => st
    end
  else st.

Definition with_type (t : MappingType) (conf : MappingConfig) : MappingConfig :=
  {| type := t; value := value conf; customText := customText conf;
     prefix := prefix conf; suffix := suffix conf |}.

Definition with_value (v : string) (conf : MappingConfig) : MappingConfig :=
  {| type := type conf; value := v; customText := customText conf;
     prefix := prefix conf; suffix := suffix conf |}.

Definition with_customText (s : string) (conf : MappingConfig) : MappingConfig :=
  {| type := type conf; value := value conf; customText := s;
     prefix := prefix conf; suffix := suffix conf |}.

Definition with_prefix (s : string) (conf : MappingConfig) : MappingConfig :=
  {| type := type conf; value := value conf; customText := customText conf;
     prefix := s; suffix := suffix conf |}.

Definition with_suffix (s : string) (conf : MappingConfig) : MappingConfig :=
  {| type := type conf; value := value conf; customText := customText conf;
     prefix := prefix conf; suffix := s |}.

(** What can happen to the page: the user's gestures, each with the answers
    the service gives to the requests it starts. *)
Inductive Event : Type :=
| CsvDrop (file : option File)
| DocxDrop (file : option File)
| UploadClick (up : promise (response UploadData))
    (meta : promise (response MetaData))
| ChooseType (ph : string) (t : MappingType)
| ChooseColumn (ph : string) (header : string)
| TypeCustomText (ph : string) (text : string)
| TypePrefix (ph : string) (text : string)
| TypeSuffix (ph : string) (text : string)
| ToggleDocx
| TogglePdf
| GenerateClick (answer : promise (response Blob)).

Definition on_event (ev : Event) (st : State) : State :=
  match ev with
  | CsvDrop file => set_csvFile file st
  | DocxDrop file => set_docxFile file st
  | UploadClick up meta => upload_click up meta st
  | ChooseType ph t => edit ph (with_type t) st
  | ChooseColumn ph header => edit ph (with_value header) st
  | TypeCustomText ph text => edit ph (with_customText text) st
  | TypePrefix ph text => edit ph (with_prefix text) st
  | TypeSuffix ph text => edit ph (with_suffix text) st
  | ToggleDocx =>
      set_options {| docx := negb (docx (options st)); pdf := pdf (options st) |} st
  | TogglePdf =>
      set_options {| docx := docx (options st); pdf := negb (pdf (options st)) |} st
  | GenerateClick answer => fst (generate_click answer st)
  end.

(** The page after a sequence of events. *)
Definition run (evs : list Event) (st : State) : State :=
  fold_left (fun st ev => on_event ev st) evs st.

End Page.

(** ** The generator component ([lib/components/Generator.svelte]) *)

Module Generator.

Inductive MappingType : Type := data_column | custom_text | combined.

Definition type_tag (t : MappingType) : string :=
  match t with
  | data_column => "data_column"
  | custom_text => "custom_text"
  | combined => "combined"
  end.

Record MappingConfig : Type := {
  type : MappingType;
  value : string;
  customText : string;
  prefix : string;
  suffix : string;
  fallback : option string;
  modifier : option string;
  fromMemory : option bool
}.

Record Options : Type := {
  docx : bool;
  pdf : bool;
  removeEmptyPages : bool;
  mergeOutput : bool
}.

Record DocSettings : Type := {
  pageSize : string;
  customWidth : Q;
  customHeight : Q;
  fontName : string;
  fontSize : Q
}.

(** The variables of the component that the functions below read or
    write.  [wsConnection] holds the address of the open progress socket. *)
Record State : Type := {
  step : Z;
  sessionId : string;
  errorMsg : string;
  previewRows : list (obj string);
  progressCurrent : Z;
  progressTotal : Z;
  progressMessage : string;
  wsConnection : option string;
  dataHeaders : list string;
  docxPlaceholders : list string;
  totalRows : Z;
  mappings : obj MappingConfig;
  options : Options;
  isGenerating : bool;
  generationComplete : bool;
  docSettings : DocSettings;
  rowsPerDoc : Z;
  downloadUrl : url
}.

Definition init : State :=
  {| step := 1; sessionId := ""; errorMsg := ""; previewRows := [];
     progressCurrent := 0; progressTotal := 0; progressMessage := "";
     wsConnection := None; dataHeaders := []; docxPlaceholders := [];
     totalRows := 0; mappings := [];
     options := {| docx := true; pdf := true; removeEmptyPages := true;
                   mergeOutput := false |};
     isGenerating := false; generationComplete := false;
     docSettings := {| pageSize := "default"; customWidth := 17 # 2;
                       customHeight := 11 # 1; fontName := "";
                       fontSize := 0 # 1 |};
     rowsPerDoc := 1; downloadUrl := NoUrl |}.

(** [Math.ceil(a / b)] for integers [a] and [b > 0]. *)
Definition ceil_div (a b : Z) : Z := (- ((- a) / b))%Z.

(** [$: estimatedDocs] *)
Definition estimatedDocs (st : State) : Z :=
  if (0 <? rowsPerDoc st)%Z then ceil_div (totalRows st) (rowsPerDoc st)
  else totalRows st.

Definition is_modifier (m : string) (conf : MappingConfig) : bool :=
  match modifier conf with
  | Some m' => String.eqb m' m
  | None => false
  end.

(** The body of the loop of [computePreview]: the previewed value of one
    configuration on the first row. *)
Definition preview_entry (conf : MappingConfig) (firstRow : obj string) : string :=
  let val :=
    match type conf with
    | custom_text => customText conf
    | data_column =>
        if truthy (value conf) then
          or_else (match obj_get (value conf) firstRow with
                   | Some v => v
                   | None => ""
                   end) ""
        else ""
    | combined => ""
    end in
  let val := if truthy (prefix conf) then prefix conf ++ val else val in
  let val := if truthy (suffix conf) then val ++ suffix conf else val in
  match type conf with
  | data_column =>
      let val := if is_modifier "uppercase" conf then toUpperCase val else val in
      let val := if is_modifier "lowercase" conf then toLowerCase val else val in
      match fallback conf with
      | Some fb => if negb (truthy val) && truthy fb then fb else val
      | None => val
      end
  | _ => val
  end.

(** [computePreview(maps, rows)] *)
Definition computePreview (maps : obj MappingConfig) (rows : list (obj string))
    : obj string :=
  match rows with
  | [] => []
  | firstRow :: _ =>
      fold_left
        (fun result pc => obj_set (fst pc) (preview_entry (snd pc) firstRow) result)
        maps []
  end.

Definition find_match (ph cleanPh : string) (headers : list string) : string :=
  Page.find_match ph cleanPh headers.

Definition remembered (memConfig : MappingConfig) : MappingConfig :=
  {| type := type memConfig; value := value memConfig;
     customText := customText memConfig; prefix := prefix memConfig;
     suffix := suffix memConfig; fallback := fallback memConfig;
     modifier := modifier memConfig; fromMemory := Some true |}.

(** The configuration [autoDetectMappings] gives placeholder [ph] when no
    remembered one applies. *)
Definition detect_by_name (headers : list string) (ph : string) : MappingConfig :=
  let cleanPh := remove_spaces (toLowerCase (remove_first "#"%char ph)) in
  let bestMatch := find_match ph cleanPh headers in
  {| type := if truthy bestMatch then data_column else custom_text;
     value := bestMatch; customText := ""; prefix := ""; suffix := "";
     fallback := None; modifier := None; fromMemory := None |}.

(** The body of the [forEach] of [autoDetectMappings]; [memory] is what
    [localStorage] holds under ["docforge_global_memory"]. *)
Definition detect (memory : obj MappingConfig) (headers : list string)
    (ph : string) : MappingConfig :=
  match obj_get ph memory with
  | Some memConfig =>
      match type memConfig with
      | custom_text =>
          if truthy (customText memConfig) then remembered memConfig
          else detect_by_name headers ph
      | _ =>
          if includes headers (value memConfig) then remembered memConfig
          else detect_by_name headers ph
      end
  | None => detect_by_name headers ph
  end.

(** [autoDetectMappings()], on the component's [mappings], for placeholders
    that are ordinary keys: [obj_set] gives every placeholder an entry,
    where the assignment of the source gives a placeholder [__proto__]
    none. *)
Definition autoDetectMappings (memory : obj MappingConfig)
    (headers placeholders : list string) (m : obj MappingConfig)
    : obj MappingConfig :=
  fold_left (fun m ph => obj_set ph (detect memory headers ph) m) placeholders m.

Definition clean_entry (conf : MappingConfig) : Page.CleanEntry :=
  {| Page.clean_type := type_tag (type conf);
     Page.clean_value := match type conf with
                         | custom_text => customText conf
                         | _ => value conf
                         end;
     Page.clean_prefix := prefix conf;
     Page.clean_suffix := suffix conf |}.

Definition cleanMapping (m : obj MappingConfig) : obj Page.CleanEntry :=
  fold_left (fun acc kc => obj_set (fst kc) (clean_entry (snd kc)) acc) m [].

Definition doc_settings_json (d : DocSettings) : json :=
  JObj [("page_size", JStr (pageSize d));
        ("page_width",
         if String.eqb (pageSize d) "custom" then JNum (customWidth d) else JNull);
        ("page_height",
         if String.eqb (pageSize d) "custom" then JNum (customHeight d) else JNull);
        ("font_name", if truthy (fontName d) then JStr (fontName d) else JNull);
        ("font_size",
         if Qeq_bool (fontSize d) 0 then JNull else JNum (fontSize d))].

(** The body posted to [/generate]. *)
Definition generate_body (st : State) : json :=
  JObj [("session_id", JStr (sessionId st));
        ("mapping",
         JObj (map (fun ke => (fst ke, Page.entry_json (snd ke)))
                 (cleanMapping (mappings st))));
        ("generate_docx", JBool (docx (options st)));
        ("generate_pdf", JBool (pdf (options st)));
        ("remove_empty_pages", JBool (removeEmptyPages (options st)));
        ("merge_output", JBool (mergeOutput (options st)));
        ("rows_per_doc", JNum (inject_Z (rowsPerDoc st)));
        ("doc_settings", doc_settings_json (docSettings st))].

(** [handleGenerate()] up to the [await fetch(...)]. *)
Definition handleGenerate_request (st : State) : State * json :=
  let st1 :=
    {| step := step st; sessionId := sessionId st; errorMsg := "";
       previewRows := previewRows st;
       progressCurrent := 0; progressTotal := totalRows st;
       progressMessage := "Starting generation...";
       wsConnection := Some ("ws://localhost:8000/ws/progress/" ++ sessionId st);
       dataHeaders := dataHeaders st; docxPlaceholders := docxPlaceholders st;
       totalRows := totalRows st; mappings := mappings st;
       options := options st; isGenerating := true;
       generationComplete := generationComplete st;
       docSettings := docSettings st; rowsPerDoc := rowsPerDoc st;
       downloadUrl := downloadUrl st |} in
  (st1, generate_body st1).

(** The [catch] and [finally] blocks of [handleGenerate]. *)
Definition generate_catch (message : string) (st : State) : State :=
  {| step := step st; sessionId := sessionId st; errorMsg := message;
     previewRows := previewRows st;
     progressCurrent := progressCurrent st; progressTotal := progressTotal st;
     progressMessage := progressMessage st;
     wsConnection := None;
     dataHeaders := dataHeaders st; docxPlaceholders := docxPlaceholders st;
     totalRows := totalRows st; mappings := mappings st;
     options := options st; isGenerating := false;
     generationComplete := generationComplete st;
     docSettings := docSettings st; rowsPerDoc := rowsPerDoc st;
     downloadUrl := downloadUrl st |}.

(** [handleGenerate()] from the answer of [fetch] on. *)
Definition handleGenerate_answer (answer : promise (response Blob))
    (st : State) : State :=
  match answer with
  | Rejects message => generate_catch message st
  | Resolves res =>
      if negb (ok res) then generate_catch "Generation failed" st
      else
        match body res with
        | Rejects message => generate_catch message st
        | Resolves blob =>
            {| step := 3; sessionId := sessionId st; errorMsg := errorMsg st;
               previewRows := previewRows st;
               progressCurrent := progressCurrent st;
               progressTotal := progressTotal st;
               progressMessage := progressMessage st;
               wsConnection := None;
               dataHeaders := dataHeaders st;
               docxPlaceholders := docxPlaceholders st;
               totalRows := totalRows st; mappings := mappings st;
               options := options st; isGenerating := false;
               generationComplete := true;
               docSettings := docSettings st; rowsPerDoc := rowsPerDoc st;
               downloadUrl := ObjectUrl blob |}
        end
  end.

(** The whole of [handleGenerate()]. *)
Definition handleGenerate (answer : promise (response Blob)) (st : State)
    : State * json :=
  let '(st1, request) := handleGenerate_request st in
  (handleGenerate_answer answer st1, request).

(** The [disabled] attribute of the "Forge" button. *)
Definition generate_disabled (st : State) : bool :=
  (length (obj_keys (mappings st)) =? 0)%nat.

End Generator.

(** ** The row batcher of the service *)

Module Batcher.

(** Modelled from the spec: the service's Row Batcher,
    [batch(rows, rowsPerDoc)], is not among the client's sources.  Section
    4.3: "[rowsPerDoc <= 0] is treated as [1]". *)
Definition effective (rowsPerDoc : Z) : nat :=
  if (rowsPerDoc <=? 0)%Z then 1%nat else Z.to_nat rowsPerDoc.

(** Modelled from the spec: the batcher's document count, section 4.3:
    "Document count = [ceil(len(rows) / rowsPerDoc)]"; the quotient is
    rounded up by adding [rowsPerDoc - 1] before the integer division. *)
Definition documentCount (n : nat) (rowsPerDoc : Z) : nat :=
  ((n + effective rowsPerDoc - 1) / effective rowsPerDoc)%nat.

(** Modelled from the spec: the bounds of the batcher's group [i], section
    4.3: "Group [i] contains rows [[i*rowsPerDoc, min((i+1)*rowsPerDoc,
    len(rows)))]". *)
Definition range_start (rowsPerDoc : Z) (i : nat) : nat :=
  (i * effective rowsPerDoc)%nat.

(** Modelled from the spec: the end of that range. *)
Definition range_end (n : nat) (rowsPerDoc : Z) (i : nat) : nat :=
  Nat.min ((i + 1) * effective rowsPerDoc) n.

(** Modelled from the spec: the batcher's group [i], the rows of that
    range. *)
Definition group {A} (rows : list A) (rowsPerDoc : Z) (i : nat) : list A :=
  firstn (range_end (length rows) rowsPerDoc i - range_start rowsPerDoc i)
    (skipn (range_start rowsPerDoc i) rows).

(** Modelled from the spec: the batcher's [batch(rows, rowsPerDoc)], the
    groups [0] to [documentCount - 1] in order. *)
Definition batch {A} (rows : list A) (rowsPerDoc : Z) : list (list A) :=
  map (group rows rowsPerDoc) (seq 0 (documentCount (length rows) rowsPerDoc)).

End Batcher.

(** ** The mapping resolver of the service *)

Module Resolver.




End Resolver.

(** ** Properties the statements below are phrased with *)

Module Props.

(** The name ends in [".pdf"], in any mix of upper and lower case. *)
Definition pdf_extension (ext : string) : Prop :=
  exists p d f : ascii,
    ext = String "."%char (String p (String d (String f EmptyString)))
    /\ (p = "p"%char \/ p = "P"%char)
    /\ (d = "d"%char \/ d = "D"%char)
    /\ (f = "f"%char \/ f = "F"%char).

Definition ends_in_pdf (file_name : string) : Prop :=
  exists stem ext, file_name = stem ++ ext /\ pdf_extension ext.

(** The file the extractor holds, if any, passed the test of
    [processPdfSelection]. *)
Definition holds_pdf (st : Extractor.State) : Prop :=
  forall file, Extractor.pdfFile st = Some file ->
    endsWith (toLowerCase (name file)) ".pdf" = true.

Definition sends_pdf (request : Extractor.ExtractRequest) : Prop :=
  endsWith (toLowerCase (name (Extractor.form_pdfFile request))) ".pdf" = true.

(** The handler of a generate click left the page where it was. *)
Definition stays (st st' : Page.State) : Prop :=
  Page.step st' = Page.step st
  /\ Page.generationComplete st' = Page.generationComplete st
  /\ Page.downloadUrl st' = Page.downloadUrl st.

(** The same for an upload: the page stays on its step and no mapping is
    initialised. *)
Definition aborted (st st' : Page.State) : Prop :=
  Page.step st' = Page.step st
  /\ Page.mappings st' = Page.mappings st
  /\ Page.csvHeaders st' = Page.csvHeaders st
  /\ Page.docxPlaceholders st' = Page.docxPlaceholders st
  /\ Page.isUploading st' = false.

(** The mapping record of the page follows the placeholders: it is empty
    in step 1 and has the placeholders other than ["__proto__"] as its
    keys, each once, later. *)
Definition mapped_once (st : Page.State) : Prop :=
  NoDup (obj_keys (Page.mappings st))
  /\ (Page.step st = 1%Z -> Page.mappings st = [])
  /\ (Page.step st <> 1%Z ->
      forall ph, In ph (obj_keys (Page.mappings st))
                 <-> In ph (Page.docxPlaceholders st) /\ ph <> "__proto__").

(** The object has exactly one property named [k]. *)
Definition one_entry {A} (k : string) (o : obj A) : Prop :=
  length (filter (fun e => String.eqb (fst e) k) o) = 1%nat.

(** The fields of a generate request, as the interface lists them. *)
Definition generate_fields : list string :=
  ["session_id"; "mapping"; "generate_docx"; "generate_pdf";
   "remove_empty_pages"; "merge_output"; "rows_per_doc"; "doc_settings"].

Definition carries_generate_fields (request : json) : bool :=
  forallb (fun k => has_field k request) generate_fields.

(** [k] is the ceiling of [n / d]: the least number of groups of [d] that
    hold [n] rows. *)
Definition is_ceiling (n d k : nat) : Prop :=
  (n <= k * d)%nat /\ forall k', (n <= k' * d)%nat -> (k <= k')%nat.

End Props.

Import Props.

(** ** Sample sessions *)

Module Samples.

Definition report_pdf : File := {| name := "Report.PDF"; size := 2048 |}.
Definition notes_txt : File := {| name := "notes.txt"; size := 12 |}.

(** The extractor with a PDF chosen, tables only, CSV output. *)
Definition tables_to_csv : Extractor.State :=
  Extractor.set_outputFormat Extractor.csv
    (Extractor.set_processingOption Extractor.tablesOnly
       (Extractor.processPdfSelection report_pdf Extractor.init)).

(** The service extracted one table. *)
Definition one_table : promise Extractor.ExtractResponse :=
  Resolves {| Extractor.ok := true; Extractor.error_detail := Resolves None;
              Extractor.blob := Resolves "a,b,c"; Extractor.tables := 1 |}.

Definition data_csv : File := {| name := "people.csv"; size := 64 |}.
Definition template_docx : File := {| name := "letter.docx"; size := 4096 |}.

(** The page with both files chosen, before "Proceed to Mapping". *)
Definition chosen : Page.State :=
  {| Page.step := 1; Page.csvFile := Some data_csv;
     Page.docxFile := Some template_docx; Page.isUploading := false;
     Page.sessionId := ""; Page.errorMsg := ""; Page.csvHeaders := [];
     Page.docxPlaceholders := []; Page.totalRows := 0; Page.mappings := [];
     Page.options := {| Page.docx := true; Page.pdf := true |};
     Page.isGenerating := false; Page.generationComplete := false;
     Page.downloadUrl := NoUrl |}.

Definition upload_ok_response : response Page.UploadData :=
  {| ok := true; detail := None;
              body := Resolves {| Page.session_id := "s-1" |} |}.

Definition upload_ok : promise (response Page.UploadData) :=
  Resolves upload_ok_response.

Definition upload_refused_response : response Page.UploadData :=
  {| ok := false;
              detail := Some "Template is not a valid Word document";
              body := Rejects "Unexpected token" |}.

Definition upload_refused : promise (response Page.UploadData) :=
  Resolves upload_refused_response.

(** The template holds no tag. *)
Definition meta_no_tags_response : response Page.MetaData :=
  {| ok := true; detail := None;
              body := Resolves {| Page.csv_headers := ["Name"; "Amount"];
                                  Page.docx_placeholders := [];
                                  Page.total_rows := 2 |} |}.

Definition meta_no_tags : promise (response Page.MetaData) :=
  Resolves meta_no_tags_response.

Definition meta_three_tags_response : response Page.MetaData :=
  {| ok := true; detail := None;
              body := Resolves {| Page.csv_headers := ["Name"; "Amount"];
                                  Page.docx_placeholders :=
                                    ["#NAME"; "#AMOUNT"; "#DATE"; "#NAME"];
                                  Page.total_rows := 2 |} |}.

Definition meta_three_tags : promise (response Page.MetaData) :=
  Resolves meta_three_tags_response.

(** The template holds the tags [#NAME] and [__proto__]. *)
Definition meta_proto_tag_response : response Page.MetaData :=
  {| ok := true; detail := None;
              body := Resolves {| Page.csv_headers := ["Name"; "Amount"];
                                  Page.docx_placeholders := ["#NAME"; "__proto__"];
                                  Page.total_rows := 2 |} |}.

Definition meta_proto_tag : promise (response Page.MetaData) :=
  Resolves meta_proto_tag_response.

Definition meta_refused_response : response Page.MetaData :=
  {| ok := false; detail := Some "Session expired";
              body := Rejects "Unexpected token" |}.

Definition meta_refused : promise (response Page.MetaData) :=
  Resolves meta_refused_response.

Definition archive_ok_response : response Blob :=
  {| ok := true; detail := None; body := Resolves "PK-archive" |}.

Definition archive_ok : promise (response Blob) :=
  Resolves archive_ok_response.

Definition generate_refused_response : response Blob :=
  {| ok := false; detail := Some "Template render failed at row 2";
              body := Rejects "Unexpected token" |}.

Definition generate_refused : promise (response Blob) :=
  Resolves generate_refused_response.

(** The page once the metadata is in, before [autoDetectMappings] runs. *)
Definition described : Page.State :=
  {| Page.step := 1; Page.csvFile := Some data_csv;
     Page.docxFile := Some template_docx; Page.isUploading := true;
     Page.sessionId := "s-1"; Page.errorMsg := "";
     Page.csvHeaders := ["Name"; "Amount"];
     Page.docxPlaceholders := ["#NAME"; "#AMOUNT"; "#DATE"; "#NAME"];
     Page.totalRows := 2; Page.mappings := [];
     Page.options := {| Page.docx := true; Page.pdf := true |};
     Page.isGenerating := false; Page.generationComplete := false;
     Page.downloadUrl := NoUrl |}.

(** A placeholder of the page bound to the column "Name". *)
Definition name_column : Page.MappingConfig :=
  {| Page.type := Page.csv_column; Page.value := "Name";
     Page.customText := ""; Page.prefix := ""; Page.suffix := "" |}.


(** The generator with seven rows to put three by three. *)
Definition seven_rows : Generator.State :=
  {| Generator.step := 2; Generator.sessionId := "s-1";
     Generator.errorMsg := ""; Generator.previewRows := [];
     Generator.progressCurrent := 0; Generator.progressTotal := 0;
     Generator.progressMessage := ""; Generator.wsConnection := None;
     Generator.dataHeaders := []; Generator.docxPlaceholders := [];
     Generator.totalRows := 7; Generator.mappings := [];
     Generator.options := Generator.options Generator.init;
     Generator.isGenerating := false; Generator.generationComplete := false;
     Generator.docSettings := Generator.docSettings Generator.init;
     Generator.rowsPerDoc := 3; Generator.downloadUrl := NoUrl |}.


(** A session on the page: both files, the upload, and one edit. *)
Definition session : list Page.Event :=
  [Page.CsvDrop (Some data_csv); Page.DocxDrop (Some template_docx);
   Page.UploadClick upload_ok meta_three_tags;
   Page.ChooseType "#DATE" Page.combined].

(** The page in step 2 after an upload whose template has three tags. *)
Definition mapped : Page.State :=
  Page.handleUpload upload_ok meta_three_tags chosen.

End Samples.

(** ** Further code of the components *)

(** *** Fuzzy matching of placeholders ([Generator.svelte]) *)

Module Matcher.

(** [arr[j] = v] on an array: an element in range is overwritten, and
    [j = arr.length] appends (the loops below write no further). *)
Definition arr_set {A} (j : nat) (v : A) (arr : list A) : list A :=
  (firstn j arr ++ v :: skipn (S j) arr)%list.

(** [matrix[i][j]] and [matrix[i][j] = v]. *)
Definition cell (matrix : list (list nat)) (i j : nat) : nat :=
  nth j (nth i matrix []) 0%nat.

Definition set_cell (i j v : nat) (matrix : list (list nat)) : list (list nat) :=
  arr_set i (arr_set j v (nth i matrix [])) matrix.

(** [s.charAt(i)]: the empty string out of range. *)
Definition charAt (s : string) (i : nat) : string :=
  match String.get i s with
  | Some c => String c EmptyString
  | None => EmptyString
  end.

(** The value [levenshteinDistance] writes at [matrix[i][j]]. *)
Definition cell_value (a b : string) (matrix : list (list nat)) (i j : nat) : nat :=
  if String.eqb (charAt b (i - 1)) (charAt a (j - 1)) then
    cell matrix (i - 1) (j - 1)
  else
    Nat.min (cell matrix (i - 1) (j - 1) + 1)
      (Nat.min (cell matrix i (j - 1) + 1) (cell matrix (i - 1) j + 1)).

(** [levenshteinDistance(a, b)], with its matrix and its three loops. *)
Definition levenshteinDistance (a b : string) : nat :=
  if (String.length a =? 0)%nat then String.length b
  else if (String.length b =? 0)%nat then String.length a
  else
    let matrix :=
      fold_left (fun m i => arr_set i [i] m) (seq 0 (S (String.length b))) [] in
    let matrix :=
      fold_left (fun m j => set_cell 0 j j m) (seq 0 (S (String.length a))) matrix in
    let matrix :=
      fold_left
        (fun m i =>
           fold_left (fun m j => set_cell i j (cell_value a b m i j) m)
             (seq 1 (String.length a)) m)
        (seq 1 (String.length b)) matrix in
    cell matrix (String.length b) (String.length a).

(** [ph.replace("#", "").toLowerCase().replace(/\s/g, "")] and
    [header.toLowerCase().replace(/\s/g, "")]. *)
Definition clean_placeholder (ph : string) : string :=
  remove_spaces (toLowerCase (remove_first "#"%char ph)).

Definition clean_header (header : string) : string :=
  remove_spaces (toLowerCase header).

(** The test "exact match takes precedence" of [smartMapAll], which is the
    test of [autoDetectMappings]. *)
Definition exact_match (ph header : string) : bool :=
  String.eqb (clean_header header) (clean_placeholder ph)
  || (String.eqb header "P_ ADDRESS" && String.eqb ph "#P_ ADDRESS").

(** [dist < minDistance], where [minDistance] starts at [Infinity]. *)
Definition closer (dist : nat) (minDistance : option nat) : bool :=
  match minDistance with
  | None => true
  | Some d => (dist <? d)%nat
  end.

(** The [for (const header of dataHeaders)] loop of [smartMapAll], from the
    current [bestMatch] and [minDistance] on. *)
Fixpoint best_match (ph : string) (headers : list string)
    (bestMatch : string) (minDistance : option nat) : string :=
  match headers with
  | [] => bestMatch
  | header :: rest =>
      if exact_match ph header then header
      else
        let dist :=
          levenshteinDistance (clean_placeholder ph) (clean_header header) in
        if closer dist minDistance && (dist <=? 3)%nat then
          best_match ph rest header (Some dist)
        else best_match ph rest bestMatch minDistance
  end.

(** The entry [smartMapAll] writes for a match. *)
Definition matched (bestMatch : string) : Generator.MappingConfig :=
  {| Generator.type := Generator.data_column; Generator.value := bestMatch;
     Generator.customText := ""; Generator.prefix := ""; Generator.suffix := "";
     Generator.fallback := None; Generator.modifier := None;
     Generator.fromMemory := None |}.

(** [smartMapAll()], on the component's [dataHeaders], [docxPlaceholders]
    and [mappings]. *)
Definition smartMapAll (dataHeaders docxPlaceholders : list string)
    (mappings : obj Generator.MappingConfig) : obj Generator.MappingConfig :=
  if (length dataHeaders =? 0)%nat || (length docxPlaceholders =? 0)%nat then
    mappings
  else
    fold_left
      (fun m ph =>
         let bestMatch := best_match ph dataHeaders "" None in
         if truthy bestMatch then obj_assign ph (matched bestMatch) m else m)
      docxPlaceholders mappings.

End Matcher.

(** *** The rest of the generator component ([Generator.svelte]) *)

Module Studio.

(** [s.startsWith(pattern)]. *)
Fixpoint starts_with (pattern s : string) : bool :=
  match pattern with
  | EmptyString => true
  | String p pattern' =>
      match s with
      | EmptyString => false
      | String c s' => Ascii.eqb p c && starts_with pattern' s'
      end
  end.

(** [s.substring(n)]. *)
Fixpoint drop (n : nat) (s : string) : string :=
  match n, s with
  | S k, String _ s' => drop k s'
  | _, _ => s
  end.

(** The text [replaceAll] puts in the place of one match of a string
    pattern: in [replacement], [$$] is a dollar sign, [$&] the match, [$`]
    the text before the match and [$'] the text after it; any other [$]
    stands for itself, as a string pattern has no capture group. *)
Fixpoint substitution (matched before after replacement : string) : string :=
  match replacement with
  | EmptyString => EmptyString
  | String d r =>
      if Ascii.eqb d "$" then
        match r with
        | String c rest =>
            if Ascii.eqb c "$" then
              String "$" (substitution matched before after rest)
            else if Ascii.eqb c "&" then
              matched ++ substitution matched before after rest
            else if Ascii.eqb c "`" then
              before ++ substitution matched before after rest
            else if Ascii.eqb c "'" then
              after ++ substitution matched before after rest
            else String d (substitution matched before after r)
        | EmptyString => String d EmptyString
        end
      else String d (substitution matched before after r)
  end.

(** [s.replaceAll(pattern, replacement)] for a non-empty [pattern] (the
    only use is guarded by [if (!findText) return]): the matches are taken
    from left to right and do not overlap.  [before] is the text already
    passed, and [skip] counts the characters of the match just replaced
    that are still to pass. *)
Fixpoint replaceAll_from (skip : nat) (pattern replacement before s : string)
    : string :=
  match s with
  | EmptyString => EmptyString
  | String c s' =>
      match skip with
      | S k =>
          replaceAll_from k pattern replacement (before ++ String c EmptyString) s'
      | O =>
          if starts_with pattern s then
            substitution pattern before (drop (String.length pattern) s) replacement
            ++ replaceAll_from (String.length pattern - 1) pattern replacement
                 (before ++ String c EmptyString) s'
          else
            String c
              (replaceAll_from 0 pattern replacement
                 (before ++ String c EmptyString) s')
      end
  end.

Definition replaceAll (pattern replacement s : string) : string :=
  replaceAll_from 0 pattern replacement "" s.

(** The callback of [previewRows.map] in [replaceAllData]: a copy of the
    row in which every property is assigned its replaced text. *)
Definition replace_in_row (findText replaceText : string) (row : obj string)
    : obj string :=
  fold_left
    (fun newRow key =>
       match obj_get key newRow with
       | Some text => obj_set key (replaceAll findText replaceText text) newRow
       | None => newRow
       end)
    (obj_keys row) row.

(** The variables of the component that [Generator.State] leaves out. *)
Record Component : Type := {
  core : Generator.State;
  dataFile : option File;
  docxFile : option File;
  isUploading : bool;
  rawHeaders : list string;
  isEditingData : bool;
  isSavingData : bool;
  findText : string;
  replaceText : string;
  showDocSettings : bool;
  templatePageSize : string;
  templatePageWidth : Q;
  templatePageHeight : Q;
  placeholderCounts : obj Z
}.

Definition init : Component :=
  {| core := Generator.init; dataFile := None; docxFile := None;
     isUploading := false; rawHeaders := []; isEditingData := false;
     isSavingData := false; findText := ""; replaceText := "";
     showDocSettings := false; templatePageSize := "letter";
     templatePageWidth := 17 # 2; templatePageHeight := 11 # 1;
     placeholderCounts := [] |}.

Definition with_core (change : Generator.State -> Generator.State)
    (c : Component) : Component :=
  {| core := change (core c); dataFile := dataFile c; docxFile := docxFile c;
     isUploading := isUploading c; rawHeaders := rawHeaders c;
     isEditingData := isEditingData c; isSavingData := isSavingData c;
     findText := findText c; replaceText := replaceText c;
     showDocSettings := showDocSettings c;
     templatePageSize := templatePageSize c;
     templatePageWidth := templatePageWidth c;
     templatePageHeight := templatePageHeight c;
     placeholderCounts := placeholderCounts c |}.

Definition set_isUploading (b : bool) (c : Component) : Component :=
  {| core := core c; dataFile := dataFile c; docxFile := docxFile c;
     isUploading := b; rawHeaders := rawHeaders c;
     isEditingData := isEditingData c; isSavingData := isSavingData c;
     findText := findText c; replaceText := replaceText c;
     showDocSettings := showDocSettings c;
     templatePageSize := templatePageSize c;
     templatePageWidth := templatePageWidth c;
     templatePageHeight := templatePageHeight c;
     placeholderCounts := placeholderCounts c |}.

Definition set_isSavingData (b : bool) (c : Component) : Component :=
  {| core := core c; dataFile := dataFile c; docxFile := docxFile c;
     isUploading := isUploading c; rawHeaders := rawHeaders c;
     isEditingData := isEditingData c; isSavingData := b;
     findText := findText c; replaceText := replaceText c;
     showDocSettings := showDocSettings c;
     templatePageSize := templatePageSize c;
     templatePageWidth := templatePageWidth c;
     templatePageHeight := templatePageHeight c;
     placeholderCounts := placeholderCounts c |}.

Definition set_isEditingData (b : bool) (c : Component) : Component :=
  {| core := core c; dataFile := dataFile c; docxFile := docxFile c;
     isUploading := isUploading c; rawHeaders := rawHeaders c;
     isEditingData := b; isSavingData := isSavingData c;
     findText := findText c; replaceText := replaceText c;
     showDocSettings := showDocSettings c;
     templatePageSize := templatePageSize c;
     templatePageWidth := templatePageWidth c;
     templatePageHeight := templatePageHeight c;
     placeholderCounts := placeholderCounts c |}.

Definition core_errorMsg (m : string) (st : Generator.State) : Generator.State :=
  {| Generator.step := Generator.step st;
     Generator.sessionId := Generator.sessionId st;
     Generator.errorMsg := m;
     Generator.previewRows := Generator.previewRows st;
     Generator.progressCurrent := Generator.progressCurrent st;
     Generator.progressTotal := Generator.progressTotal st;
     Generator.progressMessage := Generator.progressMessage st;
     Generator.wsConnection := Generator.wsConnection st;
     Generator.dataHeaders := Generator.dataHeaders st;
     Generator.docxPlaceholders := Generator.docxPlaceholders st;
     Generator.totalRows := Generator.totalRows st;
     Generator.mappings := Generator.mappings st;
     Generator.options := Generator.options st;
     Generator.isGenerating := Generator.isGenerating st;
     Generator.generationComplete := Generator.generationComplete st;
     Generator.docSettings := Generator.docSettings st;
     Generator.rowsPerDoc := Generator.rowsPerDoc st;
     Generator.downloadUrl := Generator.downloadUrl st |}.

Definition core_sessionId (id : string) (st : Generator.State) : Generator.State :=
  {| Generator.step := Generator.step st;
     Generator.sessionId := id;
     Generator.errorMsg := Generator.errorMsg st;
     Generator.previewRows := Generator.previewRows st;
     Generator.progressCurrent := Generator.progressCurrent st;
     Generator.progressTotal := Generator.progressTotal st;
     Generator.progressMessage := Generator.progressMessage st;
     Generator.wsConnection := Generator.wsConnection st;
     Generator.dataHeaders := Generator.dataHeaders st;
     Generator.docxPlaceholders := Generator.docxPlaceholders st;
     Generator.totalRows := Generator.totalRows st;
     Generator.mappings := Generator.mappings st;
     Generator.options := Generator.options st;
     Generator.isGenerating := Generator.isGenerating st;
     Generator.generationComplete := Generator.generationComplete st;
     Generator.docSettings := Generator.docSettings st;
     Generator.rowsPerDoc := Generator.rowsPerDoc st;
     Generator.downloadUrl := Generator.downloadUrl st |}.

Definition core_previewRows (rows : list (obj string)) (st : Generator.State)
    : Generator.State :=
  {| Generator.step := Generator.step st;
     Generator.sessionId := Generator.sessionId st;
     Generator.errorMsg := Generator.errorMsg st;
     Generator.previewRows := rows;
     Generator.progressCurrent := Generator.progressCurrent st;
     Generator.progressTotal := Generator.progressTotal st;
     Generator.progressMessage := Generator.progressMessage st;
     Generator.wsConnection := Generator.wsConnection st;
     Generator.dataHeaders := Generator.dataHeaders st;
     Generator.docxPlaceholders := Generator.docxPlaceholders st;
     Generator.totalRows := Generator.totalRows st;
     Generator.mappings := Generator.mappings st;
     Generator.options := Generator.options st;
     Generator.isGenerating := Generator.isGenerating st;
     Generator.generationComplete := Generator.generationComplete st;
     Generator.docSettings := Generator.docSettings st;
     Generator.rowsPerDoc := Generator.rowsPerDoc st;
     Generator.downloadUrl := Generator.downloadUrl st |}.

Definition core_totalRows (n : Z) (st : Generator.State) : Generator.State :=
  {| Generator.step := Generator.step st;
     Generator.sessionId := Generator.sessionId st;
     Generator.errorMsg := Generator.errorMsg st;
     Generator.previewRows := Generator.previewRows st;
     Generator.progressCurrent := Generator.progressCurrent st;
     Generator.progressTotal := Generator.progressTotal st;
     Generator.progressMessage := Generator.progressMessage st;
     Generator.wsConnection := Generator.wsConnection st;
     Generator.dataHeaders := Generator.dataHeaders st;
     Generator.docxPlaceholders := Generator.docxPlaceholders st;
     Generator.totalRows := n;
     Generator.mappings := Generator.mappings st;
     Generator.options := Generator.options st;
     Generator.isGenerating := Generator.isGenerating st;
     Generator.generationComplete := Generator.generationComplete st;
     Generator.docSettings := Generator.docSettings st;
     Generator.rowsPerDoc := Generator.rowsPerDoc st;
     Generator.downloadUrl := Generator.downloadUrl st |}.

Definition core_mappings (m : obj Generator.MappingConfig)
    (st : Generator.State) : Generator.State :=
  {| Generator.step := Generator.step st;
     Generator.sessionId := Generator.sessionId st;
     Generator.errorMsg := Generator.errorMsg st;
     Generator.previewRows := Generator.previewRows st;
     Generator.progressCurrent := Generator.progressCurrent st;
     Generator.progressTotal := Generator.progressTotal st;
     Generator.progressMessage := Generator.progressMessage st;
     Generator.wsConnection := Generator.wsConnection st;
     Generator.dataHeaders := Generator.dataHeaders st;
     Generator.docxPlaceholders := Generator.docxPlaceholders st;
     Generator.totalRows := Generator.totalRows st;
     Generator.mappings := m;
     Generator.options := Generator.options st;
     Generator.isGenerating := Generator.isGenerating st;
     Generator.generationComplete := Generator.generationComplete st;
     Generator.docSettings := Generator.docSettings st;
     Generator.rowsPerDoc := Generator.rowsPerDoc st;
     Generator.downloadUrl := Generator.downloadUrl st |}.

Definition core_options (o : Generator.Options) (st : Generator.State)
    : Generator.State :=
  {| Generator.step := Generator.step st;
     Generator.sessionId := Generator.sessionId st;
     Generator.errorMsg := Generator.errorMsg st;
     Generator.previewRows := Generator.previewRows st;
     Generator.progressCurrent := Generator.progressCurrent st;
     Generator.progressTotal := Generator.progressTotal st;
     Generator.progressMessage := Generator.progressMessage st;
     Generator.wsConnection := Generator.wsConnection st;
     Generator.dataHeaders := Generator.dataHeaders st;
     Generator.docxPlaceholders := Generator.docxPlaceholders st;
     Generator.totalRows := Generator.totalRows st;
     Generator.mappings := Generator.mappings st;
     Generator.options := o;
     Generator.isGenerating := Generator.isGenerating st;
     Generator.generationComplete := Generator.generationComplete st;
     Generator.docSettings := Generator.docSettings st;
     Generator.rowsPerDoc := Generator.rowsPerDoc st;
     Generator.downloadUrl := Generator.downloadUrl st |}.

Definition core_docSettings (d : Generator.DocSettings) (st : Generator.State)
    : Generator.State :=
  {| Generator.step := Generator.step st;
     Generator.sessionId := Generator.sessionId st;
     Generator.errorMsg := Generator.errorMsg st;
     Generator.previewRows := Generator.previewRows st;
     Generator.progressCurrent := Generator.progressCurrent st;
     Generator.progressTotal := Generator.progressTotal st;
     Generator.progressMessage := Generator.progressMessage st;
     Generator.wsConnection := Generator.wsConnection st;
     Generator.dataHeaders := Generator.dataHeaders st;
     Generator.docxPlaceholders := Generator.docxPlaceholders st;
     Generator.totalRows := Generator.totalRows st;
     Generator.mappings := Generator.mappings st;
     Generator.options := Generator.options st;
     Generator.isGenerating := Generator.isGenerating st;
     Generator.generationComplete := Generator.generationComplete st;
     Generator.docSettings := d;
     Generator.rowsPerDoc := Generator.rowsPerDoc st;
     Generator.downloadUrl := Generator.downloadUrl st |}.

Definition set_showDocSettings (b : bool) (c : Component) : Component :=
  {| core := core c; dataFile := dataFile c; docxFile := docxFile c;
     isUploading := isUploading c; rawHeaders := rawHeaders c;
     isEditingData := isEditingData c; isSavingData := isSavingData c;
     findText := findText c; replaceText := replaceText c;
     showDocSettings := b;
     templatePageSize := templatePageSize c;
     templatePageWidth := templatePageWidth c;
     templatePageHeight := templatePageHeight c;
     placeholderCounts := placeholderCounts c |}.

(** [replaceAllData()] *)
Definition replaceAllData (c : Component) : Component :=
  if negb (truthy (findText c)) then c
  else
    with_core
      (fun st =>
         core_previewRows
           (map (replace_in_row (findText c) (replaceText c))
              (Generator.previewRows st))
           st)
      c.

(** The body posted to [/update_data], and the body of its answer. *)
Record SaveRequest : Type := {
  save_session_id : string;
  save_rows : list (obj string);
  save_headers : list string
}.

Record SaveData : Type := { saved_total_rows : Z }.

Definition save_request (c : Component) : SaveRequest :=
  {| save_session_id := Generator.sessionId (core c);
     save_rows := Generator.previewRows (core c);
     save_headers := rawHeaders c |}.

(** The [catch] and [finally] blocks of [saveEditedData]. *)
Definition save_catch (message : string) (c : Component) : Component :=
  set_isSavingData false (with_core (core_errorMsg message) c).

(** [saveEditedData()], given what [/update_data] answers. *)
Definition saveEditedData (answer : promise (response SaveData)) (c : Component)
    : Component * SaveRequest :=
  let c1 := set_isSavingData true c in
  (match answer with
   | Rejects message => save_catch message c1
   | Resolves res =>
       if negb (ok res) then save_catch "Failed to save data" c1
       else
         match body res with
         | Rejects message => save_catch message c1
         | Resolves resData =>
             set_isSavingData false
               (set_isEditingData false
                  (with_core (core_totalRows (saved_total_rows resData)) c1))
         end
   end,
   save_request c1).

(** The body of the answer of [/metadata]; a field the service may leave
    out is [None]. *)
Record MetaData : Type := {
  csv_headers : list string;
  docx_placeholders : list string;
  total_rows : Z;
  preview_rows : list (obj string);
  raw_headers : list string;
  placeholder_counts : option (obj Z);
  rows_per_doc : option Z;
  template_page_size : option string;
  template_page_width : option Q;
  template_page_height : option Q
}.

(** [x || d] on a number, a string and an object that may be missing. *)
Definition Z_or (x : option Z) (d : Z) : Z :=
  match x with
  | Some n => if (n =? 0)%Z then d else n
  | None => d
  end.

Definition Q_or (x : option Q) (d : Q) : Q :=
  match x with
  | Some q => if Qeq_bool q 0 then d else q
  | None => d
  end.

Definition string_or (x : option string) (d : string) : string :=
  match x with
  | Some s => or_else s d
  | None => d
  end.

Definition obj_or {A} (x : option (obj A)) (d : obj A) : obj A :=
  match x with
  | Some o => o
  | None => d
  end.

(** The [catch] and [finally] blocks of [handleUpload]. *)
Definition upload_catch (message : string) (c : Component) : Component :=
  set_isUploading false (with_core (core_errorMsg message) c).

(** The assignments of [handleUpload] once the metadata is in, with
    [autoDetectMappings()] and [step = 2]. *)
Definition describe (memory : obj Generator.MappingConfig) (metaData : MetaData)
    (c : Component) : Component :=
  let st := core c in
  let rows := Z_or (rows_per_doc metaData) 1 in
  {| core :=
       {| Generator.step := 2;
          Generator.sessionId := Generator.sessionId st;
          Generator.errorMsg := Generator.errorMsg st;
          Generator.previewRows := preview_rows metaData;
          Generator.progressCurrent := Generator.progressCurrent st;
          Generator.progressTotal := Generator.progressTotal st;
          Generator.progressMessage := Generator.progressMessage st;
          Generator.wsConnection := Generator.wsConnection st;
          Generator.dataHeaders := csv_headers metaData;
          Generator.docxPlaceholders := docx_placeholders metaData;
          Generator.totalRows := total_rows metaData;
          Generator.mappings :=
            Generator.autoDetectMappings memory (csv_headers metaData)
              (docx_placeholders metaData) (Generator.mappings st);
          Generator.options := Generator.options st;
          Generator.isGenerating := Generator.isGenerating st;
          Generator.generationComplete := Generator.generationComplete st;
          Generator.docSettings := Generator.docSettings st;
          Generator.rowsPerDoc := rows;
          Generator.downloadUrl := Generator.downloadUrl st |};
     dataFile := dataFile c; docxFile := docxFile c;
     isUploading := isUploading c; rawHeaders := raw_headers metaData;
     isEditingData := isEditingData c; isSavingData := isSavingData c;
     findText := findText c; replaceText := replaceText c;
     showDocSettings := showDocSettings c;
     templatePageSize := string_or (template_page_size metaData) "letter";
     templatePageWidth := Q_or (template_page_width metaData) (17 # 2);
     templatePageHeight := Q_or (template_page_height metaData) (11 # 1);
     placeholderCounts := obj_or (placeholder_counts metaData) [] |}.

(** [handleUpload()], given what [/upload] and [/metadata] answer and what
    [localStorage] remembers. *)
Definition handleUpload (memory : obj Generator.MappingConfig)
    (up : promise (response Page.UploadData))
    (meta : promise (response MetaData)) (c : Component) : Component :=
  match dataFile c, docxFile c with
  | Some _, Some _ =>
      let c1 := with_core (core_errorMsg "") (set_isUploading true c) in
      match up with
      | Rejects message => upload_catch message c1
      | Resolves upRes =>
          if negb (ok upRes) then upload_catch "Upload failed" c1
          else
            match body upRes with
            | Rejects message => upload_catch message c1
            | Resolves upData =>
                let c2 := with_core (core_sessionId (Page.session_id upData)) c1 in
                match meta with
                | Rejects message => upload_catch message c2
                | Resolves metaRes =>
                    if negb (ok metaRes) then
                      upload_catch "Metadata extraction failed" c2
                    else
                      match body metaRes with
                      | Rejects message => upload_catch message c2
                      | Resolves metaData =>
                          set_isUploading false (describe memory metaData c2)
                      end
                end
            end
      end
  | _, _ => c
  end.


(** A message of the progress socket, as [JSON.parse(event.data)] reads
    it. *)
Record Progress : Type := {
  message_type : string;
  current : Z;
  total : option Z;
  message : option string
}.

(** [wsConnection.onmessage]; [None] is a message that does not parse. *)
Definition onmessage (data : option Progress) (st : Generator.State)
    : Generator.State :=
  match data with
  | Some data =>
      if String.eqb (message_type data) "progress" then
        {| Generator.step := Generator.step st;
           Generator.sessionId := Generator.sessionId st;
           Generator.errorMsg := Generator.errorMsg st;
           Generator.previewRows := Generator.previewRows st;
           Generator.progressCurrent := current data;
           Generator.progressTotal :=
             Z_or (total data) (Generator.progressTotal st);
           Generator.progressMessage :=
             string_or (message data) (Generator.progressMessage st);
           Generator.wsConnection := Generator.wsConnection st;
           Generator.dataHeaders := Generator.dataHeaders st;
           Generator.docxPlaceholders := Generator.docxPlaceholders st;
           Generator.totalRows := Generator.totalRows st;
           Generator.mappings := Generator.mappings st;
           Generator.options := Generator.options st;
           Generator.isGenerating := Generator.isGenerating st;
           Generator.generationComplete := Generator.generationComplete st;
           Generator.docSettings := Generator.docSettings st;
           Generator.rowsPerDoc := Generator.rowsPerDoc st;
           Generator.downloadUrl := Generator.downloadUrl st |}
      else st
  | None => st
  end.

(** [handleGenerate()] with the progress messages that arrive while it
    awaits the answer. *)
Definition generate (messages : list (option Progress))
    (answer : promise (response Blob)) (st : Generator.State)
    : Generator.State * json :=
  let '(st1, request) := Generator.handleGenerate_request st in
  (Generator.handleGenerate_answer answer
     (fold_left (fun st data => onmessage data st) messages st1),
   request).

(** The [disabled] attribute of "Proceed to Mapping", rendered in step 1. *)
Definition upload_disabled (c : Component) : bool :=
  match dataFile c, docxFile c with
  | Some _, Some _ => isUploading c
  | _, _ => true
  end.

Definition upload_click (memory : obj Generator.MappingConfig)
    (up : promise (response Page.UploadData))
    (meta : promise (response MetaData)) (c : Component) : Component :=
  if (Generator.step (core c) =? 1)%Z && negb (upload_disabled c) then
    handleUpload memory up meta c
  else c.

(** The mapping screen is rendered in step 2. *)
Definition mapping_shown (c : Component) : bool :=
  (Generator.step (core c) =? 2)%Z.

(** A click on "Smart Map All". *)
Definition smart_click (c : Component) : Component :=
  if mapping_shown c then
    with_core
      (fun st =>
         core_mappings
           (Matcher.smartMapAll (Generator.dataHeaders st)
              (Generator.docxPlaceholders st) (Generator.mappings st))
           st)
      c
  else c.

(** An edit of the card of placeholder [ph]: [mappings[ph].field = ...]. *)
Definition edit (ph : string)
    (change : Generator.MappingConfig -> Generator.MappingConfig)
    (c : Component) : Component :=
  if mapping_shown c && includes (Generator.docxPlaceholders (core c)) ph then
    match obj_get ph (Generator.mappings (core c)) with
    | Some conf =>
        with_core
          (fun st => core_mappings (obj_set ph (change conf) (Generator.mappings st)) st)
          c
    | None => c
    end
  else c.

Definition with_type (t : Generator.MappingType) (conf : Generator.MappingConfig)
    : Generator.MappingConfig :=
  {| Generator.type := t; Generator.value := Generator.value conf;
     Generator.customText := Generator.customText conf;
     Generator.prefix := Generator.prefix conf;
     Generator.suffix := Generator.suffix conf;
     Generator.fallback := Generator.fallback conf;
     Generator.modifier := Generator.modifier conf;
     Generator.fromMemory := Generator.fromMemory conf |}.

Definition with_value (v : string) (conf : Generator.MappingConfig)
    : Generator.MappingConfig :=
  {| Generator.type := Generator.type conf; Generator.value := v;
     Generator.customText := Generator.customText conf;
     Generator.prefix := Generator.prefix conf;
     Generator.suffix := Generator.suffix conf;
     Generator.fallback := Generator.fallback conf;
     Generator.modifier := Generator.modifier conf;
     Generator.fromMemory := Generator.fromMemory conf |}.

Definition with_customText (s : string) (conf : Generator.MappingConfig)
    : Generator.MappingConfig :=
  {| Generator.type := Generator.type conf; Generator.value := Generator.value conf;
     Generator.customText := s;
     Generator.prefix := Generator.prefix conf;
     Generator.suffix := Generator.suffix conf;
     Generator.fallback := Generator.fallback conf;
     Generator.modifier := Generator.modifier conf;
     Generator.fromMemory := Generator.fromMemory conf |}.

Definition with_prefix (s : string) (conf : Generator.MappingConfig)
    : Generator.MappingConfig :=
  {| Generator.type := Generator.type conf; Generator.value := Generator.value conf;
     Generator.customText := Generator.customText conf;
     Generator.prefix := s;
     Generator.suffix := Generator.suffix conf;
     Generator.fallback := Generator.fallback conf;
     Generator.modifier := Generator.modifier conf;
     Generator.fromMemory := Generator.fromMemory conf |}.

Definition with_suffix (s : string) (conf : Generator.MappingConfig)
    : Generator.MappingConfig :=
  {| Generator.type := Generator.type conf; Generator.value := Generator.value conf;
     Generator.customText := Generator.customText conf;
     Generator.prefix := Generator.prefix conf;
     Generator.suffix := s;
     Generator.fallback := Generator.fallback conf;
     Generator.modifier := Generator.modifier conf;
     Generator.fromMemory := Generator.fromMemory conf |}.

(** A click on "Forge": the button is rendered in step 2 while no
    generation runs, and disabled on an empty mapping record. *)
Definition generate_click (messages : list (option Progress))
    (answer : promise (response Blob)) (c : Component)
    : Component * option json :=
  if mapping_shown c && negb (Generator.isGenerating (core c))
     && negb (Generator.generate_disabled (core c))
  then
    let '(st', request) := generate messages answer (core c) in
    (with_core (fun _ => st') c, Some request)
  else (c, None).

(** The buttons of the live data editor, rendered in step 2 while
    [isEditingData]. *)
Definition save_click (answer : promise (response SaveData)) (c : Component)
    : Component :=
  if mapping_shown c && isEditingData c && negb (isSavingData c) then
    fst (saveEditedData answer c)
  else c.

Definition replace_click (c : Component) : Component :=
  if mapping_shown c && isEditingData c then replaceAllData c else c.

Definition set_find (findText' replaceText' : string) (c : Component) : Component :=
  {| core := core c; dataFile := dataFile c; docxFile := docxFile c;
     isUploading := isUploading c; rawHeaders := rawHeaders c;
     isEditingData := isEditingData c; isSavingData := isSavingData c;
     findText := findText'; replaceText := replaceText';
     showDocSettings := showDocSettings c;
     templatePageSize := templatePageSize c;
     templatePageWidth := templatePageWidth c;
     templatePageHeight := templatePageHeight c;
     placeholderCounts := placeholderCounts c |}.

Definition set_files (data docx : option File) (c : Component) : Component :=
  {| core := core c; dataFile := data; docxFile := docx;
     isUploading := isUploading c; rawHeaders := rawHeaders c;
     isEditingData := isEditingData c; isSavingData := isSavingData c;
     findText := findText c; replaceText := replaceText c;
     showDocSettings := showDocSettings c;
     templatePageSize := templatePageSize c;
     templatePageWidth := templatePageWidth c;
     templatePageHeight := templatePageHeight c;
     placeholderCounts := placeholderCounts c |}.

(** The cell of row [i] under [head] in the live data editor, rendered in
    step 2 while [isEditingData] for every row of [previewRows] and every
    element of [rawHeaders]: [row[head] = text]. *)
Definition edit_cell (i : nat) (head text : string) (c : Component) : Component :=
  if mapping_shown c && isEditingData c && includes (rawHeaders c) head then
    match nth_error (Generator.previewRows (core c)) i with
    | Some row =>
        with_core
          (fun st =>
             core_previewRows
               (Matcher.arr_set i (obj_set head text row) (Generator.previewRows st))
               st)
          c
    | None => c
    end
  else c.

(** The toggle cards under the mapping screen. *)
Definition toggle_option (flip : Generator.Options -> Generator.Options)
    (c : Component) : Component :=
  if mapping_shown c then
    with_core (fun st => core_options (flip (Generator.options st)) st) c
  else c.

Definition flip_docx (o : Generator.Options) : Generator.Options :=
  {| Generator.docx := negb (Generator.docx o); Generator.pdf := Generator.pdf o;
     Generator.removeEmptyPages := Generator.removeEmptyPages o;
     Generator.mergeOutput := Generator.mergeOutput o |}.

Definition flip_pdf (o : Generator.Options) : Generator.Options :=
  {| Generator.docx := Generator.docx o; Generator.pdf := negb (Generator.pdf o);
     Generator.removeEmptyPages := Generator.removeEmptyPages o;
     Generator.mergeOutput := Generator.mergeOutput o |}.

Definition flip_removeEmptyPages (o : Generator.Options) : Generator.Options :=
  {| Generator.docx := Generator.docx o; Generator.pdf := Generator.pdf o;
     Generator.removeEmptyPages := negb (Generator.removeEmptyPages o);
     Generator.mergeOutput := Generator.mergeOutput o |}.

Definition flip_mergeOutput (o : Generator.Options) : Generator.Options :=
  {| Generator.docx := Generator.docx o; Generator.pdf := Generator.pdf o;
     Generator.removeEmptyPages := Generator.removeEmptyPages o;
     Generator.mergeOutput := negb (Generator.mergeOutput o) |}.

(** An input of the document settings panel, rendered in step 2 while
    [showDocSettings]: it writes one field of [docSettings]. *)
Definition edit_settings (change : Generator.DocSettings -> Generator.DocSettings)
    (c : Component) : Component :=
  if mapping_shown c && showDocSettings c then
    with_core (fun st => core_docSettings (change (Generator.docSettings st)) st) c
  else c.

(** "Start Another Batch", rendered in step 3: [window.location.reload()]
    mounts the component anew. *)
Definition start_another (c : Component) : Component :=
  if (Generator.step (core c) =? 3)%Z then init else c.

(** What can happen to the component: the user's gestures, each with the
    answers the service gives and what [localStorage] holds at that time. *)
Inductive Event : Type :=
| DataDrop (file : option File)
| DocxDrop (file : option File)
| UploadClick (memory : obj Generator.MappingConfig)
    (up : promise (response Page.UploadData))
    (meta : promise (response MetaData))
| SmartMapClick
| ChooseType (ph : string) (t : Generator.MappingType)
| ChooseColumn (ph : string) (header : string)
| TypeCustomText (ph : string) (text : string)
| TypePrefix (ph : string) (text : string)
| TypeSuffix (ph : string) (text : string)
| ToggleEditor
| TypeFind (text : string)
| TypeReplace (text : string)
| ReplaceAllClick
| SaveClick (answer : promise (response SaveData))
| GenerateClick (messages : list (option Progress))
    (answer : promise (response Blob))
| TypeCell (i : nat) (head text : string)
| ToggleDocx
| TogglePdf
| ToggleRemoveEmptyPages
| ToggleMergeOutput
| ToggleDocSettings
| EditDocSettings (change : Generator.DocSettings -> Generator.DocSettings)
| StartAnother.

(** An event that brings no placeholder [__proto__]: any event but an
    upload whose metadata lists that name among the placeholders of the
    template. *)
Definition ordinary (ev : Event) : Prop :=
  match ev with
  | UploadClick _ _ (Resolves mres) =>
      match body mres with
      | Resolves metaData => ~ In "__proto__" (docx_placeholders metaData)
      | Rejects _ => True
      end
  | _ => True
  end.

Definition on_event (ev : Event) (c : Component) : Component :=
  match ev with
  | DataDrop file => set_files file (docxFile c) c
  | DocxDrop file => set_files (dataFile c) file c
  | UploadClick memory up meta => upload_click memory up meta c
  | SmartMapClick => smart_click c
  | ChooseType ph t => edit ph (with_type t) c
  | ChooseColumn ph header => edit ph (with_value header) c
  | TypeCustomText ph text => edit ph (with_customText text) c
  | TypePrefix ph text => edit ph (with_prefix text) c
  | TypeSuffix ph text => edit ph (with_suffix text) c
  | ToggleEditor =>
      if mapping_shown c then set_isEditingData (negb (isEditingData c)) c else c
  | TypeFind text => set_find text (replaceText c) c
  | TypeReplace text => set_find (findText c) text c
  | ReplaceAllClick => replace_click c
  | SaveClick answer => save_click answer c
  | GenerateClick messages answer => fst (generate_click messages answer c)
  | TypeCell i head text => edit_cell i head text c
  | ToggleDocx => toggle_option flip_docx c
  | TogglePdf => toggle_option flip_pdf c
  | ToggleRemoveEmptyPages => toggle_option flip_removeEmptyPages c
  | ToggleMergeOutput => toggle_option flip_mergeOutput c
  | ToggleDocSettings =>
      if mapping_shown c then set_showDocSettings (negb (showDocSettings c)) c
      else c
  | EditDocSettings change => edit_settings change c
  | StartAnother => start_another c
  end.

(** The component after a sequence of events. *)
Definition run (evs : list Event) (c : Component) : Component :=
  fold_left (fun c ev => on_event ev c) evs c.

End Studio.

(** *** The theme switcher ([lib/components/ThemeSwitcher.svelte]) *)

Module Theme.

Record ThemeDef : Type := {
  label : string;
  swatch : string;
  glow : string;
  primary : obj string;
  surface : obj string;
  body : string;
  text : string
}.

Definition crimson : ThemeDef :=
  {| label := "Crimson"; swatch := "#f43f5e"; glow := "rgba(244, 63, 94, 0.04)";
     primary :=
       [
        ("50", "#fff1f2"); ("100", "#ffe4e6"); ("200", "#fecdd3"); ("300", "#fda4af");
        ("400", "#fb7185"); ("500", "#f43f5e"); ("600", "#e11d48"); ("700", "#be123c");
        ("800", "#9f1239"); ("900", "#881337"); ("950", "#4c0519")];
     surface :=
       [
        ("50", "#f8fafc"); ("100", "#f1f5f9"); ("200", "#e2e8f0"); ("300", "#cbd5e1");
        ("400", "#94a3b8"); ("500", "#64748b"); ("600", "#475569"); ("700", "#334155");
        ("800", "#1e293b"); ("900", "#0f172a"); ("950", "#020617")];
     body := "#020617"; text := "#f8fafc" |}.

Definition neon : ThemeDef :=
  {| label := "Neon"; swatch := "#06b6d4"; glow := "rgba(6, 182, 212, 0.05)";
     primary :=
       [
        ("50", "#ecfeff"); ("100", "#cffafe"); ("200", "#a5f3fc"); ("300", "#67e8f9");
        ("400", "#22d3ee"); ("500", "#06b6d4"); ("600", "#0891b2"); ("700", "#0e7490");
        ("800", "#155e75"); ("900", "#164e63"); ("950", "#083344")];
     surface :=
       [
        ("50", "#f9fafb"); ("100", "#f3f4f6"); ("200", "#e5e7eb"); ("300", "#d1d5db");
        ("400", "#9ca3af"); ("500", "#6b7280"); ("600", "#4b5563"); ("700", "#374151");
        ("800", "#1f2937"); ("900", "#111827"); ("950", "#030712")];
     body := "#030712"; text := "#f9fafb" |}.

Definition ocean : ThemeDef :=
  {| label := "Ocean"; swatch := "#3b82f6"; glow := "rgba(59, 130, 246, 0.05)";
     primary :=
       [
        ("50", "#eff6ff"); ("100", "#dbeafe"); ("200", "#bfdbfe"); ("300", "#93c5fd");
        ("400", "#60a5fa"); ("500", "#3b82f6"); ("600", "#2563eb"); ("700", "#1d4ed8");
        ("800", "#1e40af"); ("900", "#1e3a8a"); ("950", "#172554")];
     surface :=
       [
        ("50", "#f0f4f8"); ("100", "#d9e2ec"); ("200", "#bcccdc"); ("300", "#9fb3c8");
        ("400", "#829ab1"); ("500", "#627d98"); ("600", "#486581"); ("700", "#334e68");
        ("800", "#243b53"); ("900", "#102a43"); ("950", "#0c1929")];
     body := "#0c1929"; text := "#f0f4f8" |}.

Definition emerald : ThemeDef :=
  {| label := "Emerald"; swatch := "#10b981"; glow := "rgba(16, 185, 129, 0.05)";
     primary :=
       [
        ("50", "#ecfdf5"); ("100", "#d1fae5"); ("200", "#a7f3d0"); ("300", "#6ee7b7");
        ("400", "#34d399"); ("500", "#10b981"); ("600", "#059669"); ("700", "#047857");
        ("800", "#065f46"); ("900", "#064e3b"); ("950", "#022c22")];
     surface :=
       [
        ("50", "#f0fdf4"); ("100", "#dcfce7"); ("200", "#c2d9cd"); ("300", "#a3b8b0");
        ("400", "#7a9485"); ("500", "#5a7568"); ("600", "#3d5a4a"); ("700", "#264334");
        ("800", "#162e22"); ("900", "#0d1f16"); ("950", "#0a1a15")];
     body := "#0a1a15"; text := "#f0fdf4" |}.

Definition amethyst : ThemeDef :=
  {| label := "Amethyst"; swatch := "#8b5cf6"; glow := "rgba(139, 92, 246, 0.05)";
     primary :=
       [
        ("50", "#f5f3ff"); ("100", "#ede9fe"); ("200", "#ddd6fe"); ("300", "#c4b5fd");
        ("400", "#a78bfa"); ("500", "#8b5cf6"); ("600", "#7c3aed"); ("700", "#6d28d9");
        ("800", "#5b21b6"); ("900", "#4c1d95"); ("950", "#2e1065")];
     surface :=
       [
        ("50", "#faf5ff"); ("100", "#f3e8ff"); ("200", "#d8c5e6"); ("300", "#b8a0c9");
        ("400", "#8b6fa8"); ("500", "#6b5080"); ("600", "#4e3a60"); ("700", "#362848");
        ("800", "#221a33"); ("900", "#150f22"); ("950", "#0d0b1a")];
     body := "#0d0b1a"; text := "#faf5ff" |}.

(** [themes] *)
Definition themes : obj ThemeDef :=
  [("crimson", crimson); ("neon", neon); ("ocean", ocean);
   ("emerald", emerald); ("amethyst", amethyst)].

(** The variables of the component, and what it writes outside: the custom
    properties of the root element's style, three properties of the style
    of [document.body] ([""] while not set) and the entry of [localStorage]
    under ["docforge_theme"]. *)
Record State : Type := {
  currentTheme : string;
  isOpen : bool;
  root_style : obj string;
  body_backgroundColor : string;
  body_backgroundImage : string;
  body_color : string;
  stored : option string
}.

(** The component as it is created, over what [localStorage] holds. *)
Definition init (saved : option string) : State :=
  {| currentTheme := "crimson"; isOpen := false; root_style := [];
     body_backgroundColor := ""; body_backgroundImage := ""; body_color := "";
     stored := saved |}.

Definition set_isOpen (b : bool) (st : State) : State :=
  {| currentTheme := currentTheme st; isOpen := b; root_style := root_style st;
     body_backgroundColor := body_backgroundColor st;
     body_backgroundImage := body_backgroundImage st;
     body_color := body_color st; stored := stored st |}.

(** The two loops and the two calls of [root.style.setProperty]. *)
Definition set_vars (theme : ThemeDef) (style : obj string) : obj string :=
  let style :=
    fold_left
      (fun style sv => obj_set ("--color-primary-" ++ fst sv) (snd sv) style)
      (primary theme) style in
  let style :=
    fold_left
      (fun style sv => obj_set ("--color-surface-" ++ fst sv) (snd sv) style)
      (surface theme) style in
  let style := obj_set "--color-body" (body theme) style in
  obj_set "--color-text" (text theme) style.

Definition newline : string := String (ascii_of_nat 10) EmptyString.

(** The template literal assigned to [backgroundImage]. *)
Definition gradients (glow : string) : string :=
  newline
  ++ "            radial-gradient(circle at 15% 50%, " ++ glow
  ++ ", transparent 50%)," ++ newline
  ++ "            radial-gradient(circle at 85% 30%, " ++ glow
  ++ ", transparent 50%)" ++ newline
  ++ "        ".

(** What a call gives: it returns, or it throws. *)
Inductive error : Type := TypeError.

Inductive outcome (A : Type) : Type :=
| Returns (a : A)
| Throws (e : error).
Arguments Returns {A} a.
Arguments Throws {A} e.

(** The names that [themes] has through its prototype only: the properties
    of [Object.prototype].  Each is a function, or an object for
    [__proto__], and none has a property [primary]. *)
Definition inherited : list string :=
  ["constructor"; "__defineGetter__"; "__defineSetter__"; "hasOwnProperty";
   "__lookupGetter__"; "__lookupSetter__"; "isPrototypeOf";
   "propertyIsEnumerable"; "toString"; "valueOf"; "__proto__";
   "toLocaleString"].

(** [themes[name]], as far as the component looks at it: a theme of the
    table, a property of the prototype (truthy, without [primary]), or
    [undefined]. *)
Inductive Found : Type :=
| Own (theme : ThemeDef)
| Inherited
| Undefined.

Definition lookup (name : string) : Found :=
  match obj_get name themes with
  | Some theme => Own theme
  | None => if includes inherited name then Inherited else Undefined
  end.

(** [applyTheme(name)]; on a property of the prototype,
    [Object.entries(theme.primary)] throws before anything is written. *)
Definition applyTheme (name : string) (st : State) : outcome State :=
  match lookup name with
  | Undefined => Returns st
  | Inherited => Throws TypeError
  | Own theme =>
      Returns
        {| currentTheme := name; isOpen := false;
           root_style := set_vars theme (root_style st);
           body_backgroundColor := body theme;
           body_backgroundImage := gradients (glow theme);
           body_color := text theme;
           stored := Some name |}
  end.

(** The callback of [onMount]. *)
Definition onMount (st : State) : outcome State :=
  match stored st with
  | Some saved =>
      if truthy saved
         && match lookup saved with Undefined => false | _ => true end
      then applyTheme saved st
      else Returns st
  | None => Returns st
  end.

(** The variables after a call: those it returned, and those it was
    called with when it threw before writing. *)
Definition state_after (o : outcome State) (st : State) : State :=
  match o with
  | Returns st' => st'
  | Throws _ => st
  end.

(** The variables of the component once the callback of [onMount] has
    run. *)
Definition mount (saved : option string) : State :=
  state_after (onMount (init saved)) (init saved).

(** [handleClickOutside(event)]; [inside] tells whether the target of the
    click has an ancestor of class [theme-switcher]. *)
Definition handleClickOutside (inside : bool) (st : State) : State :=
  if negb inside then set_isOpen false st else st.

(** What can happen to the component: a click on the toggle button, a
    click on the button of theme [key] (the dropdown is rendered while
    [isOpen], with one button for each key of [themes]), and a click that
    reaches the window. *)
Inductive Event : Type :=
| ToggleClick
| ThemeClick (key : string)
| WindowClick (inside : bool).

Definition on_event (ev : Event) (st : State) : State :=
  match ev with
  | ToggleClick => set_isOpen (negb (isOpen st)) st
  | ThemeClick key =>
      if isOpen st && includes (obj_keys themes) key
      then state_after (applyTheme key st) st
      else st
  | WindowClick inside => handleClickOutside inside st
  end.

Definition run (evs : list Event) (st : State) : State :=
  fold_left (fun st ev => on_event ev st) evs st.

End Theme.

(** *** The colour of the particles ([lib/components/Particles.svelte]) *)

Module Particles.

(** [s.trim()]: the white space at both ends goes. *)
Fixpoint trim_start (s : string) : string :=
  match s with
  | EmptyString => EmptyString
  | String c s' => if is_space c then trim_start s' else s
  end.

Fixpoint trim_end (s : string) : string :=
  match s with
  | EmptyString => EmptyString
  | String c s' =>
      match trim_end s' with
      | EmptyString => if is_space c then EmptyString else String c EmptyString
      | rest => String c rest
      end
  end.

Definition trim (s : string) : string := trim_end (trim_start s).

(** [s.slice(a, b)] for [0 <= a <= b]. *)
Definition slice (a b : nat) (s : string) : string := substring a (b - a) s.

(** The value of a digit in base 16. *)
Definition hex_digit (c : ascii) : option Z :=
  let n := nat_of_ascii c in
  if (48 <=? n)%nat && (n <=? 57)%nat then Some (Z.of_nat (n - 48))
  else if (97 <=? n)%nat && (n <=? 102)%nat then Some (Z.of_nat (n - 87))
  else if (65 <=? n)%nat && (n <=? 70)%nat then Some (Z.of_nat (n - 55))
  else None.

(** The number the longest prefix of digits of [s] writes in base 16, from
    the digits read so far; [None] when there is no digit. *)
Fixpoint hex_prefix (acc : option Z) (s : string) : option Z :=
  match s with
  | EmptyString => acc
  | String c s' =>
      match hex_digit c with
      | Some d =>
          hex_prefix
            (Some (16 * match acc with Some n => n | None => 0 end + d)%Z) s'
      | None => acc
      end
  end.

(** [parseInt(s, 16)]: leading white space, a sign and a prefix [0x] are
    passed, and the digits that follow are read; [None] is [NaN]. *)
Definition parseInt16 (s : string) : option Z :=
  let s := trim_start s in
  let '(sign, s) :=
    match s with
    | String "-" s' => ((-1)%Z, s')
    | String "+" s' => (1%Z, s')
    | _ => (1%Z, s)
    end in
  let s :=
    match s with
    | String "0" (String "x" s') => s'
    | String "0" (String "X" s') => s'
    | _ => s
    end in
  option_map (Z.mul sign) (hex_prefix None s).

(** The [r], [g] and [b] that [draw] computes for the particles and for
    the lines between them; [computed] is what
    [getComputedStyle(document.documentElement)] gives for
    [--color-primary-500]. *)
Definition theme_colour (computed : string) : option Z * option Z * option Z :=
  let primaryColor := or_else (trim computed) "#f43f5e" in
  (parseInt16 (slice 1 3 primaryColor),
   parseInt16 (slice 3 5 primaryColor),
   parseInt16 (slice 5 7 primaryColor)).

End Particles.

(** *** Properties of the further code *)

Module MoreProps.

(** The edit distance by its recurrence on the last characters of the two
    strings; the lists hold the characters last first. *)
Fixpoint edits (s : list ascii) : list ascii -> nat :=
  match s with
  | [] => fun t => length t
  | x :: s' =>
      fix edits_s (t : list ascii) : nat :=
        match t with
        | [] => S (length s')
        | y :: t' =>
            if Ascii.eqb x y then edits s' t'
            else Nat.min (edits s' t' + 1)
                   (Nat.min (edits_s t' + 1) (edits s' t + 1))
        end
  end.

(** The distance between the first [i] characters of [b] and the first
    [j] characters of [a]: what [levenshteinDistance(a, b)] holds at
    [matrix[i][j]]. *)
Definition prefix_distance (a b : string) (i j : nat) : nat :=
  edits (rev (firstn i (list_ascii_of_string b)))
    (rev (firstn j (list_ascii_of_string a))).

(** The matrix of [levenshteinDistance(a, b)] while its last loop runs:
    the rows that are filled and those that hold their first cell only. *)
Definition rows_done (a b : string) (i : nat) : list (list nat) :=
  map (fun i' => map (prefix_distance a b i') (seq 0 (S (String.length a))))
    (seq 0 i).

Definition rows_todo (i n : nat) : list (list nat) :=
  map (fun i' => [i']) (seq i n).

(** The mapping record of the generator component follows the
    placeholders: it is empty in step 1 and has the placeholders as its
    keys, each once, later. *)
Definition studio_mapped_once (c : Studio.Component) : Prop :=
  let st := Studio.core c in
  NoDup (obj_keys (Generator.mappings st))
  /\ (Generator.step st = 1%Z -> Generator.mappings st = [])
  /\ (Generator.step st <> 1%Z ->
      forall ph, In ph (obj_keys (Generator.mappings st))
                 <-> In ph (Generator.docxPlaceholders st)).

(** [pattern] occurs in [s]. *)
Definition occurs (pattern s : string) : Prop :=
  exists before after, s = before ++ pattern ++ after.

(** The distance [smartMapAll] measures between a placeholder and a
    header. *)
Definition reach (ph header : string) : nat :=
  Matcher.levenshteinDistance (Matcher.clean_placeholder ph)
    (Matcher.clean_header header).

(** The theme switcher shows a theme of its table: either nothing was
    applied yet (the style sheet's own colours, under the name "crimson",
    and no valid name in [localStorage]), or the custom properties, the
    body's style and [localStorage] are those of the current theme. *)
Definition theme_in_force (st : Theme.State) : Prop :=
  exists theme,
    obj_get (Theme.currentTheme st) Theme.themes = Some theme
    /\ ((Theme.currentTheme st = "crimson" /\ Theme.root_style st = []
         /\ Theme.body_backgroundColor st = ""
         /\ Theme.body_backgroundImage st = ""
         /\ Theme.body_color st = ""
         /\ forall saved, Theme.stored st = Some saved ->
              obj_get saved Theme.themes = None)
        \/ (Theme.root_style st = Theme.set_vars theme []
            /\ Theme.body_backgroundColor st = Theme.body theme
            /\ Theme.body_backgroundImage st = Theme.gradients (Theme.glow theme)
            /\ Theme.body_color st = Theme.text theme
            /\ Theme.stored st = Some (Theme.currentTheme st))).

(** What [localStorage] holds is not a name that [themes] has through its
    prototype only. *)
Definition stored_is_safe (st : Theme.State) : Prop :=
  forall saved, Theme.stored st = Some saved ->
                Theme.lookup saved <> Theme.Inherited.

(** The extractor is in step 1 without a file or in step 2 with one. *)
Definition file_and_step (st : Extractor.State) : Prop :=
  (Extractor.step st = 1%Z /\ Extractor.pdfFile st = None)
  \/ (Extractor.step st = 2%Z /\ exists file, Extractor.pdfFile st = Some file).

(** [h] is the first of [headers] that matches placeholder [ph]. *)
Definition first_match (ph : string) (headers : list string) (h : string) : Prop :=
  exists before after,
    headers = (before ++ h :: after)%list
    /\ Matcher.exact_match ph h = true
    /\ forall h', In h' before -> Matcher.exact_match ph h' = false.

(** The configuration without its fallback text. *)
Definition no_fallback (conf : Generator.MappingConfig) : Generator.MappingConfig :=
  {| Generator.type := Generator.type conf;
     Generator.value := Generator.value conf;
     Generator.customText := Generator.customText conf;
     Generator.prefix := Generator.prefix conf;
     Generator.suffix := Generator.suffix conf;
     Generator.fallback := None;
     Generator.modifier := Generator.modifier conf;
     Generator.fromMemory := Generator.fromMemory conf |}.

End MoreProps.

Import MoreProps.

(** *** Sample data for the further code *)

Module MoreSamples.

Definition sheet_headers : list string := ["Full Name"; "Amount"; "Adress"].

Definition letter_tags : list string :=
  ["#FULLNAME"; "#AMOUNTS"; "#ADDRESS"; "#REFERENCE"].

Definition sheet_rows : list (obj string) :=
  [[("Full Name", "Ada King"); ("Amount", "12"); ("Adress", "1, Main St.")];
   [("Full Name", "Max Born"); ("Amount", ""); ("Adress", "2, Main St.")]].

(** The component with both files chosen. *)
Definition picked : Studio.Component :=
  Studio.set_files (Some Samples.data_csv) (Some Samples.template_docx)
    Studio.init.

(** The metadata of a service that sends the five older fields only. *)
Definition meta_bare_data : Studio.MetaData :=
  {| Studio.csv_headers := sheet_headers;
     Studio.docx_placeholders := letter_tags;
     Studio.total_rows := 2;
     Studio.preview_rows := sheet_rows;
     Studio.raw_headers := sheet_headers;
     Studio.placeholder_counts := None;
     Studio.rows_per_doc := None;
     Studio.template_page_size := None;
     Studio.template_page_width := None;
     Studio.template_page_height := None |}.

Definition meta_bare_response : response Studio.MetaData :=
  {| ok := true; detail := None; body := Resolves meta_bare_data |}.

(** A session with the component: both files, the upload with nothing
    remembered, "Smart Map All" and a static text for the reference. *)
Definition studio_session : list Studio.Event :=
  [Studio.DataDrop (Some Samples.data_csv);
   Studio.DocxDrop (Some Samples.template_docx);
   Studio.UploadClick [] Samples.upload_ok (Resolves meta_bare_response);
   Studio.SmartMapClick;
   Studio.ChooseType "#REFERENCE" Generator.custom_text;
   Studio.TypeCustomText "#REFERENCE" "2026/11";
   Studio.ToggleEditor].

(** The component after that session. *)
Definition mapped_studio : Studio.Component :=
  Studio.run studio_session Studio.init.


End MoreSamples.

(** ** Strings *)

Lemma endsWith_app (stem suffix : string) : endsWith (stem ++ suffix) suffix = true.
Proof.
  induction stem as [|c stem IH]; cbn [append].
  - destruct suffix; cbn [endsWith]; now rewrite String.eqb_refl.
  - cbn [endsWith]. rewrite IH. apply orb_true_r.
Qed.

Lemma endsWith_inv (s suffix : string) :
  endsWith s suffix = true -> exists stem, s = stem ++ suffix.
Proof.
  induction s as [|c s IH]; cbn [endsWith]; intros H.
  - apply orb_true_iff in H as [H|H]; [|discriminate].
    apply String.eqb_eq in H. exists EmptyString. now subst.
  - apply orb_true_iff in H as [H|H].
    + apply String.eqb_eq in H. exists EmptyString. now subst.
    + destruct (IH H) as [stem ->]. now exists (String c stem).
Qed.

Lemma map_chars_app f (a b : string) :
  map_chars f (a ++ b) = map_chars f a ++ map_chars f b.
Proof. induction a as [|c a IH]; simpl; [reflexivity | now rewrite IH]. Qed.

Lemma map_chars_split f (s a b : string) :
  map_chars f s = a ++ b ->
  exists a' b', s = a' ++ b' /\ map_chars f a' = a /\ map_chars f b' = b.
Proof.
  revert s. induction a as [|c a IH]; simpl; intros s H.
  - exists EmptyString, s. auto.
  - destruct s as [|d s]; simpl in H; [discriminate|].
    injection H as Hc Hs. destruct (IH _ Hs) as (a' & b' & -> & Ha & Hb).
    exists (String d a'), b'. simpl. now rewrite Hc, Ha, Hb.
Qed.

Lemma lower_ascii_is (c lo up : ascii) :
  lower_ascii up = lo -> lower_ascii lo = lo ->
  (forall x, lower_ascii x = lo -> x = lo \/ x = up) ->
  lower_ascii c = lo <-> (c = lo \/ c = up).
Proof.
  intros Hup Hlo Hall. split; [apply Hall|].
  intros [->| ->]; assumption.
Qed.

Ltac by_cases_on_ascii x :=
  destruct x as [[] [] [] [] [] [] [] []]; vm_compute; intros H;
  first [discriminate H | now left | now right].

Lemma lower_p (c : ascii) :
  lower_ascii c = "p"%char <-> (c = "p"%char \/ c = "P"%char).
Proof. apply lower_ascii_is; try reflexivity. intros x. by_cases_on_ascii x. Qed.

Lemma lower_d (c : ascii) :
  lower_ascii c = "d"%char <-> (c = "d"%char \/ c = "D"%char).
Proof. apply lower_ascii_is; try reflexivity. intros x. by_cases_on_ascii x. Qed.

Lemma lower_f (c : ascii) :
  lower_ascii c = "f"%char <-> (c = "f"%char \/ c = "F"%char).
Proof. apply lower_ascii_is; try reflexivity. intros x. by_cases_on_ascii x. Qed.

Lemma lower_dot (c : ascii) : lower_ascii c = "."%char <-> c = "."%char.
Proof.
  split; [|now intros ->].
  destruct c as [[] [] [] [] [] [] [] []]; vm_compute; intros H;
    first [discriminate H | reflexivity].
Qed.

Lemma toLowerCase_pdf (ext : string) :
  toLowerCase ext = ".pdf" <-> pdf_extension ext.
Proof.
  unfold pdf_extension, toLowerCase. split.
  - destruct ext as [|c0 [|p [|d [|f [|? ?]]]]]; simpl; try discriminate.
    intros H. injection H as H0 Hp Hd Hf.
    apply (proj1 (lower_dot _)) in H0. apply (proj1 (lower_p _)) in Hp.
    apply (proj1 (lower_d _)) in Hd. apply (proj1 (lower_f _)) in Hf.
    subst c0. exists p, d, f. auto.
  - intros (p & d & f & -> & Hp & Hd & Hf). simpl.
    apply (proj2 (lower_p _)) in Hp. apply (proj2 (lower_d _)) in Hd.
    apply (proj2 (lower_f _)) in Hf. now rewrite Hp, Hd, Hf.
Qed.

(** The test of [processPdfSelection] is the property of its name. *)
Lemma endsWith_pdf_iff (file_name : string) :
  endsWith (toLowerCase file_name) ".pdf" = true <-> ends_in_pdf file_name.
Proof.
  unfold ends_in_pdf. split.
  - intros H. apply endsWith_inv in H as [stem H].
    apply map_chars_split in H as (a & b & -> & _ & Hb).
    exists a, b. split; [reflexivity|]. now apply (proj1 (toLowerCase_pdf b)).
  - intros (stem & ext & -> & Hext). apply (proj2 (toLowerCase_pdf ext)) in Hext.
    unfold toLowerCase in *. rewrite map_chars_app, Hext. apply endsWith_app.
Qed.

Lemma append_empty_r (s : string) : s ++ "" = s.
Proof. induction s as [|c s IH]; simpl; [reflexivity | now rewrite IH]. Qed.

(** ** Objects *)

Section ObjFacts.
Context {A : Type}.
Implicit Types (o : obj A) (k : string) (v : A).

Lemma obj_get_set_same k v o : obj_get k (obj_set k v o) = Some v.
Proof.
  induction o as [|[k' v'] o IH]; simpl.
  - now rewrite String.eqb_refl.
  - destruct (String.eqb_spec k k') as [->|Hne]; simpl.
    + now rewrite String.eqb_refl.
    + apply String.eqb_neq in Hne. now rewrite Hne.
Qed.

Lemma obj_get_set_other k k' v o :
  k <> k' -> obj_get k' (obj_set k v o) = obj_get k' o.
Proof.
  intros Hne. induction o as [|[k0 v0] o IH]; simpl.
  - assert (String.eqb k' k = false) as -> by (apply String.eqb_neq; congruence).
    reflexivity.
  - destruct (String.eqb_spec k k0) as [->|Hk]; simpl.
    + assert (String.eqb k' k0 = false) as -> by (apply String.eqb_neq; congruence).
      reflexivity.
    + now rewrite IH.
Qed.

Lemma obj_keys_set k v o :
  forall k', In k' (obj_keys (obj_set k v o)) <-> k' = k \/ In k' (obj_keys o).
Proof.
  unfold obj_keys. induction o as [|[k0 v0] o IH]; simpl; intros k'.
  - intuition congruence.
  - destruct (String.eqb_spec k k0) as [->|Hk]; simpl.
    + intuition congruence.
    + rewrite IH. intuition congruence.
Qed.

Lemma obj_set_fresh k v o :
  ~ In k (obj_keys o) -> obj_set k v o = (o ++ [(k, v)])%list.
Proof.
  unfold obj_keys. induction o as [|[k0 v0] o IH]; simpl; intros Hk.
  - reflexivity.
  - destruct (String.eqb_spec k k0) as [->|Hne]; [tauto|].
    rewrite IH; tauto.
Qed.

Lemma obj_keys_set_NoDup k v o :
  NoDup (obj_keys o) -> NoDup (obj_keys (obj_set k v o)).
Proof.
  unfold obj_keys. induction o as [|[k0 v0] o IH]; simpl; intros Hnd.
  - constructor; [intros []|constructor].
  - inversion Hnd as [|? ? Hnotin Hnd']; subst.
    destruct (String.eqb_spec k k0) as [->|Hne]; simpl.
    + now constructor.
    + constructor; [|now apply IH].
      intros Hin. apply (proj1 (obj_keys_set k v o k0)) in Hin as [Heq|Hin];
        [congruence | exact (Hnotin Hin)].
Qed.

Lemma obj_set_In k v o k' v' :
  In (k', v') (obj_set k v o) -> (k', v') = (k, v) \/ In (k', v') o.
Proof.
  induction o as [|[k0 v0] o IH]; simpl.
  - intuition.
  - destruct (String.eqb_spec k k0) as [->|Hne]; simpl; intuition.
Qed.

Lemma obj_get_In k v o : obj_get k o = Some v -> In (k, v) o.
Proof.
  induction o as [|[k0 v0] o IH]; simpl; [discriminate|].
  destruct (String.eqb_spec k k0) as [->|Hne]; intros H.
  - injection H as ->. now left.
  - right. now apply IH.
Qed.

Lemma obj_get_None k o : obj_get k o = None <-> ~ In k (obj_keys o).
Proof.
  unfold obj_keys. induction o as [|[k0 v0] o IH]; simpl.
  - tauto.
  - destruct (String.eqb_spec k k0) as [->|Hne].
    + split; [discriminate|tauto].
    + rewrite IH. intuition congruence.
Qed.

(** With distinct keys, a key that is there is there once. *)
Lemma NoDup_one_entry k o :
  NoDup (obj_keys o) -> In k (obj_keys o) -> one_entry k o.
Proof.
  unfold one_entry, obj_keys.
  induction o as [|[k0 v0] o IH]; simpl; intros Hnd Hin; [tauto|].
  inversion Hnd as [|? ? Hnotin Hnd']; subst.
  destruct (String.eqb_spec k0 k) as [->|Hne]; simpl.
  - f_equal. clear IH Hin Hnd Hnd'.
    induction o as [|[k1 v1] o IH]; simpl in *; [reflexivity|].
    destruct (String.eqb_spec k1 k) as [->|Hne]; [tauto|]. apply IH. tauto.
  - apply IH; [assumption|]. destruct Hin; congruence.
Qed.

End ObjFacts.

(** A loop that assigns [o[k] = f k] for each [k] of a list, as
    [autoDetectMappings] does. *)
Section AssignEach.
Context {A : Type} (f : string -> A).

Local Abbreviation assign_each ks o := (fold_left (fun m k => obj_set k (f k) m) ks o).

Lemma assign_each_NoDup ks o :
  NoDup (obj_keys o) -> NoDup (obj_keys (assign_each ks o)).
Proof.
  revert o. induction ks as [|k ks IH]; simpl; intros o Hnd; [assumption|].
  apply IH. now apply obj_keys_set_NoDup.
Qed.

Lemma assign_each_keys ks o k :
  In k (obj_keys (assign_each ks o)) <-> In k ks \/ In k (obj_keys o).
Proof.
  revert o. induction ks as [|k0 ks IH]; simpl; intros o; [tauto|].
  rewrite IH, obj_keys_set. intuition congruence.
Qed.



End AssignEach.

(** The same loop with the assignment for any key. *)
Section AssignAny.
Context {A : Type} (f : string -> A).

Local Abbreviation assign_any ks o :=
  (fold_left (fun m k => obj_assign k (f k) m) ks o).

Lemma includes_In l x : includes l x = true <-> In x l.
Proof.
  unfold includes. rewrite existsb_exists. split.
  - intros (y & Hy & Heq). apply String.eqb_eq in Heq. now subst.
  - intros H. exists x. split; [assumption | apply String.eqb_refl].
Qed.

Lemma obj_assign_ordinary k (v : A) o :
  k <> "__proto__" -> obj_assign k v o = obj_set k v o.
Proof.
  intros Hk. unfold obj_assign. apply String.eqb_neq in Hk. now rewrite Hk.
Qed.

Lemma obj_assign_proto (v : A) o :
  ~ In "__proto__" (obj_keys o) -> obj_assign "__proto__" v o = o.
Proof.
  intros Hout. unfold obj_assign. rewrite String.eqb_refl.
  destruct (includes (obj_keys o) "__proto__") eqn:E; [|reflexivity].
  apply includes_In in E. contradiction.
Qed.

Lemma obj_assign_keys k (v : A) o k' :
  In k' (obj_keys (obj_assign k v o))
  <-> (k' = k /\ k <> "__proto__") \/ In k' (obj_keys o).
Proof.
  unfold obj_assign. destruct (String.eqb_spec k "__proto__") as [->|Hk].
  - destruct (includes (obj_keys o) "__proto__") eqn:E; cbn [negb andb].
    + apply includes_In in E. rewrite obj_keys_set. split.
      * intros [->|H]; now right.
      * intros [[_ H]|H]; [congruence | now right].
    + tauto.
  - cbn [andb]. rewrite obj_keys_set. tauto.
Qed.

Lemma obj_assign_NoDup k (v : A) o :
  NoDup (obj_keys o) -> NoDup (obj_keys (obj_assign k v o)).
Proof.
  intros Hnd. unfold obj_assign. destruct (_ && _); [assumption|].
  now apply obj_keys_set_NoDup.
Qed.

Lemma obj_assign_get_other k k' (v : A) o :
  k <> k' -> obj_get k' (obj_assign k v o) = obj_get k' o.
Proof.
  intros Hne. unfold obj_assign. destruct (_ && _); [reflexivity|].
  now apply obj_get_set_other.
Qed.

Lemma assign_any_NoDup ks o :
  NoDup (obj_keys o) -> NoDup (obj_keys (assign_any ks o)).
Proof.
  revert o. induction ks as [|k ks IH]; simpl; intros o Hnd; [assumption|].
  apply IH. now apply obj_assign_NoDup.
Qed.

Lemma assign_any_keys ks o k :
  In k (obj_keys (assign_any ks o))
  <-> (In k ks /\ k <> "__proto__") \/ In k (obj_keys o).
Proof.
  revert o. induction ks as [|k0 ks IH]; simpl; intros o; [tauto|].
  rewrite IH, obj_assign_keys. split.
  - intros [[H1 H2]|[[-> H]|H]]; tauto.
  - intros [[[->|H1] H2]|H]; tauto.
Qed.

Lemma assign_any_get_other ks o k :
  ~ In k ks -> obj_get k (assign_any ks o) = obj_get k o.
Proof.
  revert o. induction ks as [|k0 ks IH]; simpl; intros o Hk; [reflexivity|].
  rewrite IH by tauto.
  apply obj_assign_get_other. intros ->. tauto.
Qed.

Lemma assign_any_get ks o k :
  In k ks -> k <> "__proto__" -> obj_get k (assign_any ks o) = Some (f k).
Proof.
  revert o. induction ks as [|k0 ks IH]; simpl; intros o Hk Hord; [tauto|].
  destruct (in_dec string_dec k ks) as [Hin|Hnotin].
  - now apply IH.
  - destruct Hk as [->|Hk]; [|tauto].
    rewrite assign_any_get_other by assumption.
    rewrite obj_assign_ordinary by assumption. apply obj_get_set_same.
Qed.

Lemma assign_any_proto ks o :
  ~ In "__proto__" (obj_keys o) ->
  obj_get "__proto__" (assign_any ks o) = None.
Proof.
  intros Hout. apply obj_get_None. rewrite assign_any_keys. tauto.
Qed.

End AssignAny.

(** A loop that copies each property through [g], as the [cleanMapping]
    loops do. *)
Section CopyEach.
Context {A B : Type} (g : A -> B).

Local Abbreviation copy_each m acc :=
  (fold_left (fun acc kc => obj_set (fst kc) (g (snd kc)) acc) m acc).

Lemma copy_each_In m acc k e :
  In (k, e) (copy_each m acc) ->
  In (k, e) acc \/ exists conf, In (k, conf) m /\ e = g conf.
Proof.
  revert acc. induction m as [|[k0 c0] m IH]; simpl; intros acc H; [now left|].
  apply IH in H as [H|(conf & Hin & ->)].
  - apply obj_set_In in H as [H|H]; [|now left].
    injection H as -> ->. right. exists c0. auto.
  - right. exists conf. auto.
Qed.

Lemma copy_each_NoDup m acc :
  NoDup (obj_keys acc ++ obj_keys m) ->
  copy_each m acc = (acc ++ map (fun kc => (fst kc, g (snd kc))) m)%list.
Proof.
  revert acc. induction m as [|[k0 c0] m IH]; simpl; intros acc Hnd.
  - now rewrite app_nil_r.
  - rewrite obj_set_fresh.
    + rewrite IH.
      * now rewrite <- app_assoc.
      * unfold obj_keys in *. rewrite map_app, <- app_assoc. exact Hnd.
    + apply NoDup_remove_2 in Hnd. intros Hin. apply Hnd.
      apply in_or_app. now left.
Qed.

Lemma obj_get_map k (m : obj A) :
  obj_get k (map (fun kc => (fst kc, g (snd kc))) m)
  = option_map g (obj_get k m).
Proof.
  induction m as [|[k0 c0] m IH]; simpl; [reflexivity|].
  now destruct (String.eqb k k0).
Qed.

End CopyEach.

(** ** The extractor *)

Section ExtractorFacts.
Import Extractor.

Lemma processPdfSelection_rejects file st :
  endsWith (toLowerCase (name file)) ".pdf" = false ->
  processPdfSelection file st = set_errorMsg "Please upload a valid PDF file." st.
Proof. intros H. unfold processPdfSelection. now rewrite H. Qed.

Lemma processPdfSelection_accepts file st :
  endsWith (toLowerCase (name file)) ".pdf" = true ->
  processPdfSelection file st
  = {| step := 2; pdfFile := Some file; isUploading := isUploading st;
       processingOption := processingOption st;
       outputFormat := outputFormat st; errorMsg := "" |}.
Proof. intros H. unfold processPdfSelection. now rewrite H. Qed.

Lemma processPdfSelection_holds file st :
  holds_pdf st -> holds_pdf (processPdfSelection file st).
Proof.
  intros Hst. destruct (endsWith (toLowerCase (name file)) ".pdf") eqn:Hpdf.
  - rewrite processPdfSelection_accepts by assumption.
    intros file' H. simpl in H. injection H as <-. assumption.
  - rewrite processPdfSelection_rejects by assumption. exact Hst.
Qed.

Lemma handleExtract_answer_holds answer now st :
  holds_pdf st -> holds_pdf (fst (handleExtract_answer answer now st)).
Proof.
  intros Hst. unfold handleExtract_answer.
  destruct answer as [m|r]; [exact Hst|].
  destruct (ok r); simpl.
  - destruct (blob r); simpl; [exact Hst|]. intros file H. discriminate H.
  - destruct (error_detail r); exact Hst.
Qed.

Lemma on_event_holds ev st :
  holds_pdf st ->
  holds_pdf (fst (on_event ev st))
  /\ Forall sends_pdf (snd (on_event ev st)).
Proof.
  intros Hst. destruct ev; simpl; try (split; [|constructor]); try exact Hst.
  - destruct files; [exact Hst | now apply processPdfSelection_holds].
  - destruct files; [exact Hst | now apply processPdfSelection_holds].
  - intros file H. discriminate H.
  - unfold handleExtract_request.
    destruct (pdfFile st) as [file|] eqn:Hfile; simpl.
    + split; [intros file' H; apply Hst; exact H |].
      constructor; [|constructor]. unfold sends_pdf. simpl. now apply Hst.
    + split; [exact Hst | constructor].
  - now apply handleExtract_answer_holds.
Qed.

Lemma run_holds evs : forall st,
  holds_pdf st ->
  holds_pdf (fst (run evs st)) /\ Forall sends_pdf (snd (run evs st)).
Proof.
  induction evs as [|ev evs IH]; simpl; intros st Hst.
  - split; [exact Hst | constructor].
  - destruct (on_event_holds ev st Hst) as [H1 Hsent1].
    destruct (on_event ev st) as [st1 sent1]; simpl in *.
    destruct (IH st1 H1) as [H2 Hsent2].
    destruct (run evs st1) as [st2 sent2]; simpl in *.
    split; [exact H2 | now apply Forall_app].
Qed.

End ExtractorFacts.

(** C9: in the extractor, a file whose name does not end in ".pdf" (in any
    case) only sets the error message, and leaves [pdfFile] and [step] as
    they were; a file whose name does becomes [pdfFile], clears the error
    message and moves to step 2; hence, whatever the user does from the
    initial state, every extract request carries a file whose name ends in
    ".pdf". *)
Theorem C9_only_pdf_files_are_extracted :
  (forall file st, ~ ends_in_pdf (name file) ->
     let st' := Extractor.processPdfSelection file st in
     st' = Extractor.set_errorMsg "Please upload a valid PDF file." st
     /\ Extractor.errorMsg st' = "Please upload a valid PDF file."
     /\ Extractor.pdfFile st' = Extractor.pdfFile st
     /\ Extractor.step st' = Extractor.step st)
  /\ (forall file st, ends_in_pdf (name file) ->
     let st' := Extractor.processPdfSelection file st in
     Extractor.pdfFile st' = Some file
     /\ Extractor.errorMsg st' = ""
     /\ Extractor.step st' = 2%Z)
  /\ (forall evs request,
     In request (snd (Extractor.run evs Extractor.init)) ->
     ends_in_pdf (name (Extractor.form_pdfFile request))).
Proof.
  split; [|split].
  - intros file st Hno st'. subst st'.
    rewrite processPdfSelection_rejects.
    + repeat split.
    + destruct (endsWith _ _) eqn:E; [|reflexivity].
      exfalso. apply Hno. now apply endsWith_pdf_iff.
  - intros file st Hpdf st'. subst st'.
    rewrite processPdfSelection_accepts by (now apply endsWith_pdf_iff).
    repeat split.
  - intros evs request Hin.
    assert (holds_pdf Extractor.init) as Hinit by (intros file H; discriminate H).
    destruct (run_holds evs _ Hinit) as [_ Hsent].
    rewrite Forall_forall in Hsent. apply endsWith_pdf_iff. now apply Hsent.
Qed.

Lemma C9_on_sample_files :
  Extractor.pdfFile (Extractor.processPdfSelection Samples.notes_txt Extractor.init) = None
  /\ Extractor.pdfFile (Extractor.processPdfSelection Samples.report_pdf Extractor.init)
     = Some Samples.report_pdf
  /\ ends_in_pdf
       (name (Extractor.form_pdfFile
                {| Extractor.form_pdfFile := Samples.report_pdf;
                   Extractor.form_processingOption := "allText";
                   Extractor.form_outputFormat := "excel" |})).
Proof.
  destruct C9_only_pdf_files_are_extracted as (Hbad & Hgood & Hsent).
  split; [|split].
  - assert (~ ends_in_pdf (name Samples.notes_txt)) as Hno.
    { intros H. apply endsWith_pdf_iff in H. vm_compute in H. discriminate H. }
    destruct (Hbad Samples.notes_txt Extractor.init Hno) as (_ & _ & H & _).
    exact H.
  - assert (ends_in_pdf (name Samples.report_pdf)) as Hpdf.
    { apply endsWith_pdf_iff. reflexivity. }
    destruct (Hgood Samples.report_pdf Extractor.init Hpdf) as (H & _).
    exact H.
  - apply (Hsent [Extractor.PdfDrop [Samples.report_pdf]; Extractor.ExtractClick]).
    vm_compute. now left.
Defined.

(** C3 as stated fails: with tables only and CSV output, the file of an
    extraction that produced exactly one table is not saved as a CSV. *)
Lemma C3_one_table_is_saved_as_zip :
  exists dl,
    snd (Extractor.handleExtract Samples.one_table 1700000000000
           Samples.tables_to_csv) = Some dl
    /\ endsWith (Extractor.download dl) ".csv" = false
    /\ endsWith (Extractor.download dl) ".zip" = true.
Proof. eexists. split; [reflexivity|]. split; reflexivity. Qed.

(** C3, amended: the name under which the extractor saves an answer ends
    in "xlsx" for Excel output, in "csv" for CSV output of a full
    extraction and in "zip" for CSV output of tables only; it does not
    depend on how many tables or pages the service produced. *)
Theorem C3_download_extension_follows_the_options :
  forall (response : Extractor.ExtractResponse) (b : Blob) (now : Z)
         (st : Extractor.State),
    Extractor.ok response = true ->
    Extractor.blob response = Resolves b ->
    snd (Extractor.handleExtract_answer (Resolves response) now st)
    = Some {| Extractor.href := ObjectUrl b;
              Extractor.download :=
                "Extracted_" ++ Extractor.option_name (Extractor.processingOption st)
                ++ "_" ++ string_of_Z now ++ "."
                ++ match Extractor.outputFormat st, Extractor.processingOption st with
                   | Extractor.excel, _ => "xlsx"
                   | Extractor.csv, Extractor.allText => "csv"
                   | Extractor.csv, Extractor.tablesOnly => "zip"
                   end |}.
Proof.
  intros response b now st Hok Hblob. unfold Extractor.handleExtract_answer.
  rewrite Hok, Hblob. simpl.
  now destruct (Extractor.outputFormat st), (Extractor.processingOption st).
Qed.

Lemma C3_on_one_table :
  snd (Extractor.handleExtract_answer Samples.one_table 1700000000000
         Samples.tables_to_csv)
  = Some {| Extractor.href := ObjectUrl "a,b,c";
            Extractor.download := "Extracted_tablesOnly_1700000000000.zip" |}.
Proof.
  exact (C3_download_extension_follows_the_options
           {| Extractor.ok := true; Extractor.error_detail := Resolves None;
              Extractor.blob := Resolves "a,b,c"; Extractor.tables := 1 |}
           "a,b,c" 1700000000000%Z Samples.tables_to_csv eq_refl eq_refl).
Defined.

(** ** The generator page *)

(** C10: a generate request that fails (the fetch rejects, the response is
    not ok, or its body cannot be read) sets [errorMsg] and leaves [step],
    [generationComplete] and [downloadUrl] as they were; they change only
    on an ok response, to step 3, [true] and the URL of the archive; and
    [isGenerating] is false afterwards on every path. *)
Theorem C10_generate_is_atomic :
  forall (answer : promise (response Blob)) (st : Page.State),
    let st' := fst (Page.handleGenerate answer st) in
    Page.isGenerating st' = false
    /\ (forall m, answer = Rejects m -> Page.errorMsg st' = m /\ stays st st')
    /\ (forall res, answer = Resolves res -> ok res = false ->
          Page.errorMsg st' = "Generation failed" /\ stays st st')
    /\ (forall res m, answer = Resolves res -> ok res = true ->
          body res = Rejects m -> Page.errorMsg st' = m /\ stays st st')
    /\ (forall res b, answer = Resolves res -> ok res = true ->
          body res = Resolves b ->
          Page.step st' = 3%Z /\ Page.generationComplete st' = true
          /\ Page.downloadUrl st' = ObjectUrl b /\ Page.errorMsg st' = "")
    /\ (~ stays st st' -> exists res, answer = Resolves res /\ ok res = true).
Proof.
  intros answer st st'. subst st'. unfold Page.handleGenerate, stays. simpl.
  destruct answer as [m|res]; simpl.
  - split; [reflexivity|]. split; [|repeat (split; [discriminate|])].
    + intros m' Hm. injection Hm as ->. now repeat split.
    + intros Hmoved. exfalso. apply Hmoved. now repeat split.
  - destruct (ok res) eqn:Hok; simpl.
    + destruct (body res) as [m|b] eqn:Hbody; simpl.
      * split; [reflexivity|]. split; [discriminate|].
        split; [intros res' Hres; injection Hres as <-; congruence|].
        split; [|split].
        -- intros res' m' Hres _ Hb. injection Hres as <-.
           rewrite Hbody in Hb. injection Hb as ->. now repeat split.
        -- intros res' b' Hres _ Hb. injection Hres as <-. congruence.
        -- intros _. now exists res.
      * split; [reflexivity|]. split; [discriminate|].
        split; [intros res' Hres; injection Hres as <-; congruence|].
        split; [|split].
        -- intros res' m' Hres _ Hb. injection Hres as <-. congruence.
        -- intros res' b' Hres _ Hb. injection Hres as <-.
           rewrite Hbody in Hb. injection Hb as ->. now repeat split.
        -- intros _. now exists res.
    + split; [reflexivity|]. split; [discriminate|].
      split; [intros res' Hres _; now repeat split|].
      split; [intros res' m' Hres; injection Hres as <-; congruence|].
      split; [intros res' b' Hres; injection Hres as <-; congruence|].
      intros Hmoved. exfalso. apply Hmoved. now repeat split.
Qed.

Lemma C10_on_a_refused_generation :
  Page.errorMsg (fst (Page.handleGenerate Samples.generate_refused Samples.mapped))
  = "Generation failed"
  /\ stays Samples.mapped
       (fst (Page.handleGenerate Samples.generate_refused Samples.mapped)).
Proof.
  destruct (C10_generate_is_atomic Samples.generate_refused Samples.mapped)
    as (_ & _ & Hrefused & _).
  exact (Hrefused Samples.generate_refused_response eq_refl eq_refl).
Defined.

Lemma handleUpload_refused (res : response Page.UploadData) meta st c d :
  Page.csvFile st = Some c -> Page.docxFile st = Some d -> ok res = false ->
  Page.handleUpload (Resolves res) meta st
  = Page.upload_catch "Upload failed"
      (Page.set_errorMsg "" (Page.set_isUploading true st)).
Proof.
  intros Hc Hd Hok. unfold Page.handleUpload. now rewrite Hc, Hd, Hok.
Qed.

Lemma handleUpload_metadata_refused (ures : response Page.UploadData) udata
    (mres : response Page.MetaData) st c d :
  Page.csvFile st = Some c -> Page.docxFile st = Some d ->
  ok ures = true -> body ures = Resolves udata -> ok mres = false ->
  Page.handleUpload (Resolves ures) (Resolves mres) st
  = Page.upload_catch "Metadata extraction failed"
      (Page.set_sessionId (Page.session_id udata)
         (Page.set_errorMsg "" (Page.set_isUploading true st))).
Proof.
  intros Hc Hd Hok Hbody Hmeta. unfold Page.handleUpload.
  now rewrite Hc, Hd, Hok, Hbody, Hmeta.
Qed.

Lemma handleUpload_done (ures : response Page.UploadData) udata
    (mres : response Page.MetaData) mdata st c d :
  Page.csvFile st = Some c -> Page.docxFile st = Some d ->
  ok ures = true -> body ures = Resolves udata ->
  ok mres = true -> body mres = Resolves mdata ->
  let st' := Page.handleUpload (Resolves ures) (Resolves mres) st in
  Page.step st' = 2%Z /\ Page.errorMsg st' = "" /\ Page.isUploading st' = false
  /\ Page.isGenerating st' = Page.isGenerating st
  /\ Page.csvHeaders st' = Page.csv_headers mdata
  /\ Page.docxPlaceholders st' = Page.docx_placeholders mdata
  /\ Page.mappings st'
     = fold_left
         (fun m ph => obj_assign ph (Page.detect (Page.csv_headers mdata) ph) m)
         (Page.docx_placeholders mdata) (Page.mappings st).
Proof.
  intros Hc Hd Hok Hbody Hmok Hmbody. unfold Page.handleUpload.
  rewrite Hc, Hd, Hok, Hbody, Hmok, Hmbody. simpl. now repeat split.
Qed.

(** C4 as stated fails: the service refuses an upload with a message of
    its own, and the page shows another text. *)
Lemma C4_upload_shows_a_fixed_text :
  exists res,
    Samples.upload_refused = Resolves res
    /\ detail res = Some "Template is not a valid Word document"
    /\ Page.errorMsg
         (Page.handleUpload Samples.upload_refused Samples.meta_three_tags
            Samples.chosen)
       <> "Template is not a valid Word document".
Proof.
  eexists. split; [reflexivity|]. split; [reflexivity|]. vm_compute. discriminate.
Qed.

(** C4, amended: a failed upload or metadata call aborts the request (the
    page stays on its step, initialises no mapping and stops uploading); a
    refused one shows the page's own text, "Upload failed" or "Metadata
    extraction failed", whatever the service reported (when the request
    itself fails, or an accepted answer cannot be read, the text is the
    message of that error); a refused generate call shows
    "Generation failed"; a refused extract call whose body can be read
    shows the service's [detail] as it is when it has a non-empty one, and
    "Extraction failed" when it has none or an empty one; when the body of
    the refusal cannot be read, it shows the message of that error, and
    "Could not connect to the extraction server." when that is empty. *)
Theorem C4_failures_show_fixed_texts_except_extract :
  (forall (res : response Page.UploadData) meta st c d,
     Page.csvFile st = Some c -> Page.docxFile st = Some d -> ok res = false ->
     let st' := Page.handleUpload (Resolves res) meta st in
     Page.errorMsg st' = "Upload failed" /\ aborted st st')
  /\ (forall (ures : response Page.UploadData) udata
             (mres : response Page.MetaData) st c d,
     Page.csvFile st = Some c -> Page.docxFile st = Some d ->
     ok ures = true -> body ures = Resolves udata -> ok mres = false ->
     let st' := Page.handleUpload (Resolves ures) (Resolves mres) st in
     Page.errorMsg st' = "Metadata extraction failed" /\ aborted st st')
  /\ (forall m meta st c d,
     Page.csvFile st = Some c -> Page.docxFile st = Some d ->
     let st' := Page.handleUpload (Rejects m) meta st in
     Page.errorMsg st' = m /\ aborted st st')
  /\ (forall (res : response Blob) st,
     ok res = false ->
     Page.errorMsg (fst (Page.handleGenerate (Resolves res) st))
     = "Generation failed")
  /\ (forall (res : response Blob) st,
     ok res = false ->
     Generator.errorMsg (fst (Generator.handleGenerate (Resolves res) st))
     = "Generation failed")
  /\ (forall (res : Extractor.ExtractResponse) now st d,
     Extractor.ok res = false ->
     Extractor.error_detail res = Resolves (Some d) -> d <> "" ->
     Extractor.errorMsg (fst (Extractor.handleExtract_answer (Resolves res) now st))
     = d)
  /\ (forall (res : Extractor.ExtractResponse) now st,
     Extractor.ok res = false ->
     Extractor.error_detail res = Resolves None
     \/ Extractor.error_detail res = Resolves (Some "") ->
     Extractor.errorMsg (fst (Extractor.handleExtract_answer (Resolves res) now st))
     = "Extraction failed")
  /\ (forall (res : Extractor.ExtractResponse) now st m,
     Extractor.ok res = false ->
     Extractor.error_detail res = Rejects m ->
     Extractor.errorMsg (fst (Extractor.handleExtract_answer (Resolves res) now st))
     = (if String.eqb m "" then "Could not connect to the extraction server."
        else m))
  /\ (forall (ures : response Page.UploadData) meta st c d m,
     Page.csvFile st = Some c -> Page.docxFile st = Some d ->
     ok ures = true -> body ures = Rejects m ->
     let st' := Page.handleUpload (Resolves ures) meta st in
     Page.errorMsg st' = m /\ aborted st st')
  /\ (forall (ures : response Page.UploadData) udata meta st c d m,
     Page.csvFile st = Some c -> Page.docxFile st = Some d ->
     ok ures = true -> body ures = Resolves udata ->
     meta = Rejects m
     \/ (exists mres, meta = Resolves mres /\ ok mres = true
                      /\ body mres = Rejects m) ->
     let st' := Page.handleUpload (Resolves ures) meta st in
     Page.errorMsg st' = m /\ aborted st st').
Proof.
  split; [|split; [|split; [|split; [|split; [|split; [|split; [|split; [|split]]]]]]]].
  - intros res meta st c d Hc Hd Hok st'. subst st'.
    rewrite (handleUpload_refused res meta st c d Hc Hd Hok).
    unfold aborted. simpl. now repeat split.
  - intros ures udata mres st c d Hc Hd Hok Hbody Hmeta st'. subst st'.
    rewrite (handleUpload_metadata_refused ures udata mres st c d Hc Hd Hok Hbody Hmeta).
    unfold aborted. simpl. now repeat split.
  - intros m meta st c d Hc Hd st'. subst st'. unfold Page.handleUpload.
    rewrite Hc, Hd. unfold aborted. simpl. now repeat split.
  - intros res st Hok. unfold Page.handleGenerate. simpl. now rewrite Hok.
  - intros res st Hok. unfold Generator.handleGenerate. simpl. now rewrite Hok.
  - intros res now st d Hok Hdetail Hd. unfold Extractor.handleExtract_answer.
    rewrite Hok, Hdetail. simpl. unfold or_else, truthy.
    apply String.eqb_neq in Hd. now rewrite Hd; simpl; rewrite Hd.
  - intros res now st Hok [Hdetail|Hdetail];
      unfold Extractor.handleExtract_answer; now rewrite Hok, Hdetail.
  - intros res now st m Hok Hdetail. unfold Extractor.handleExtract_answer.
    rewrite Hok, Hdetail. simpl. unfold or_else, truthy.
    now destruct (String.eqb m "").
  - intros ures meta st c d m Hc Hd Hok Hbody st'. subst st'.
    unfold Page.handleUpload. rewrite Hc, Hd, Hok, Hbody.
    unfold aborted. simpl. now repeat split.
  - intros ures udata meta st c d m Hc Hd Hok Hbody Hmeta st'. subst st'.
    unfold Page.handleUpload. rewrite Hc, Hd, Hok, Hbody.
    destruct Hmeta as [->|(mres & -> & Hmok & Hmbody)].
    + unfold aborted. simpl. now repeat split.
    + rewrite Hmok, Hmbody. unfold aborted. simpl. now repeat split.
Qed.

Lemma C4_on_a_refused_upload :
  Page.errorMsg
    (Page.handleUpload Samples.upload_refused Samples.meta_three_tags Samples.chosen)
  = "Upload failed"
  /\ aborted Samples.chosen
       (Page.handleUpload Samples.upload_refused Samples.meta_three_tags
          Samples.chosen).
Proof.
  destruct C4_failures_show_fixed_texts_except_extract as (Hupload & _).
  exact (Hupload Samples.upload_refused_response Samples.meta_three_tags
           Samples.chosen _ _ eq_refl eq_refl eq_refl).
Defined.

(** C2 as stated fails: after an upload whose template holds no tag, a click
    on the generate button starts nothing. *)
Lemma C2_no_tags_no_generation :
  Page.step (Page.handleUpload Samples.upload_ok Samples.meta_no_tags Samples.chosen)
  = 2%Z
  /\ Page.generate_click Samples.archive_ok
       (Page.handleUpload Samples.upload_ok Samples.meta_no_tags Samples.chosen)
     = (Page.handleUpload Samples.upload_ok Samples.meta_no_tags Samples.chosen,
        None).
Proof. split; reflexivity. Qed.

(** C2, amended: finding no tag in the template is not fatal to the upload
    (the page moves to step 2 and shows no error, and no warning either),
    but the mapping record is then empty and the generate button is
    disabled, so that no generate request can be started; with a tag other
    than [__proto__] the button is enabled and a click posts the generate
    request; the Generator component's button is disabled exactly on an
    empty record too. *)
Theorem C2_no_tags_disable_generation :
  forall (ures : response Page.UploadData) udata
         (mres : response Page.MetaData) mdata st c d,
    Page.csvFile st = Some c -> Page.docxFile st = Some d ->
    Page.mappings st = [] -> Page.isGenerating st = false ->
    ok ures = true -> body ures = Resolves udata ->
    ok mres = true -> body mres = Resolves mdata ->
    let st' := Page.handleUpload (Resolves ures) (Resolves mres) st in
    (Page.docx_placeholders mdata = [] ->
       Page.step st' = 2%Z /\ Page.errorMsg st' = "" /\ Page.mappings st' = []
       /\ Page.generate_disabled st' = true
       /\ forall answer, Page.generate_click answer st' = (st', None))
    /\ ((exists ph, In ph (Page.docx_placeholders mdata) /\ ph <> "__proto__") ->
       Page.mappings st' <> []
       /\ Page.generate_disabled st' = false
       /\ forall answer, snd (Page.generate_click answer st')
                         = Some (Page.generate_body st'))
    /\ (forall g : Generator.State,
       Generator.generate_disabled g = true <-> Generator.mappings g = []).
Proof.
  intros ures udata mres mdata st c d Hc Hd Hm Hg Hok Hbody Hmok Hmbody st'.
  destruct (handleUpload_done ures udata mres mdata st c d Hc Hd Hok Hbody Hmok Hmbody)
    as (Hstep & Herr & _ & Hgen & _ & _ & Hmap).
  fold st' in Hstep, Herr, Hgen, Hmap. rewrite Hm in Hmap. rewrite Hg in Hgen.
  split; [|split].
  - intros Hnone. rewrite Hnone in Hmap. simpl in Hmap.
    assert (Page.generate_disabled st' = true) as Hdis
      by (unfold Page.generate_disabled; now rewrite Hmap).
    repeat (split; [assumption|]).
    intros answer. unfold Page.generate_click. now rewrite Hdis, andb_false_r.
  - intros (ph & Hph & Hord).
    assert (In ph (obj_keys (Page.mappings st'))) as Hin
      by (rewrite Hmap; apply assign_any_keys; left; now split).
    assert (Page.generate_disabled st' = false) as Hdis.
    { unfold Page.generate_disabled. rewrite Hgen, orb_false_r.
      destruct (obj_keys (Page.mappings st')); [destruct Hin | reflexivity]. }
    split; [intros Hnil; rewrite Hnil in Hin; exact Hin|].
    split; [assumption|]. intros answer. unfold Page.generate_click.
    rewrite Hdis, Hstep. reflexivity.
  - intros g. unfold Generator.generate_disabled.
    destruct (Generator.mappings g); simpl; split; congruence.
Qed.

Lemma C2_on_a_template_without_tags :
  Page.generate_disabled
    (Page.handleUpload Samples.upload_ok Samples.meta_no_tags Samples.chosen)
  = true.
Proof.
  destruct (C2_no_tags_disable_generation
              Samples.upload_ok_response _ Samples.meta_no_tags_response _
              Samples.chosen _ _
              eq_refl eq_refl eq_refl eq_refl eq_refl eq_refl eq_refl eq_refl)
    as (Hnone & _).
  destruct (Hnone eq_refl) as (_ & _ & _ & Hdis & _). exact Hdis.
Defined.

Lemma detect_unbound headers ph :
  Page.value (Page.detect headers ph) = "" ->
  Page.clean_entry (Page.detect headers ph)
  = {| Page.clean_type := "custom_text"; Page.clean_value := "";
       Page.clean_prefix := ""; Page.clean_suffix := "" |}.
Proof.
  unfold Page.detect. simpl. intros Hnone. unfold Page.clean_entry. simpl.
  rewrite Hnone. reflexivity.
Qed.

Lemma page_cleanMapping_map (m : obj Page.MappingConfig) :
  NoDup (obj_keys m) ->
  Page.cleanMapping m = map (fun kc => (fst kc, Page.clean_entry (snd kc))) m.
Proof.
  intros Hnd. unfold Page.cleanMapping.
  now rewrite (copy_each_NoDup Page.clean_entry m []).
Qed.

Lemma obj_get_key {A} k (o : obj A) v : obj_get k o = Some v -> In k (obj_keys o).
Proof.
  intros H. destruct (in_dec string_dec k (obj_keys o)) as [Hin|Hout]; [exact Hin|].
  apply obj_get_None in Hout. congruence.
Qed.

Lemma handleUpload_cases up meta st :
  let st' := Page.handleUpload up meta st in
  (Page.step st' = Page.step st /\ Page.mappings st' = Page.mappings st
   /\ Page.docxPlaceholders st' = Page.docxPlaceholders st)
  \/ (Page.step st' = 2%Z
      /\ exists headers,
          Page.mappings st'
          = fold_left (fun m ph => obj_assign ph (Page.detect headers ph) m)
              (Page.docxPlaceholders st') (Page.mappings st)).
Proof.
  unfold Page.handleUpload.
  destruct (Page.csvFile st), (Page.docxFile st); try (left; now repeat split).
  destruct up as [m|ures]; [left; now repeat split|].
  destruct (ok ures); [|left; now repeat split].
  destruct (body ures) as [m|udata]; [left; now repeat split|].
  destruct meta as [m|mres]; [left; now repeat split|].
  destruct (ok mres); [|left; now repeat split].
  destruct (body mres) as [m|mdata]; [left; now repeat split|].
  right. split; [reflexivity|]. now exists (Page.csv_headers mdata).
Qed.

Lemma upload_click_keeps up meta st :
  mapped_once st -> mapped_once (Page.upload_click up meta st).
Proof.
  intros Hst. pose proof Hst as (Hnd & Hfirst & Hlater). unfold Page.upload_click.
  destruct (Z.eqb_spec (Page.step st) 1) as [Hstep|Hstep]; simpl;
    [|exact Hst].
  destruct (negb (Page.upload_disabled st)); [|exact Hst].
  destruct (handleUpload_cases up meta st) as [(Hs & Hm & Hp)|(Hs & headers & Hm)].
  - unfold mapped_once. rewrite Hs, Hm, Hp. exact Hst.
  - unfold mapped_once. rewrite Hs, Hm, (Hfirst Hstep). split; [|split].
    + apply assign_any_NoDup. constructor.
    + discriminate.
    + intros _ ph. rewrite assign_any_keys. simpl. tauto.
Qed.

Lemma edit_keeps ph change st :
  mapped_once st -> mapped_once (Page.edit ph change st).
Proof.
  intros Hst. pose proof Hst as (Hnd & Hfirst & Hlater). unfold Page.edit.
  destruct (Z.eqb_spec (Page.step st) 2) as [Hstep|Hstep]; simpl;
    [|exact Hst].
  destruct (includes (Page.docxPlaceholders st) ph); [|exact Hst].
  destruct (obj_get ph (Page.mappings st)) as [conf|] eqn:Hget;
    [|exact Hst].
  apply obj_get_key in Hget. unfold mapped_once. simpl. split; [|split].
  - now apply obj_keys_set_NoDup.
  - intros H. congruence.
  - intros H k. rewrite obj_keys_set, <- (Hlater H k). split; [|tauto].
    intros [->|Hk]; assumption.
Qed.

Lemma generate_click_keeps answer st :
  mapped_once st -> mapped_once (fst (Page.generate_click answer st)).
Proof.
  intros Hst. pose proof Hst as (Hnd & Hfirst & Hlater).
  unfold Page.generate_click.
  destruct (Z.eqb_spec (Page.step st) 2) as [Hstep|Hstep]; simpl;
    [|exact Hst].
  destruct (negb (Page.generate_disabled st)); simpl; [|exact Hst].
  assert (Page.step st <> 1%Z) as Hnot1 by congruence.
  unfold Page.handleGenerate_answer.
  destruct answer as [m|res]; [exact Hst|].
  destruct (ok res); [|exact Hst].
  destruct (body res); [exact Hst|].
  unfold mapped_once. simpl. split; [exact Hnd|]. split; [discriminate|].
  intros _. now apply Hlater.
Qed.

Lemma on_event_keeps ev st : mapped_once st -> mapped_once (Page.on_event ev st).
Proof.
  intros H. destruct ev; simpl;
    first [ exact H | now apply upload_click_keeps | now apply edit_keeps
          | now apply generate_click_keeps ].
Qed.

Lemma run_keeps evs : forall st, mapped_once st -> mapped_once (Page.run evs st).
Proof.
  unfold Page.run. induction evs as [|ev evs IH]; simpl; intros st H;
    [exact H | apply IH; now apply on_event_keeps].
Qed.

Lemma init_mapped_once : mapped_once Page.init.
Proof. split; [constructor | split; [reflexivity | intros H; now elim H]]. Qed.

(** C5: [autoDetectMappings] gives every placeholder of the template other
    than [__proto__] exactly one entry of the mapping record, the detected
    configuration, and, started from the empty record, an entry to
    nothing else; a placeholder to which no column was bound is sent with
    the empty string as its value; whatever the user does from the initial
    page, when a click starts a generation the record has exactly one
    entry for every placeholder other than [__proto__] and none for
    anything else.  For a placeholder named [__proto__] the assignment
    [mappings[ph] = ...] creates no entry: after the upload of a template
    with the tags [#NAME] and [__proto__], the record and the [mapping] of
    the generate request hold [#NAME] alone. *)
Theorem C5_one_mapping_per_placeholder :
  (forall st : Page.State,
     NoDup (obj_keys (Page.mappings st)) ->
     let st' := Page.autoDetectMappings st in
     NoDup (obj_keys (Page.mappings st'))
     /\ (forall ph, In ph (Page.docxPlaceholders st) -> ph <> "__proto__" ->
           one_entry ph (Page.mappings st')
           /\ obj_get ph (Page.mappings st')
              = Some (Page.detect (Page.csvHeaders st) ph))
     /\ (Page.mappings st = [] ->
         forall ph, In ph (obj_keys (Page.mappings st'))
                    <-> In ph (Page.docxPlaceholders st) /\ ph <> "__proto__")
     /\ (forall ph, In ph (Page.docxPlaceholders st) -> ph <> "__proto__" ->
           Page.value (Page.detect (Page.csvHeaders st) ph) = "" ->
           obj_get ph (Page.cleanMapping (Page.mappings st'))
           = Some {| Page.clean_type := "custom_text"; Page.clean_value := "";
                     Page.clean_prefix := ""; Page.clean_suffix := "" |}))
  /\ (forall evs answer request,
       let st := Page.run evs Page.init in
       snd (Page.generate_click answer st) = Some request ->
       (forall ph, In ph (Page.docxPlaceholders st) -> ph <> "__proto__" ->
                   one_entry ph (Page.mappings st))
       /\ (forall ph, In ph (obj_keys (Page.mappings st)) ->
                      In ph (Page.docxPlaceholders st) /\ ph <> "__proto__"))
  /\ (let st := Page.handleUpload Samples.upload_ok Samples.meta_proto_tag
                  Samples.chosen in
      Page.step st = 2%Z
      /\ Page.docxPlaceholders st = ["#NAME"; "__proto__"]
      /\ obj_keys (Page.mappings st) = ["#NAME"]
      /\ obj_get "__proto__" (Page.mappings st) = None
      /\ ~ one_entry "__proto__" (Page.mappings st)
      /\ exists request entries,
           snd (Page.generate_click Samples.archive_ok st) = Some request
           /\ json_get "mapping" request = Some (JObj entries)
           /\ map fst entries = ["#NAME"]).
Proof.
  split; [|split].
  - intros st Hnd st'. subst st'. unfold Page.autoDetectMappings. simpl.
    set (f := Page.detect (Page.csvHeaders st)).
    assert (NoDup (obj_keys (fold_left (fun m ph => obj_assign ph (f ph) m)
                               (Page.docxPlaceholders st) (Page.mappings st))))
      as Hnd' by (now apply assign_any_NoDup).
    split; [exact Hnd'|]. split; [|split].
    + intros ph Hin Hord. split.
      * apply NoDup_one_entry; [exact Hnd'|]. apply assign_any_keys. left.
        now split.
      * now apply assign_any_get.
    + intros Hempty ph. rewrite assign_any_keys, Hempty. simpl. tauto.
    + intros ph Hin Hord Hnone.
      rewrite page_cleanMapping_map by exact Hnd'.
      rewrite obj_get_map, (assign_any_get f _ _ ph Hin Hord). simpl.
      f_equal. now apply detect_unbound.
  - intros evs answer request st Hclick.
    destruct (run_keeps evs Page.init init_mapped_once) as (Hnd & _ & Hlater).
    fold st in Hnd, Hlater.
    assert (Page.step st <> 1%Z) as Hstep.
    { unfold Page.generate_click in Hclick.
      destruct (Z.eqb_spec (Page.step st) 2) as [H2|H2]; [congruence|].
      simpl in Hclick. discriminate Hclick. }
    split.
    + intros ph Hin Hord. apply NoDup_one_entry; [exact Hnd|].
      apply Hlater; [assumption | now split].
    + intros ph Hin. now apply Hlater.
  - cbv zeta. split; [reflexivity|]. split; [reflexivity|].
    split; [reflexivity|]. split; [reflexivity|].
    split; [unfold one_entry; vm_compute; discriminate|].
    eexists. eexists. split; [reflexivity|]. split; reflexivity.
Qed.

Lemma C5_on_three_tags :
  one_entry "#NAME" (Page.mappings (Page.autoDetectMappings Samples.described))
  /\ obj_get "#DATE"
       (Page.cleanMapping (Page.mappings (Page.autoDetectMappings Samples.described)))
     = Some {| Page.clean_type := "custom_text"; Page.clean_value := "";
               Page.clean_prefix := ""; Page.clean_suffix := "" |}
  /\ one_entry "#AMOUNT" (Page.mappings (Page.run Samples.session Page.init)).
Proof.
  destruct C5_one_mapping_per_placeholder as (Hdetect & Hstart & _).
  destruct (Hdetect Samples.described (NoDup_nil _))
    as (_ & Hone & _ & Hunbound).
  split; [|split].
  - apply Hone; [simpl; now left | discriminate].
  - apply Hunbound; [simpl; tauto | discriminate | reflexivity].
  - refine (proj1 (Hstart Samples.session Samples.archive_ok
                     (Page.generate_body (Page.run Samples.session Page.init))
                     eq_refl) "#AMOUNT" _ _); [simpl; tauto | discriminate].
Defined.

(** C1 as stated fails: the generate request of the page carries neither
    the batching fields nor the document settings. *)
Lemma C1_page_request_lacks_fields :
  carries_generate_fields
    (snd (Page.handleGenerate Samples.archive_ok Samples.mapped)) = false
  /\ has_field "rows_per_doc"
       (snd (Page.handleGenerate Samples.archive_ok Samples.mapped)) = false
  /\ has_field "doc_settings"
       (snd (Page.handleGenerate Samples.archive_ok Samples.mapped)) = false.
Proof. repeat split. Qed.

(** C1, amended: every generate request of the Generator component carries
    [session_id], [mapping], [generate_docx], [generate_pdf],
    [remove_empty_pages], [merge_output], [rows_per_doc] and a
    [doc_settings] object with [page_size] and, null when not set,
    [page_width], [page_height], [font_name] and [font_size]: the width
    and height are the custom ones when the page size is [custom] and null
    otherwise, the font name is null when it is empty, and the font size
    is null when it is 0; the request of the page carries the first four
    fields only; for both, the body of an ok response is the archive that
    [downloadUrl] then points to. *)
Theorem C1_generate_request_fields :
  forall (answer : promise (response Blob)) (g : Generator.State)
         (p : Page.State),
    let request := snd (Generator.handleGenerate answer g) in
    let d := Generator.docSettings g in
    carries_generate_fields request = true
    /\ json_keys request = generate_fields
    /\ json_get "doc_settings" request = Some (Generator.doc_settings_json d)
    /\ json_keys (Generator.doc_settings_json d)
       = ["page_size"; "page_width"; "page_height"; "font_name"; "font_size"]
    /\ json_get "page_size" (Generator.doc_settings_json d)
       = Some (JStr (Generator.pageSize d))
    /\ (Generator.pageSize d <> "custom" ->
        json_get "page_width" (Generator.doc_settings_json d) = Some JNull
        /\ json_get "page_height" (Generator.doc_settings_json d) = Some JNull)
    /\ (Generator.pageSize d = "custom" ->
        json_get "page_width" (Generator.doc_settings_json d)
        = Some (JNum (Generator.customWidth d))
        /\ json_get "page_height" (Generator.doc_settings_json d)
           = Some (JNum (Generator.customHeight d)))
    /\ (Generator.fontName d = "" ->
        json_get "font_name" (Generator.doc_settings_json d) = Some JNull)
    /\ (Generator.fontName d <> "" ->
        json_get "font_name" (Generator.doc_settings_json d)
        = Some (JStr (Generator.fontName d)))
    /\ (Qeq_bool (Generator.fontSize d) 0 = true ->
        json_get "font_size" (Generator.doc_settings_json d) = Some JNull)
    /\ (Qeq_bool (Generator.fontSize d) 0 = false ->
        json_get "font_size" (Generator.doc_settings_json d)
        = Some (JNum (Generator.fontSize d)))
    /\ json_keys (snd (Page.handleGenerate answer p))
       = ["session_id"; "mapping"; "generate_docx"; "generate_pdf"]
    /\ (forall res b, answer = Resolves res -> ok res = true ->
          body res = Resolves b ->
          Generator.downloadUrl (fst (Generator.handleGenerate answer g))
          = ObjectUrl b
          /\ Page.downloadUrl (fst (Page.handleGenerate answer p)) = ObjectUrl b).
Proof.
  intros answer g p request d. subst request d.
  split; [reflexivity|]. split; [reflexivity|]. split; [reflexivity|].
  split; [reflexivity|]. split; [reflexivity|].
  split; [|split; [|split; [|split; [|split; [|split; [|split; [reflexivity|]]]]]]].
  - intros Hsize. apply String.eqb_neq in Hsize.
    unfold Generator.doc_settings_json. rewrite Hsize. now split.
  - intros Hsize. unfold Generator.doc_settings_json. rewrite Hsize. now split.
  - intros Hname. unfold Generator.doc_settings_json. now rewrite Hname.
  - intros Hname. unfold Generator.doc_settings_json, truthy.
    apply String.eqb_neq in Hname. cbn [json_get obj_get String.eqb Ascii.eqb Bool.eqb].
    now rewrite Hname.
  - intros Hsize. unfold Generator.doc_settings_json.
    cbn [json_get obj_get String.eqb Ascii.eqb Bool.eqb]. now rewrite Hsize.
  - intros Hsize. unfold Generator.doc_settings_json.
    cbn [json_get obj_get String.eqb Ascii.eqb Bool.eqb]. now rewrite Hsize.
  - intros res b -> Hok Hbody.
    unfold Generator.handleGenerate, Page.handleGenerate. simpl.
    rewrite Hok, Hbody. now split.
Qed.

Lemma C1_on_an_archive :
  Page.downloadUrl (fst (Page.handleGenerate Samples.archive_ok Samples.mapped))
  = ObjectUrl "PK-archive".
Proof.
  destruct (C1_generate_request_fields Samples.archive_ok Generator.init
              Samples.mapped) as (_ & _ & _ & _ & _ & _ & _ & _ & _ & _ & _ & _ & Harchive).
  destruct (Harchive Samples.archive_ok_response "PK-archive"
              eq_refl eq_refl eq_refl) as [_ Hpage].
  exact Hpage.
Defined.

(** C6 as stated fails: the entry the page sends for a placeholder bound
    solely to a column is not tagged [data_column], and has no field for a
    case modifier or a fallback text. *)
Lemma C6_page_tags_a_column_csv_column :
  json_get "type" (Page.entry_json (Page.clean_entry Samples.name_column))
  <> Some (JStr "data_column")
  /\ has_field "modifier" (Page.entry_json (Page.clean_entry Samples.name_column))
     = false
  /\ has_field "fallback" (Page.entry_json (Page.clean_entry Samples.name_column))
     = false.
Proof. split; [discriminate | split; reflexivity]. Qed.

(** C6, amended: the entry sent for a placeholder bound solely to a column
    is tagged [csv_column] by the page and [data_column] by the Generator
    component, and carries exactly [type], [value] (the column name),
    [prefix] and [suffix]; the case modifier and the fallback text of a
    configuration are not sent; and every entry of the payload is built
    that way from a configuration of the mapping record. *)
Theorem C6_column_entry_payload :
  (forall conf : Page.MappingConfig,
     Page.type conf = Page.csv_column ->
     Page.entry_json (Page.clean_entry conf)
     = JObj [("type", JStr "csv_column"); ("value", JStr (Page.value conf));
             ("prefix", JStr (Page.prefix conf));
             ("suffix", JStr (Page.suffix conf))])
  /\ (forall conf : Generator.MappingConfig,
     Generator.type conf = Generator.data_column ->
     Page.entry_json (Generator.clean_entry conf)
     = JObj [("type", JStr "data_column"); ("value", JStr (Generator.value conf));
             ("prefix", JStr (Generator.prefix conf));
             ("suffix", JStr (Generator.suffix conf))])
  /\ (forall (m : obj Page.MappingConfig) key e,
     In (key, e) (Page.cleanMapping m) ->
     exists conf, In (key, conf) m /\ e = Page.clean_entry conf)
  /\ (forall (m : obj Generator.MappingConfig) key e,
     In (key, e) (Generator.cleanMapping m) ->
     exists conf, In (key, conf) m /\ e = Generator.clean_entry conf).
Proof.
  split; [|split; [|split]].
  - intros conf Htype. unfold Page.entry_json, Page.clean_entry. simpl.
    now rewrite Htype.
  - intros conf Htype. unfold Page.entry_json, Generator.clean_entry. simpl.
    now rewrite Htype.
  - intros m key e Hin.
    apply (copy_each_In Page.clean_entry) in Hin as [[]|Hin]. exact Hin.
  - intros m key e Hin.
    apply (copy_each_In Generator.clean_entry) in Hin as [[]|Hin]. exact Hin.
Qed.

Lemma C6_on_the_name_column :
  Page.entry_json (Page.clean_entry Samples.name_column)
  = JObj [("type", JStr "csv_column"); ("value", JStr "Name");
          ("prefix", JStr ""); ("suffix", JStr "")].
Proof.
  destruct C6_column_entry_payload as (Hpage & _).
  exact (Hpage Samples.name_column eq_refl).
Defined.



(** ** The row batcher *)

Section BatcherFacts.
Import Batcher.
Context {A : Type}.
Implicit Types (rows : list A) (r : Z).

Lemma effective_pos r : (1 <= effective r)%nat.
Proof. unfold effective. destruct (Z.leb_spec r 0); lia. Qed.

Lemma effective_of_pos r : (1 <= r)%Z -> effective r = Z.to_nat r.
Proof. unfold effective. destruct (Z.leb_spec r 0); lia. Qed.

Lemma effective_of_nonpos r : (r <= 0)%Z -> effective r = 1%nat.
Proof. unfold effective. destruct (Z.leb_spec r 0); lia. Qed.

Lemma documentCount_is_ceiling n r :
  is_ceiling n (effective r) (documentCount n r).
Proof.
  unfold is_ceiling, documentCount.
  pose proof (effective_pos r) as He. set (e := effective r) in *.
  pose proof (Nat.div_mod_eq (n + e - 1) e) as Hdm.
  pose proof (Nat.mod_upper_bound (n + e - 1) e ltac:(lia)) as Hlt.
  split.
  - nia.
  - intros k' Hk'. apply Nat.lt_succ_r. apply Nat.Div0.div_lt_upper_bound. nia.
Qed.

Lemma firstn_add_skipn a k rows :
  (firstn a rows ++ firstn k (skipn a rows))%list = firstn (a + k) rows.
Proof.
  revert rows. induction a as [|a IH]; intros rows; simpl; [reflexivity|].
  destruct rows as [|x rows]; simpl.
  - now rewrite firstn_nil.
  - now rewrite IH.
Qed.

Lemma groups_concat rows r c :
  concat (map (group rows r) (seq 0 c)) = firstn (c * effective r) rows.
Proof.
  induction c as [|c IH]; [reflexivity|].
  rewrite seq_S, map_app, concat_app, IH. simpl. rewrite app_nil_r.
  unfold group, range_start, range_end. rewrite firstn_add_skipn.
  set (e := effective r). set (n := length rows).
  destruct (Nat.le_gt_cases ((c + 1) * e) n) as [Hle|Hgt].
  - f_equal. lia.
  - rewrite !firstn_all2; [reflexivity | fold n; lia | fold n; lia].
Qed.

Lemma batch_concat rows r : concat (batch rows r) = rows.
Proof.
  unfold batch. rewrite groups_concat. apply firstn_all2.
  apply (documentCount_is_ceiling (length rows) r).
Qed.

Lemma batch_length rows r :
  length (batch rows r) = documentCount (length rows) r.
Proof. unfold batch. now rewrite length_map, length_seq. Qed.

Lemma batch_nth rows r i :
  (i < documentCount (length rows) r)%nat ->
  nth_error (batch rows r) i = Some (group rows r i).
Proof.
  intros Hi. unfold batch. rewrite nth_error_map, nth_error_seq.
  apply Nat.ltb_lt in Hi. now rewrite Hi.
Qed.

Lemma group_nth rows r i j :
  nth_error (group rows r i) j
  = if (range_start r i + j <? range_end (length rows) r i)%nat
    then nth_error rows (range_start r i + j)
    else None.
Proof.
  unfold group. rewrite nth_error_firstn, nth_error_skipn.
  destruct (Nat.ltb_spec j (range_end (length rows) r i - range_start r i));
    destruct (Nat.ltb_spec (range_start r i + j) (range_end (length rows) r i));
    try reflexivity; lia.
Qed.

Lemma batch_nonpos rows r : (r <= 0)%Z -> batch rows r = batch rows 1.
Proof.
  intros Hr. unfold batch, documentCount, group, range_start, range_end.
  now rewrite (effective_of_nonpos r Hr).
Qed.

End BatcherFacts.

Lemma ceil_div_of_nat (n : nat) (r : Z) :
  (1 <= r)%Z ->
  Generator.ceil_div (Z.of_nat n) r
  = Z.of_nat ((n + Z.to_nat r - 1) / Z.to_nat r).
Proof.
  intros Hr. unfold Generator.ceil_div.
  rewrite Nat2Z.inj_div.
  replace (Z.of_nat (n + Z.to_nat r - 1)) with (Z.of_nat n + r - 1)%Z by lia.
  rewrite Z2Nat.id by lia.
  pose proof (Z.div_mod (- Z.of_nat n) r ltac:(lia)) as Hdm.
  pose proof (Z.mod_pos_bound (- Z.of_nat n) r ltac:(lia)) as Hm.
  apply (Z.div_unique_pos _ _ _ (r - 1 - (- Z.of_nat n) mod r)%Z); lia.
Qed.

(** The count the component displays is the batcher's. *)
Lemma estimatedDocs_is_documentCount (st : Generator.State) (n : nat) :
  Generator.totalRows st = Z.of_nat n ->
  Generator.estimatedDocs st
  = Z.of_nat (Batcher.documentCount n (Generator.rowsPerDoc st)).
Proof.
  intros Hn. unfold Generator.estimatedDocs, Batcher.documentCount. rewrite Hn.
  destruct (Z.ltb_spec 0 (Generator.rowsPerDoc st)) as [Hpos|Hnonpos].
  - rewrite effective_of_pos by lia. apply ceil_div_of_nat. lia.
  - rewrite effective_of_nonpos by lia.
    rewrite Nat.div_1_r. f_equal. lia.
Qed.

(** C8: for [n] rows and [rowsPerDoc >= 1] the batcher makes
    [ceil(n / rowsPerDoc)] groups; group [i] holds exactly the rows from
    [i*rowsPerDoc] up to, not including, [min((i+1)*rowsPerDoc, n)];
    [rowsPerDoc <= 0] is treated as 1; the groups, one after the other, are
    the rows again, none missing and none twice; and the document count the
    Generator component displays is that number. *)
Theorem C8_batches_partition_the_rows :
  forall (A : Type) (rows : list A) (rowsPerDoc : Z),
    let n := length rows in
    let count := Batcher.documentCount n rowsPerDoc in
    length (Batcher.batch rows rowsPerDoc) = count
    /\ ((1 <= rowsPerDoc)%Z -> is_ceiling n (Z.to_nat rowsPerDoc) count)
    /\ ((rowsPerDoc <= 0)%Z ->
        Batcher.batch rows rowsPerDoc = Batcher.batch rows 1 /\ count = n)
    /\ (forall i, (i < count)%nat ->
        exists g, nth_error (Batcher.batch rows rowsPerDoc) i = Some g
        /\ forall j,
             nth_error g j
             = if (i * Batcher.effective rowsPerDoc + j
                   <? Nat.min ((i + 1) * Batcher.effective rowsPerDoc) n)%nat
               then nth_error rows (i * Batcher.effective rowsPerDoc + j)
               else None)
    /\ concat (Batcher.batch rows rowsPerDoc) = rows
    /\ (forall st : Generator.State,
        Generator.totalRows st = Z.of_nat n ->
        Generator.rowsPerDoc st = rowsPerDoc ->
        Generator.estimatedDocs st = Z.of_nat count).
Proof.
  intros A rows r n count. subst n count.
  split; [apply batch_length|]. split; [|split; [|split; [|split]]].
  - intros Hr. rewrite <- (effective_of_pos r Hr).
    apply documentCount_is_ceiling.
  - intros Hr. split; [now apply batch_nonpos|].
    unfold Batcher.documentCount. rewrite (effective_of_nonpos r Hr).
    rewrite Nat.div_1_r. lia.
  - intros i Hi. exists (Batcher.group rows r i).
    split; [now apply batch_nth|]. intros j. apply group_nth.
  - apply batch_concat.
  - intros st Hn <-. now apply estimatedDocs_is_documentCount.
Qed.

Lemma C8_on_seven_rows :
  Batcher.batch [1; 2; 3; 4; 5; 6; 7]%nat 3 = [[1; 2; 3]; [4; 5; 6]; [7]]%nat
  /\ is_ceiling 7 3 3
  /\ Generator.estimatedDocs Samples.seven_rows = 3%Z.
Proof.
  destruct (C8_batches_partition_the_rows nat [1; 2; 3; 4; 5; 6; 7]%nat 3)
    as (_ & Hceil & _ & _ & _ & Hshown).
  split; [reflexivity|]. split.
  - apply Hceil. lia.
  - apply (Hshown Samples.seven_rows); reflexivity.
Defined.


(** ** The edit distance and [smartMapAll] *)

Section MatcherFacts.
Import Matcher.

Lemma arr_set_end {A} (v : A) (arr : list A) (j : nat) :
  length arr = j -> arr_set j v arr = (arr ++ [v])%list.
Proof.
  intros <-. unfold arr_set. rewrite firstn_all, skipn_all2 by lia. reflexivity.
Qed.

Lemma arr_set_middle {A} (v x : A) (done todo : list A) (i : nat) :
  length done = i ->
  arr_set i v (done ++ x :: todo) = (done ++ v :: todo)%list.
Proof.
  intros <-. unfold arr_set. induction done as [|y done IH]; [reflexivity|].
  cbn [length app firstn]. f_equal. exact IH.
Qed.

Lemma nth_after {A} (x d : A) (done todo : list A) (i : nat) :
  length done = i -> nth i (done ++ x :: todo) d = x.
Proof. intros <-. apply nth_middle. Qed.

Lemma nth_map_seq {A} (f : nat -> A) (n k : nat) (d : A) :
  (k < n)%nat -> nth k (map f (seq 0 n)) d = f k.
Proof.
  intros Hk. rewrite (nth_indep _ d (f 0%nat)) by (now rewrite length_map, length_seq).
  rewrite map_nth, seq_nth by assumption. reflexivity.
Qed.

Lemma fold_seq_invariant {M} (P : nat -> M -> Prop) (f : M -> nat -> M) :
  forall len start m,
    P start m ->
    (forall k m', (start <= k < start + len)%nat -> P k m' -> P (S k) (f m' k)) ->
    P (start + len)%nat (fold_left f (seq start len) m).
Proof.
  induction len as [|len IH]; intros start m Hstart Hstep; simpl.
  - now rewrite Nat.add_0_r.
  - replace (start + S len)%nat with (S start + len)%nat by lia.
    apply IH.
    + apply Hstep; [lia | exact Hstart].
    + intros k m' Hk. apply Hstep. lia.
Qed.

Lemma get_nth_error (s : string) (i : nat) :
  String.get i s = nth_error (list_ascii_of_string s) i.
Proof.
  revert i. induction s as [|c s IH]; intros [|i]; simpl; auto.
Qed.

Lemma length_chars (s : string) :
  length (list_ascii_of_string s) = String.length s.
Proof. induction s; simpl; auto. Qed.

Lemma edits_nil_r s : edits s [] = length s.
Proof. destruct s; reflexivity. Qed.

Lemma rev_firstn_S {X} (l : list X) (i : nat) (x : X) :
  nth_error l i = Some x -> rev (firstn (S i) l) = x :: rev (firstn i l).
Proof.
  revert i. induction l as [|y l IH]; intros [|i] H; simpl in *; try discriminate.
  - now injection H as ->.
  - rewrite (IH i H). simpl. reflexivity.
Qed.

Section Refinement.
Variables a b : string.
Local Abbreviation A := (list_ascii_of_string a).
Local Abbreviation B := (list_ascii_of_string b).
Local Abbreviation la := (String.length a).
Local Abbreviation lb := (String.length b).
Local Abbreviation D := (prefix_distance a b).

Lemma D_0 j : (j <= la)%nat -> D 0 j = j.
Proof.
  intros Hj. unfold prefix_distance. simpl.
  rewrite length_rev, length_firstn, length_chars. lia.
Qed.

Lemma D_i_0 i : (i <= lb)%nat -> D i 0 = i.
Proof.
  intros Hi. unfold prefix_distance. simpl.
  rewrite edits_nil_r, length_rev, length_firstn, length_chars. lia.
Qed.

Lemma charAt_eqb i j x y :
  nth_error B i = Some x -> nth_error A j = Some y ->
  String.eqb (charAt b i) (charAt a j) = Ascii.eqb x y.
Proof.
  intros Hx Hy. unfold charAt. rewrite !get_nth_error, Hx, Hy.
  simpl. destruct (Ascii.eqb x y); reflexivity.
Qed.

Lemma D_step (m : list (list nat)) i j :
  (i < lb)%nat -> (j < la)%nat ->
  cell m i j = D i j ->
  cell m (S i) j = D (S i) j ->
  cell m i (S j) = D i (S j) ->
  cell_value a b m (S i) (S j) = D (S i) (S j).
Proof.
  intros Hi Hj H11 H01 H10. unfold cell_value.
  replace (S i - 1)%nat with i by lia. replace (S j - 1)%nat with j by lia.
  rewrite H11, H01, H10.
  destruct (nth_error B i) as [x|] eqn:Hx.
  2:{ apply nth_error_None in Hx. rewrite length_chars in Hx. lia. }
  destruct (nth_error A j) as [y|] eqn:Hy.
  2:{ apply nth_error_None in Hy. rewrite length_chars in Hy. lia. }
  rewrite (charAt_eqb _ _ _ _ Hx Hy). unfold prefix_distance.
  rewrite (rev_firstn_S B _ _ Hx), (rev_firstn_S A _ _ Hy).
  reflexivity.
Qed.

Lemma first_loop n :
  forall start (m : list (list nat)),
    length m = start ->
    fold_left (fun m i => arr_set i [i] m) (seq start n) m
    = (m ++ rows_todo start n)%list.
Proof.
  unfold rows_todo. induction n as [|n IH]; intros start m Hm; simpl.
  - now rewrite app_nil_r.
  - rewrite (arr_set_end _ _ _ Hm), IH by (rewrite length_app; simpl; lia).
    now rewrite <- app_assoc.
Qed.

Lemma second_loop (todo : list (list nat)) :
  fold_left (fun m j => set_cell 0 j j m) (seq 0 (S la)) ([0%nat] :: todo)
  = map (D 0) (seq 0 (S la)) :: todo.
Proof.
  assert (forall j, (j <= la)%nat ->
            fold_left (fun m j => set_cell 0 j j m) (seq 0 (S j)) ([0%nat] :: todo)
            = seq 0 (S j) :: todo) as H.
  { induction j as [|j IH]; intros Hj; [reflexivity|].
    rewrite (seq_S (S j) 0), fold_left_app, IH by lia.
    cbn [fold_left Nat.add]. unfold set_cell.
    change (nth 0 (seq 0 (S j) :: todo) []) with (seq 0 (S j)).
    rewrite (arr_set_end (S j) (seq 0 (S j)) (S j)) by apply length_seq.
    reflexivity. }
  rewrite H by lia. f_equal. apply nth_ext with (d := 0%nat) (d' := 0%nat).
  - now rewrite length_map.
  - intros k Hk. rewrite length_seq in Hk.
    rewrite nth_map_seq, seq_nth by assumption. simpl. symmetry. apply D_0. lia.
Qed.

Lemma length_rows_done i : length (rows_done a b i) = i.
Proof. unfold rows_done. now rewrite length_map, length_seq. Qed.

Lemma cell_done (done := rows_done a b) i i' j (rest : list (list nat)) :
  (i' < i)%nat -> (j <= la)%nat ->
  cell (done i ++ rest)%list i' j = D i' j.
Proof.
  intros Hi Hj. unfold cell. rewrite app_nth1 by (now rewrite length_rows_done).
  unfold done, rows_done. rewrite nth_map_seq by assumption.
  apply nth_map_seq. lia.
Qed.

Lemma inner_loop i (todo : list (list nat)) :
  (i < lb)%nat ->
  fold_left (fun m j => set_cell (S i) j (cell_value a b m (S i) j) m)
    (seq 1 la) (rows_done a b (S i) ++ [S i] :: todo)%list
  = (rows_done a b (S i) ++ map (D (S i)) (seq 0 (S la)) :: todo)%list.
Proof.
  intros Hi.
  apply (fold_seq_invariant
           (fun k m => m = (rows_done a b (S i) ++ map (D (S i)) (seq 0 k) :: todo)%list)
           _ la 1).
  - cbn [seq map]. now rewrite (D_i_0 (S i)) by lia.
  - intros k m Hk ->. destruct k as [|j]; [lia|].
    assert (cell_value a b
              (rows_done a b (S i) ++ map (D (S i)) (seq 0 (S j)) :: todo)%list
              (S i) (S j) = D (S i) (S j)) as ->.
    { apply D_step; try lia.
      - apply cell_done; lia.
      - unfold cell. rewrite (nth_after _ _ _ _ _ (length_rows_done (S i))).
        apply nth_map_seq. lia.
      - apply cell_done; lia. }
    unfold set_cell.
    rewrite (nth_after _ _ _ _ _ (length_rows_done (S i))).
    rewrite (arr_set_end _ (map (D (S i)) (seq 0 (S j))) (S j))
      by (now rewrite length_map, length_seq).
    rewrite (arr_set_middle _ _ _ _ _ (length_rows_done (S i))).
    rewrite (seq_S (S j) 0), map_app. reflexivity.
Qed.

Lemma outer_loop :
  fold_left
    (fun m i =>
       fold_left (fun m j => set_cell i j (cell_value a b m i j) m) (seq 1 la) m)
    (seq 1 lb) (rows_done a b 1 ++ rows_todo 1 lb)%list
  = rows_done a b (S lb).
Proof.
  transitivity (rows_done a b (1 + lb) ++ rows_todo (1 + lb) (S lb - (1 + lb)))%list.
  2:{ replace (S lb - (1 + lb))%nat with 0%nat by lia. apply app_nil_r. }
  apply (fold_seq_invariant
           (fun k m => m = (rows_done a b k ++ rows_todo k (S lb - k))%list)
           _ lb 1).
  { f_equal. f_equal. lia. }
  intros k m Hk ->. destruct k as [|i]; [lia|].
  replace (S lb - S i)%nat with (S (lb - S i)) by lia.
  unfold rows_todo at 1. cbn [seq map]. fold (rows_todo (S (S i)) (lb - S i)).
  rewrite inner_loop by lia.
  replace (S lb - S (S i))%nat with (lb - S i)%nat by lia.
  unfold rows_done at 2. rewrite (seq_S (S i) 0), map_app. cbn [map Nat.add].
  now rewrite <- app_assoc.
Qed.

End Refinement.

Lemma levenshteinDistance_edits (a b : string) :
  levenshteinDistance a b
  = edits (rev (list_ascii_of_string b)) (rev (list_ascii_of_string a)).
Proof.
  unfold levenshteinDistance.
  destruct (Nat.eqb_spec (String.length a) 0) as [Ha|Ha].
  { destruct a; [|discriminate]. simpl.
    now rewrite edits_nil_r, length_rev, length_chars. }
  destruct (Nat.eqb_spec (String.length b) 0) as [Hb|Hb].
  { destruct b; [|discriminate]. simpl.
    now rewrite length_rev, length_chars. }
  rewrite (first_loop (S (String.length b)) 0 []) by reflexivity.
  cbn [app].
  change (rows_todo 0 (S (String.length b)))
    with ([0%nat] :: rows_todo 1 (String.length b)).
  rewrite (second_loop a b).
  change (map (prefix_distance a b 0) (seq 0 (S (String.length a)))
          :: rows_todo 1 (String.length b))
    with (rows_done a b 1 ++ rows_todo 1 (String.length b))%list.
  rewrite outer_loop.
  rewrite <- (app_nil_r (rows_done a b (S (String.length b)))).
  rewrite cell_done by lia.
  unfold prefix_distance.
  now rewrite !firstn_all2 by (rewrite length_chars; lia).
Qed.

Lemma edits_cons x s y t :
  edits (x :: s) (y :: t)
  = if Ascii.eqb x y then edits s t
    else Nat.min (edits s t + 1)
           (Nat.min (edits (x :: s) t + 1) (edits s (y :: t) + 1)).
Proof. reflexivity. Qed.

Lemma edits_same s : edits s s = 0%nat.
Proof.
  induction s as [|x s IH]; [reflexivity|].
  now rewrite edits_cons, Ascii.eqb_refl.
Qed.

Lemma edits_sym s : forall t, edits s t = edits t s.
Proof.
  induction s as [|x s IHs]; intros t.
  - now rewrite edits_nil_r.
  - induction t as [|y t IHt]; [reflexivity|].
    rewrite !edits_cons, (Ascii.eqb_sym y x), <- IHt, (IHs t), (IHs (y :: t)).
    destruct (Ascii.eqb x y); [reflexivity | lia].
Qed.

Lemma edits_bounds s : forall t,
  (edits s t <= Nat.max (length s) (length t)
   /\ length s - length t <= edits s t
   /\ length t - length s <= edits s t)%nat.
Proof.
  induction s as [|x s IHs]; intros t.
  - simpl. lia.
  - induction t as [|y t IHt]; [simpl; lia|].
    rewrite edits_cons.
    pose proof (IHs t). pose proof (IHs (y :: t)).
    destruct (Ascii.eqb x y); simpl length in *; lia.
Qed.

Lemma edits_zero s : forall t, edits s t = 0%nat -> s = t.
Proof.
  induction s as [|x s IHs]; intros t H.
  - destruct t; [reflexivity | discriminate].
  - destruct t as [|y t]; [discriminate|].
    rewrite edits_cons in H.
    destruct (Ascii.eqb_spec x y) as [->|Hne]; [|lia].
    f_equal. now apply IHs.
Qed.

Lemma chars_inj a b : list_ascii_of_string a = list_ascii_of_string b -> a = b.
Proof.
  intros H. rewrite <- (string_of_list_ascii_of_string a),
    <- (string_of_list_ascii_of_string b). now rewrite H.
Qed.

Lemma chars_snoc a x :
  list_ascii_of_string (a ++ String x "") = (list_ascii_of_string a ++ [x])%list.
Proof. induction a as [|c a IH]; simpl; [reflexivity | now rewrite IH]. Qed.

(** X1: the number [levenshteinDistance] returns is a distance between
    strings: it is zero between a string and itself and between no other
    two, does not depend on the order of the arguments, is at most the
    length of the longer string and at least the difference of the two
    lengths. *)
Theorem levenshteinDistance_is_a_distance : forall a b : string,
    levenshteinDistance a a = 0%nat
    /\ (levenshteinDistance a b = 0%nat -> a = b)
    /\ levenshteinDistance a b = levenshteinDistance b a
    /\ (levenshteinDistance a b <= Nat.max (String.length a) (String.length b))%nat
    /\ (String.length a - String.length b <= levenshteinDistance a b)%nat
    /\ (String.length b - String.length a <= levenshteinDistance a b)%nat.
Proof.
  intros a b. rewrite !levenshteinDistance_edits.
  pose proof (edits_bounds (rev (list_ascii_of_string b))
                (rev (list_ascii_of_string a))) as Hb.
  rewrite !length_rev, !length_chars in Hb.
  split; [apply edits_same|]. split; [|split; [apply edits_sym | lia]].
  intros H. apply edits_zero in H. apply chars_inj.
  rewrite <- (rev_involutive (list_ascii_of_string a)),
    <- (rev_involutive (list_ascii_of_string b)). now rewrite H.
Qed.

(** X2: the matrix loops of [levenshteinDistance] compute the edit
    distance: to the empty string it is the length of the other string, and
    between two strings that end in [x] and [y] it is the distance of the
    strings without these characters when [x = y], and otherwise one more
    than the least of the three distances got by dropping [x], [y] or
    both. *)
Theorem levenshteinDistance_recurrence : forall (a b : string) (x y : ascii),
    levenshteinDistance a "" = String.length a
    /\ levenshteinDistance "" b = String.length b
    /\ levenshteinDistance (a ++ String x "") (b ++ String y "")
       = if Ascii.eqb x y then levenshteinDistance a b
         else Nat.min (levenshteinDistance a b + 1)
                (Nat.min (levenshteinDistance a (b ++ String y "") + 1)
                   (levenshteinDistance (a ++ String x "") b + 1)).
Proof.
  intros a b x y. rewrite !levenshteinDistance_edits, !chars_snoc, !rev_unit.
  split; [|split].
  - cbn [list_ascii_of_string rev edits]. now rewrite length_rev, length_chars.
  - cbn [list_ascii_of_string rev]. now rewrite edits_nil_r, length_rev, length_chars.
  - rewrite edits_cons, (Ascii.eqb_sym y x). reflexivity.
Qed.

Lemma obj_keys_set_present {A} (k : string) (v : A) (o : obj A) :
  In k (obj_keys o) -> obj_keys (obj_set k v o) = obj_keys o.
Proof.
  unfold obj_keys. induction o as [|[k0 v0] o IH]; simpl; intros Hin; [tauto|].
  destruct (String.eqb_spec k k0) as [->|Hne]; simpl; [reflexivity|].
  f_equal. apply IH. destruct Hin; congruence.
Qed.

(** A loop that assigns [o[k] = f k] for the [k] that pass a test, as
    [smartMapAll] does. *)
Section AssignSome.
Context {A : Type} (p : string -> bool) (f : string -> A).
Local Abbreviation assign_some ks o :=
  (fold_left (fun m k => if p k then obj_set k (f k) m else m) ks o).

Lemma assign_some_NoDup ks (o : obj A) :
  NoDup (obj_keys o) -> NoDup (obj_keys (assign_some ks o)).
Proof.
  revert o. induction ks as [|k ks IH]; simpl; intros o Hnd; [assumption|].
  apply IH. destruct (p k); [now apply obj_keys_set_NoDup | assumption].
Qed.

Lemma assign_some_other ks (o : obj A) k :
  ~ In k ks -> obj_get k (assign_some ks o) = obj_get k o.
Proof.
  revert o. induction ks as [|k0 ks IH]; simpl; intros o Hk; [reflexivity|].
  rewrite IH by tauto. destruct (p k0); [|reflexivity].
  apply obj_get_set_other. intros ->. tauto.
Qed.

Lemma assign_some_get ks (o : obj A) k :
  In k ks ->
  obj_get k (assign_some ks o) = if p k then Some (f k) else obj_get k o.
Proof.
  revert o. induction ks as [|k0 ks IH]; simpl; intros o Hk; [tauto|].
  destruct (in_dec string_dec k ks) as [Hin|Hnotin].
  - rewrite IH by assumption. destruct (p k) eqn:Hp; [reflexivity|].
    destruct (p k0) eqn:Hp0; [|reflexivity].
    apply obj_get_set_other. intros ->. congruence.
  - destruct Hk as [->|Hk]; [|tauto].
    rewrite assign_some_other by assumption.
    destruct (p k); [apply obj_get_set_same | reflexivity].
Qed.

Lemma assign_some_keys ks (o : obj A) :
  (forall k, In k ks -> In k (obj_keys o)) ->
  obj_keys (assign_some ks o) = obj_keys o.
Proof.
  revert o. induction ks as [|k ks IH]; simpl; intros o Hks; [reflexivity|].
  destruct (p k).
  - rewrite IH; [apply obj_keys_set_present; auto|].
    intros k' Hk'. rewrite obj_keys_set_present by auto. auto.
  - apply IH. auto.
Qed.

End AssignSome.

(** The same loop with the assignment of any key, as [smartMapAll] has it:
    it is the loop above for the keys that the record takes. *)
Section AssignSomeAny.
Context {A : Type} (p : string -> bool) (f : string -> A).
Local Abbreviation assign_some_any ks o :=
  (fold_left (fun m k => if p k then obj_assign k (f k) m else m) ks o).
Local Abbreviation taken o k :=
  (negb (String.eqb k "__proto__" && negb (includes (obj_keys o) k))).

Lemma includes_same l l' x :
  (In x l <-> In x l') -> includes l x = includes l' x.
Proof.
  intros H. apply eq_true_iff_eq. now rewrite !includes_In.
Qed.

Lemma assign_some_any_as_set ks : forall (o o0 : obj A),
  (In "__proto__" (obj_keys o) <-> In "__proto__" (obj_keys o0)) ->
  assign_some_any ks o
  = fold_left (fun m k => if p k && taken o0 k then obj_set k (f k) m else m)
      ks o.
Proof.
  induction ks as [|k ks IH]; intros o o0 Hsame; [reflexivity|].
  cbn [fold_left]. unfold obj_assign at 2.
  destruct (p k); cbn [andb]; [|now apply IH].
  destruct (String.eqb_spec k "__proto__") as [->|Hk]; cbn [andb negb].
  - rewrite (includes_same _ _ _ Hsame).
    destruct (includes (obj_keys o0) "__proto__") eqn:Hin; cbn [negb].
    + apply IH. rewrite obj_keys_set. apply includes_In in Hin. tauto.
    + now apply IH.
  - apply IH. rewrite obj_keys_set. rewrite <- Hsame. intuition congruence.
Qed.

Lemma assign_some_any_proto ks (o : obj A) :
  In "__proto__" (obj_keys (assign_some_any ks o))
  <-> In "__proto__" (obj_keys o).
Proof.
  revert o. induction ks as [|k ks IH]; intros o; [reflexivity|].
  cbn [fold_left]. rewrite IH. destruct (p k); [|reflexivity].
  rewrite (obj_assign_keys f).
  split; [intros [[H1 H2]|H]; [congruence | exact H] | intros H; now right].
Qed.

Lemma assign_some_any_NoDup ks (o : obj A) :
  NoDup (obj_keys o) -> NoDup (obj_keys (assign_some_any ks o)).
Proof.
  intros Hnd. rewrite (assign_some_any_as_set ks o o) by reflexivity.
  now apply assign_some_NoDup.
Qed.

Lemma assign_some_any_other ks (o : obj A) k :
  ~ In k ks -> obj_get k (assign_some_any ks o) = obj_get k o.
Proof.
  intros Hk. rewrite (assign_some_any_as_set ks o o) by reflexivity.
  now apply assign_some_other.
Qed.

Lemma assign_some_any_get ks (o : obj A) k :
  In k ks ->
  obj_get k (assign_some_any ks o)
  = if p k && taken o k then Some (f k) else obj_get k o.
Proof.
  intros Hk. rewrite (assign_some_any_as_set ks o o) by reflexivity.
  now apply (assign_some_get (fun k => p k && taken o k) f).
Qed.

Lemma assign_some_any_keys ks (o : obj A) :
  (forall k, In k ks -> In k (obj_keys o)) ->
  obj_keys (assign_some_any ks o) = obj_keys o.
Proof.
  intros Hall. rewrite (assign_some_any_as_set ks o o) by reflexivity.
  now apply assign_some_keys.
Qed.

End AssignSomeAny.

Lemma best_match_exact ph : forall headers best minD,
  Page.find_match ph (clean_placeholder ph) headers <> "" ->
  best_match ph headers best minD
  = Page.find_match ph (clean_placeholder ph) headers.
Proof.
  induction headers as [|h rest IH]; intros best minD Hfound; simpl in *.
  - congruence.
  - fold (clean_header h) in *. fold (exact_match ph h) in *.
    destruct (exact_match ph h); [reflexivity|].
    destruct (closer _ minD && _); now apply IH.
Qed.

Lemma best_match_fuzzy ph : forall headers best minD,
  (forall h, In h headers -> exact_match ph h = false) ->
  let r := best_match ph headers best minD in
  (r = best
   /\ forall h, In h headers -> (reach ph h <= 3)%nat ->
        closer (reach ph h) minD = false)
  \/ (In r headers /\ (reach ph r <= 3)%nat
      /\ closer (reach ph r) minD = true
      /\ forall h, In h headers -> (reach ph h <= 3)%nat ->
           (reach ph r <= reach ph h)%nat).
Proof.
  induction headers as [|h rest IH]; intros best minD Hno; simpl.
  - left. split; [reflexivity | tauto].
  - rewrite (Hno h) by (now left). fold (reach ph h).
    assert (forall h', In h' rest -> exact_match ph h' = false) as Hrest
      by (intros h' Hh'; apply Hno; now right).
    destruct (closer (reach ph h) minD) eqn:Hcloser;
      destruct (Nat.leb_spec (reach ph h) 3) as [Hle|Hgt]; simpl.
    + destruct (IH h (Some (reach ph h)) Hrest) as [[-> Hall]|(Hin & Hr & Hc & Hmin)].
      * right. split; [now left|]. split; [assumption|]. split; [assumption|].
        intros h' [<-|Hh'] Hle'; [lia|].
        specialize (Hall h' Hh' Hle'). simpl in Hall.
        apply Nat.ltb_ge in Hall. lia.
      * right. simpl in Hc. apply Nat.ltb_lt in Hc.
        split; [now right|]. split; [assumption|]. split.
        -- destruct minD as [d|]; [|reflexivity]. simpl in *.
           apply Nat.ltb_lt in Hcloser. apply Nat.ltb_lt. lia.
        -- intros h' [<-|Hh'] Hle'; [lia | now apply Hmin].
    + destruct (IH best minD Hrest) as [[-> Hall]|(Hin & Hr & Hc & Hmin)].
      * left. split; [reflexivity|]. intros h' [<-|Hh'] Hle'; [lia | now apply Hall].
      * right. split; [now right|]. split; [assumption|]. split; [assumption|].
        intros h' [<-|Hh'] Hle'; [lia | now apply Hmin].
    + destruct (IH best minD Hrest) as [[-> Hall]|(Hin & Hr & Hc & Hmin)].
      * left. split; [reflexivity|].
        intros h' [<-|Hh'] Hle'; [assumption | now apply Hall].
      * right. split; [now right|]. split; [assumption|]. split; [assumption|].
        intros h' [<-|Hh'] Hle'; [|now apply Hmin].
        destruct minD as [d|]; [|discriminate]. simpl in *.
        apply Nat.ltb_ge in Hcloser. apply Nat.ltb_lt in Hc. lia.
    + destruct (IH best minD Hrest) as [[-> Hall]|(Hin & Hr & Hc & Hmin)].
      * left. split; [reflexivity|]. intros h' [<-|Hh'] Hle'; [lia | now apply Hall].
      * right. split; [now right|]. split; [assumption|]. split; [assumption|].
        intros h' [<-|Hh'] Hle'; [lia | now apply Hmin].
Qed.

(* whatever is chosen is a header, exact or within reach *)
Lemma best_match_sound ph : forall headers best minD,
  let r := best_match ph headers best minD in
  r = best
  \/ (In r headers /\ (exact_match ph r = true \/ (reach ph r <= 3)%nat)).
Proof.
  induction headers as [|h rest IH]; intros best minD; simpl; [now left|].
  destruct (exact_match ph h) eqn:Hex.
  - right. split; [now left | now left].
  - fold (reach ph h).
    destruct (closer (reach ph h) minD && (reach ph h <=? 3)%nat) eqn:Hc.
    + apply andb_true_iff in Hc as [_ Hle]. apply Nat.leb_le in Hle.
      destruct (IH h (Some (reach ph h))) as [->|[Hin Hq]].
      * right. split; [now left | now right].
      * right. split; [now right | assumption].
    + destruct (IH best minD) as [->|[Hin Hq]]; [now left|].
      right. split; [now right | assumption].
Qed.

Lemma smartMapAll_get headers phs (m : obj Generator.MappingConfig) ph :
  In ph phs ->
  obj_get ph (smartMapAll headers phs m)
  = if truthy (best_match ph headers "" None)
       && negb (String.eqb ph "__proto__" && negb (includes (obj_keys m) ph))
    then Some (matched (best_match ph headers "" None))
    else obj_get ph m.
Proof.
  intros Hin. unfold smartMapAll.
  destruct headers as [|h0 headers]; [reflexivity|].
  destruct phs as [|p0 phs]; [destruct Hin|].
  cbn [length Nat.eqb orb].
  apply (assign_some_any_get
           (fun k => truthy (best_match k (h0 :: headers) "" None))
           (fun k => matched (best_match k (h0 :: headers) "" None))).
  exact Hin.
Qed.

Lemma smartMapAll_get_ordinary headers phs (m : obj Generator.MappingConfig) ph :
  In ph phs ->
  ph <> "__proto__" ->
  obj_get ph (smartMapAll headers phs m)
  = if truthy (best_match ph headers "" None)
    then Some (matched (best_match ph headers "" None))
    else obj_get ph m.
Proof.
  intros Hin Hord. rewrite smartMapAll_get by assumption.
  apply String.eqb_neq in Hord. rewrite Hord. cbn [andb negb].
  now rewrite andb_true_r.
Qed.

Lemma smartMapAll_NoDup headers phs (m : obj Generator.MappingConfig) :
  NoDup (obj_keys m) -> NoDup (obj_keys (smartMapAll headers phs m)).
Proof.
  intros Hnd. unfold smartMapAll. destruct (_ || _); [assumption|].
  now apply (assign_some_any_NoDup
               (fun k => truthy (best_match k headers "" None))
               (fun k => matched (best_match k headers "" None))).
Qed.

Lemma smartMapAll_keys headers phs (m : obj Generator.MappingConfig) :
  (forall ph, In ph phs -> In ph (obj_keys m)) ->
  obj_keys (smartMapAll headers phs m) = obj_keys m.
Proof.
  intros Hall. unfold smartMapAll. destruct (_ || _); [reflexivity|].
  now apply (assign_some_any_keys
               (fun k => truthy (best_match k headers "" None))
               (fun k => matched (best_match k headers "" None))).
Qed.

(** X3: [smartMapAll] rewrites only entries of placeholders of the
    template, and only into a binding to a non-empty header of the data
    file that matches the placeholder exactly or is within distance 3 of
    it; it keeps the keys of the record distinct, adds no key when every
    placeholder has an entry already, and changes nothing when there is no
    header or no placeholder. *)
Theorem smartMapAll_binds_headers_only :
  forall headers phs (m : obj Generator.MappingConfig),
    let m' := smartMapAll headers phs m in
    (NoDup (obj_keys m) -> NoDup (obj_keys m'))
    /\ (forall k, ~ In k phs -> obj_get k m' = obj_get k m)
    /\ (forall ph, In ph phs ->
          obj_get ph m' = obj_get ph m
          \/ exists h, In h headers /\ h <> ""
               /\ (exact_match ph h = true \/ (reach ph h <= 3)%nat)
               /\ obj_get ph m' = Some (matched h))
    /\ ((forall ph, In ph phs -> In ph (obj_keys m)) -> obj_keys m' = obj_keys m)
    /\ (headers = [] \/ phs = [] -> m' = m).
Proof.
  intros headers phs m m'. subst m'.
  split; [|split; [|split; [|split]]].
  - apply smartMapAll_NoDup.
  - intros k Hk. unfold smartMapAll. destruct (_ || _); [reflexivity|].
    now apply (assign_some_any_other
                 (fun k => truthy (best_match k headers "" None))
                 (fun k => matched (best_match k headers "" None))).
  - intros ph Hin. rewrite smartMapAll_get by assumption.
    destruct (truthy (best_match ph headers "" None)) eqn:Ht; [|now left].
    cbn [andb]. destruct (negb _); [|now left].
    right. exists (best_match ph headers "" None).
    unfold truthy in Ht. apply negb_true_iff, String.eqb_neq in Ht.
    destruct (best_match_sound ph headers "" None) as [Heq|[Hh Hq]];
      [congruence|].
    now repeat split.
  - apply smartMapAll_keys.
  - intros [->| ->]; unfold smartMapAll; [reflexivity|].
    now rewrite orb_true_r.
Qed.

(** X4: for a placeholder of the template other than [__proto__] to which
    [autoDetectMappings] finds a column by name, [smartMapAll] writes the
    very entry that the detection by name gives, whatever entry the
    placeholder had. *)
Theorem smartMapAll_agrees_with_detection :
  forall headers phs (m : obj Generator.MappingConfig) ph,
    In ph phs ->
    ph <> "__proto__" ->
    Generator.value (Generator.detect_by_name headers ph) <> "" ->
    obj_get ph (smartMapAll headers phs m)
    = Some (Generator.detect_by_name headers ph).
Proof.
  intros headers phs m ph Hin Hord Hfound.
  rewrite smartMapAll_get_ordinary by assumption.
  unfold Generator.detect_by_name in *. simpl in Hfound.
  unfold Generator.find_match in *.
  fold (clean_placeholder ph) in *.
  rewrite (best_match_exact ph headers "" None Hfound).
  unfold truthy. apply String.eqb_neq in Hfound. rewrite Hfound. reflexivity.
Qed.

(** X5: for a placeholder of the template other than [__proto__] that no
    header matches exactly, [smartMapAll] leaves the entry as it is when
    every header is more than 3 edits away; otherwise the header it picks
    is within 3 edits and at least as close as every other header, and the
    placeholder is bound to that header, unless the header is the empty
    string: then the entry is left as it is. *)
Theorem smartMapAll_takes_the_closest_header :
  forall headers phs (m : obj Generator.MappingConfig) ph,
    In ph phs ->
    ph <> "__proto__" ->
    (forall h, In h headers -> exact_match ph h = false) ->
    let b := best_match ph headers "" None in
    let m' := smartMapAll headers phs m in
    obj_get ph m' = (if truthy b then Some (matched b) else obj_get ph m)
    /\ ((forall h, In h headers -> (3 < reach ph h)%nat) ->
        b = "" /\ obj_get ph m' = obj_get ph m)
    /\ (forall h0, In h0 headers -> (reach ph h0 <= 3)%nat ->
        In b headers /\ (reach ph b <= 3)%nat
        /\ (forall h, In h headers -> (reach ph b <= reach ph h)%nat)
        /\ (b <> "" -> obj_get ph m' = Some (matched b))
        /\ (b = "" -> obj_get ph m' = obj_get ph m)).
Proof.
  intros headers phs m ph Hin Hord Hno b m'. subst b m'.
  assert (obj_get ph (smartMapAll headers phs m)
          = (if truthy (best_match ph headers "" None)
             then Some (matched (best_match ph headers "" None))
             else obj_get ph m)) as Hget
    by (now apply smartMapAll_get_ordinary).
  split; [exact Hget|].
  destruct (best_match_fuzzy ph headers "" None Hno)
    as [[Hb Hall]|(Hh & Hr & _ & Hmin)].
  - split.
    + intros _. split; [assumption|]. rewrite Hget. now rewrite Hb.
    + intros h0 Hh0 Hle. specialize (Hall h0 Hh0 Hle). discriminate Hall.
  - split.
    + intros Hfar. specialize (Hfar _ Hh). lia.
    + intros h0 Hh0 Hle. split; [assumption|]. split; [assumption|].
      split; [|split].
      * intros h Hh'. destruct (Nat.le_gt_cases (reach ph h) 3) as [Hle'|Hgt].
        -- now apply Hmin.
        -- lia.
      * intros Hne. rewrite Hget. unfold truthy.
        apply String.eqb_neq in Hne. now rewrite Hne.
      * intros Heq. rewrite Hget, Heq. reflexivity.
Qed.

Lemma smartMapAll_agrees_on_a_sheet :
  obj_get "#FULLNAME"
    (smartMapAll MoreSamples.sheet_headers MoreSamples.letter_tags [])
  = Some (Generator.detect_by_name MoreSamples.sheet_headers "#FULLNAME").
Proof.
  apply smartMapAll_agrees_with_detection.
  - simpl. tauto.
  - discriminate.
  - vm_compute. discriminate.
Defined.

Lemma smartMapAll_closest_on_a_sheet :
  let b := best_match "#ADDRESS" MoreSamples.sheet_headers "" None in
  let m' := smartMapAll MoreSamples.sheet_headers MoreSamples.letter_tags [] in
  obj_get "#ADDRESS" m' = (if truthy b then Some (matched b) else None)
  /\ ((forall h, In h MoreSamples.sheet_headers -> (3 < reach "#ADDRESS" h)%nat) ->
      b = "" /\ obj_get "#ADDRESS" m' = None)
  /\ (forall h0, In h0 MoreSamples.sheet_headers ->
      (reach "#ADDRESS" h0 <= 3)%nat ->
      In b MoreSamples.sheet_headers /\ (reach "#ADDRESS" b <= 3)%nat
      /\ (forall h, In h MoreSamples.sheet_headers ->
           (reach "#ADDRESS" b <= reach "#ADDRESS" h)%nat)
      /\ (b <> "" -> obj_get "#ADDRESS" m' = Some (matched b))
      /\ (b = "" -> obj_get "#ADDRESS" m' = None)).
Proof.
  apply (smartMapAll_takes_the_closest_header MoreSamples.sheet_headers
           MoreSamples.letter_tags [] "#ADDRESS").
  - simpl. tauto.
  - discriminate.
  - intros h [<-|[<-|[<-|[]]]]; reflexivity.
Defined.

End MatcherFacts.

(** ** The rest of the generator component *)

Section StudioFacts.
Import Studio.

Lemma starts_with_iff pattern s :
  starts_with pattern s = true <-> exists after, s = pattern ++ after.
Proof.
  revert s. induction pattern as [|p pattern IH]; intros s; simpl.
  - split; [intros _; now exists s | reflexivity].
  - destruct s as [|c s]; [split; [discriminate | intros [after H]; discriminate]|].
    rewrite andb_true_iff, IH. split.
    + intros [Hc [after ->]]. apply Ascii.eqb_eq in Hc. subst. now exists after.
    + intros [after H]. injection H as -> ->. split; [apply Ascii.eqb_refl|].
      now exists after.
Qed.

Lemma append_assoc_string (a b c : string) : (a ++ b) ++ c = a ++ (b ++ c).
Proof. induction a as [|x a IH]; simpl; [reflexivity | now rewrite IH]. Qed.

Lemma append_one (before : string) (c : ascii) (q : string) :
  (before ++ String c "") ++ q = before ++ String c q.
Proof. now rewrite append_assoc_string. Qed.

Lemma occurs_tail pattern c s : occurs pattern s -> occurs pattern (String c s).
Proof. intros (before & after & ->). now exists (String c before), after. Qed.

Lemma substitution_plain matched before after replacement :
  ~ occurs "$" replacement ->
  substitution matched before after replacement = replacement.
Proof.
  induction replacement as [|d r IH]; intros Hno; [reflexivity|].
  cbn [substitution].
  destruct (Ascii.eqb_spec d "$") as [->|_].
  - exfalso. apply Hno. now exists "", r.
  - rewrite IH; [reflexivity|]. intros H. apply Hno. now apply occurs_tail.
Qed.

Lemma replaceAll_from_without pattern replacement s : forall before,
  ~ occurs pattern s -> replaceAll_from 0 pattern replacement before s = s.
Proof.
  induction s as [|c s IH]; intros before Hno; [reflexivity|].
  cbn [replaceAll_from].
  destruct (starts_with pattern (String c s)) eqn:Hstart.
  - exfalso. apply Hno. apply starts_with_iff in Hstart as [after ->].
    now exists "", after.
  - rewrite IH; [reflexivity|]. intros H. apply Hno. now apply occurs_tail.
Qed.

Lemma replaceAll_from_skip pattern replacement q after : forall before,
  replaceAll_from (String.length q) pattern replacement before (q ++ after)
  = replaceAll_from 0 pattern replacement (before ++ q) after.
Proof.
  induction q as [|c q IH]; intros before.
  - simpl. rewrite append_empty_r. now destruct after.
  - cbn [String.length append replaceAll_from]. rewrite IH. now rewrite append_one.
Qed.

Lemma drop_app pattern after : drop (String.length pattern) (pattern ++ after) = after.
Proof. induction pattern; simpl; auto. Qed.

Lemma replaceAll_from_match pattern replacement before after :
  pattern <> "" ->
  replaceAll_from 0 pattern replacement before (pattern ++ after)
  = substitution pattern before after replacement
    ++ replaceAll_from 0 pattern replacement (before ++ pattern) after.
Proof.
  intros Hne. destruct pattern as [|p pattern]; [congruence|].
  cbn [append replaceAll_from].
  assert (starts_with (String p pattern) (String p (pattern ++ after)) = true) as ->.
  { apply starts_with_iff. now exists after. }
  replace (String.length (String p pattern) - 1)%nat with (String.length pattern)
    by (simpl; lia).
  rewrite replaceAll_from_skip, append_one.
  change (String p (pattern ++ after)) with (String p pattern ++ after).
  now rewrite drop_app.
Qed.

Lemma length_append (a b : string) :
  String.length (a ++ b) = (String.length a + String.length b)%nat.
Proof. induction a; simpl; auto. Qed.

Lemma replaceAll_from_itself pattern replacement s :
  pattern <> "" ->
  (forall before after, substitution pattern before after replacement = pattern) ->
  forall before, replaceAll_from 0 pattern replacement before s = s.
Proof.
  intros Hne Hsub.
  assert (forall n s before, (String.length s <= n)%nat ->
            replaceAll_from 0 pattern replacement before s = s)
    as H; [|intros before; now apply (H (String.length s))].
  induction n as [|n IH]; intros s' before Hlen.
  - destruct s'; [reflexivity | simpl in Hlen; lia].
  - destruct s' as [|c s']; [reflexivity|].
    destruct (starts_with pattern (String c s')) eqn:Hstart.
    + apply starts_with_iff in Hstart as [after Hafter]. rewrite Hafter.
      rewrite replaceAll_from_match by assumption. rewrite Hsub. f_equal. apply IH.
      assert (String.length (String c s') = String.length (pattern ++ after))
        as Hl by now rewrite Hafter.
      rewrite length_append in Hl. simpl in Hl, Hlen.
      destruct pattern; [congruence | simpl in Hl; lia].
    + cbn [replaceAll_from]. rewrite Hstart. f_equal. apply IH.
      simpl in Hlen. lia.
Qed.

Lemma replaceAll_same pattern s :
  pattern <> "" -> ~ occurs "$" pattern -> replaceAll pattern pattern s = s.
Proof.
  intros Hne Hno. apply replaceAll_from_itself; [assumption|].
  intros before after. now apply substitution_plain.
Qed.

Lemma replace_rows_keys (g : string -> string) ks : forall newRow : obj string,
  obj_keys
    (fold_left
       (fun newRow key =>
          match obj_get key newRow with
          | Some text => obj_set key (g text) newRow
          | None => newRow
          end) ks newRow)
  = obj_keys newRow.
Proof.
  induction ks as [|k ks IH]; intros newRow; simpl; [reflexivity|].
  rewrite IH. destruct (obj_get k newRow) eqn:Hget; [|reflexivity].
  apply obj_keys_set_present. now apply obj_get_key in Hget.
Qed.

Lemma replace_rows_get (g : string -> string) ks : forall (newRow : obj string) k,
  NoDup ks ->
  obj_get k
    (fold_left
       (fun newRow key =>
          match obj_get key newRow with
          | Some text => obj_set key (g text) newRow
          | None => newRow
          end) ks newRow)
  = if in_dec string_dec k ks then option_map g (obj_get k newRow)
    else obj_get k newRow.
Proof.
  induction ks as [|k0 ks IH]; intros newRow k Hnd; simpl; [reflexivity|].
  inversion Hnd as [|? ? Hnotin Hnd']; subst.
  rewrite IH by assumption.
  destruct (string_dec k0 k) as [->|Hne].
  - destruct (in_dec string_dec k ks) as [Hin|_]; [contradiction|].
    destruct (obj_get k newRow) eqn:Hget; simpl.
    + apply obj_get_set_same.
    + assumption.
  - assert (obj_get k
              match obj_get k0 newRow with
              | Some text => obj_set k0 (g text) newRow
              | None => newRow
              end = obj_get k newRow) as ->.
    { destruct (obj_get k0 newRow); [|reflexivity].
      now apply obj_get_set_other. }
    destruct (in_dec string_dec k ks); reflexivity.
Qed.

Lemma replace_in_row_get findText replaceText (row : obj string) k :
  NoDup (obj_keys row) ->
  obj_get k (replace_in_row findText replaceText row)
  = option_map (replaceAll findText replaceText) (obj_get k row).
Proof.
  intros Hnd. unfold replace_in_row. rewrite replace_rows_get by assumption.
  destruct (in_dec string_dec k (obj_keys row)) as [_|Hout]; [reflexivity|].
  apply obj_get_None in Hout. now rewrite Hout.
Qed.

(** X8: [replaceAllData] does nothing when the find text is empty;
    otherwise it keeps the number of rows and the columns of every row in
    their order, and replaces the text of every cell (of a row whose
    columns are distinct) by what [replaceAll] makes of it; the mapping
    record, the row count and the headers are never touched. *)
Theorem replaceAllData_keeps_the_table :
  forall c : Component,
    let rows := Generator.previewRows (core c) in
    let rows' := Generator.previewRows (core (replaceAllData c)) in
    (findText c = "" -> replaceAllData c = c)
    /\ length rows' = length rows
    /\ map obj_keys rows' = map obj_keys rows
    /\ (findText c <> "" ->
        forall i row, nth_error rows i = Some row -> NoDup (obj_keys row) ->
        exists row', nth_error rows' i = Some row'
          /\ forall head,
               obj_get head row'
               = option_map (replaceAll (findText c) (replaceText c))
                   (obj_get head row))
    /\ Generator.mappings (core (replaceAllData c)) = Generator.mappings (core c)
    /\ Generator.totalRows (core (replaceAllData c)) = Generator.totalRows (core c)
    /\ rawHeaders (replaceAllData c) = rawHeaders c.
Proof.
  intros c rows rows'. subst rows rows'. unfold replaceAllData, truthy.
  destruct (String.eqb_spec (findText c) "") as [Hempty|Hfind]; simpl.
  - repeat split; try reflexivity. congruence.
  - split; [congruence|]. split; [apply length_map|]. split.
    + rewrite map_map. apply map_ext. intros row. apply replace_rows_keys.
    + split; [|now repeat split].
      intros _ i row Hrow Hnd.
      exists (replace_in_row (findText c) (replaceText c) row). split.
      * rewrite nth_error_map, Hrow. reflexivity.
      * intros head. now apply replace_in_row_get.
Qed.

(** X9: [saveEditedData] posts the session, the preview rows and the raw
    headers as they are, never changes the rows, and always ends with
    [isSavingData] false; an ok answer sets [totalRows] to the count the
    service returns and closes the editor; a refused answer shows "Failed
    to save data", a failed request its own message, and both leave the
    editor open and [totalRows] as it was. *)
Theorem saveEditedData_outcomes :
  forall (answer : promise (response SaveData)) (c : Component),
    let c' := fst (saveEditedData answer c) in
    isSavingData c' = false
    /\ snd (saveEditedData answer c) = save_request c
    /\ Generator.previewRows (core c') = Generator.previewRows (core c)
    /\ (forall res data, answer = Resolves res -> ok res = true ->
          body res = Resolves data ->
          Generator.totalRows (core c') = saved_total_rows data
          /\ isEditingData c' = false
          /\ Generator.errorMsg (core c') = Generator.errorMsg (core c))
    /\ (forall res, answer = Resolves res -> ok res = false ->
          Generator.errorMsg (core c') = "Failed to save data"
          /\ isEditingData c' = isEditingData c
          /\ Generator.totalRows (core c') = Generator.totalRows (core c))
    /\ (forall m, answer = Rejects m ->
          Generator.errorMsg (core c') = m
          /\ isEditingData c' = isEditingData c
          /\ Generator.totalRows (core c') = Generator.totalRows (core c)).
Proof.
  intros answer c c'. subst c'. unfold saveEditedData. simpl.
  destruct answer as [m|res]; simpl.
  - split; [reflexivity|]. split; [reflexivity|]. split; [reflexivity|].
    split; [discriminate|]. split; [discriminate|].
    intros m' Hm. injection Hm as ->. now repeat split.
  - destruct (ok res) eqn:Hok; simpl.
    + destruct (body res) as [m|data] eqn:Hbody; simpl.
      * split; [reflexivity|]. split; [reflexivity|]. split; [reflexivity|].
        split; [|split; [|discriminate]].
        -- intros res' data' Hres _ Hb. injection Hres as <-. congruence.
        -- intros res' Hres Hok'. injection Hres as <-. congruence.
      * split; [reflexivity|]. split; [reflexivity|]. split; [reflexivity|].
        split; [|split; [|discriminate]].
        -- intros res' data' Hres _ Hb. injection Hres as <-.
           rewrite Hbody in Hb. injection Hb as ->. now repeat split.
        -- intros res' Hres Hok'. injection Hres as <-. congruence.
    + split; [reflexivity|]. split; [reflexivity|]. split; [reflexivity|].
      split; [|split; [|discriminate]].
      * intros res' data' Hres Hok'. injection Hres as <-. congruence.
      * intros res' Hres _. now repeat split.
Qed.


Lemma studio_handleUpload_cases memory up meta c :
  let c' := handleUpload memory up meta c in
  (Generator.step (core c') = Generator.step (core c)
   /\ Generator.mappings (core c') = Generator.mappings (core c)
   /\ Generator.docxPlaceholders (core c') = Generator.docxPlaceholders (core c)
   /\ Generator.dataHeaders (core c') = Generator.dataHeaders (core c)
   /\ Generator.rowsPerDoc (core c') = Generator.rowsPerDoc (core c)
   /\ Generator.isGenerating (core c') = Generator.isGenerating (core c))
  \/ (exists metaData mres,
        meta = Resolves mres /\ ok mres = true /\ body mres = Resolves metaData
        /\ Generator.step (core c') = 2%Z
        /\ isUploading c' = false
        /\ Generator.errorMsg (core c') = ""
        /\ Generator.isGenerating (core c') = Generator.isGenerating (core c)
        /\ Generator.dataHeaders (core c') = csv_headers metaData
        /\ Generator.docxPlaceholders (core c') = docx_placeholders metaData
        /\ Generator.rowsPerDoc (core c') = Z_or (rows_per_doc metaData) 1
        /\ templatePageSize c' = string_or (template_page_size metaData) "letter"
        /\ Generator.mappings (core c')
           = Generator.autoDetectMappings memory (csv_headers metaData)
               (docx_placeholders metaData) (Generator.mappings (core c))).
Proof.
  unfold handleUpload.
  destruct (dataFile c), (docxFile c); try (left; now repeat split).
  destruct up as [m|ures]; [left; now repeat split|].
  destruct (ok ures); [|left; now repeat split].
  destruct (body ures) as [m|udata]; [left; now repeat split|].
  destruct meta as [m|mres]; [left; now repeat split|].
  destruct (ok mres) eqn:Hok; [|left; now repeat split].
  destruct (body mres) as [m|mdata] eqn:Hbody; [left; now repeat split|].
  right. exists mdata, mres. now repeat split.
Qed.

Lemma Z_or_nonzero x d : d <> 0%Z -> Z_or x d <> 0%Z.
Proof.
  intros Hd. unfold Z_or. destruct x as [n|]; [|assumption].
  destruct (Z.eqb_spec n 0); assumption.
Qed.

(** X10: on a successful upload the component moves to step 2 under the
    session the service named, and fills what the metadata leaves out with
    defaults: [rowsPerDoc] is 1 when the metadata has none or 0 (so that
    the estimated document count is the row count), the template page size
    is "letter" when missing or empty, its width and height are 8.5 and 11
    when missing, the placeholder counts are empty when missing; in no case
    is [rowsPerDoc] 0, and so no generate request is sent with
    [rows_per_doc] 0 right after an upload. *)
Theorem studio_upload_defaults :
  forall memory (up : promise (response Page.UploadData))
         (mres : response MetaData) (metaData : MetaData) ures udata c d1 d2,
    dataFile c = Some d1 -> docxFile c = Some d2 ->
    up = Resolves ures -> ok ures = true -> body ures = Resolves udata ->
    ok mres = true -> body mres = Resolves metaData ->
    let c' := handleUpload memory up (Resolves mres) c in
    Generator.step (core c') = 2%Z
    /\ Generator.sessionId (core c') = Page.session_id udata
    /\ Generator.rowsPerDoc (core c') <> 0%Z
    /\ (rows_per_doc metaData = None \/ rows_per_doc metaData = Some 0%Z ->
        Generator.rowsPerDoc (core c') = 1%Z
        /\ Generator.estimatedDocs (core c') = total_rows metaData)
    /\ (template_page_size metaData = None \/ template_page_size metaData = Some "" ->
        templatePageSize c' = "letter")
    /\ (template_page_width metaData = None -> templatePageWidth c' = 17 # 2)
    /\ (template_page_height metaData = None -> templatePageHeight c' = 11 # 1)
    /\ (placeholder_counts metaData = None -> placeholderCounts c' = [])
    /\ json_get "rows_per_doc" (Generator.generate_body (core c'))
       <> Some (JNum (inject_Z 0)).
Proof.
  intros memory up mres metaData ures udata c d1 d2 Hd1 Hd2 -> Hok Hbody Hmok Hmbody c'.
  subst c'. unfold handleUpload. rewrite Hd1, Hd2, Hok, Hbody, Hmok, Hmbody. simpl.
  pose proof (Z_or_nonzero (rows_per_doc metaData) 1 ltac:(discriminate)) as Hnz.
  split; [reflexivity|]. split; [reflexivity|]. split; [assumption|].
  split; [|split; [|split; [|split; [|split]]]].
  - intros Hnone. assert (Z_or (rows_per_doc metaData) 1 = 1%Z) as Hone
      by (destruct Hnone as [-> | ->]; reflexivity).
    split; [assumption|]. unfold Generator.estimatedDocs. simpl. rewrite Hone. simpl.
    unfold Generator.ceil_div. rewrite Z.div_1_r. lia.
  - intros [-> | ->]; reflexivity.
  - intros ->. reflexivity.
  - intros ->. reflexivity.
  - intros ->. reflexivity.
  - intros H. injection H as H. apply Hnz. unfold inject_Z in H. congruence.
Qed.

Lemma studio_upload_click_keeps memory up meta c :
  studio_mapped_once c -> studio_mapped_once (upload_click memory up meta c).
Proof.
  intros Hc. pose proof Hc as (Hnd & Hfirst & Hlater). unfold upload_click.
  destruct (Z.eqb_spec (Generator.step (core c)) 1) as [Hstep|Hstep]; simpl;
    [|exact Hc].
  destruct (negb (upload_disabled c)); [|exact Hc].
  destruct (studio_handleUpload_cases memory up meta c)
    as [(Hs & Hm & Hp & _)|(md & mres & _ & _ & _ & Hs & _ & _ & _ & _ & Hp & _ & _ & Hm)].
  - unfold studio_mapped_once. cbv zeta. rewrite Hs, Hm, Hp. exact Hc.
  - unfold studio_mapped_once. cbv zeta. rewrite Hs, Hm, Hp, (Hfirst Hstep).
    unfold Generator.autoDetectMappings. split; [|split].
    + apply (assign_each_NoDup (Generator.detect memory (csv_headers md))).
      constructor.
    + discriminate.
    + intros _ ph.
      rewrite (assign_each_keys (Generator.detect memory (csv_headers md))).
      simpl. tauto.
Qed.

Lemma studio_smart_click_keeps c :
  studio_mapped_once c -> studio_mapped_once (smart_click c).
Proof.
  intros Hc. pose proof Hc as (Hnd & Hfirst & Hlater). unfold smart_click, mapping_shown.
  destruct (Z.eqb_spec (Generator.step (core c)) 2) as [Hstep|Hstep]; [|exact Hc].
  assert (Generator.step (core c) <> 1%Z) as Hnot1 by congruence.
  unfold studio_mapped_once. simpl.
  split; [now apply smartMapAll_NoDup|]. split; [congruence|].
  intros _ ph. rewrite smartMapAll_keys; [now apply Hlater|].
  intros ph' Hph'. now apply (Hlater Hnot1).
Qed.

Lemma studio_edit_keeps ph change c :
  studio_mapped_once c -> studio_mapped_once (edit ph change c).
Proof.
  intros Hc. pose proof Hc as (Hnd & Hfirst & Hlater). unfold edit, mapping_shown.
  destruct (Z.eqb_spec (Generator.step (core c)) 2) as [Hstep|Hstep]; simpl;
    [|exact Hc].
  destruct (includes (Generator.docxPlaceholders (core c)) ph); [|exact Hc].
  destruct (obj_get ph (Generator.mappings (core c))) as [conf|] eqn:Hget;
    [|exact Hc].
  apply obj_get_key in Hget. unfold studio_mapped_once. simpl. split; [|split].
  - now apply obj_keys_set_NoDup.
  - intros H. congruence.
  - intros H k. rewrite obj_keys_set, <- (Hlater H k). split; [|tauto].
    intros [->|Hk]; assumption.
Qed.

Lemma onmessage_frame data st :
  let st' := onmessage data st in
  Generator.step st' = Generator.step st
  /\ Generator.mappings st' = Generator.mappings st
  /\ Generator.docxPlaceholders st' = Generator.docxPlaceholders st
  /\ Generator.isGenerating st' = Generator.isGenerating st
  /\ Generator.wsConnection st' = Generator.wsConnection st
  /\ Generator.generationComplete st' = Generator.generationComplete st
  /\ Generator.downloadUrl st' = Generator.downloadUrl st
  /\ Generator.errorMsg st' = Generator.errorMsg st
  /\ Generator.options st' = Generator.options st
  /\ Generator.docSettings st' = Generator.docSettings st
  /\ Generator.rowsPerDoc st' = Generator.rowsPerDoc st
  /\ Generator.sessionId st' = Generator.sessionId st.
Proof.
  unfold onmessage. destruct data as [data|]; [|now repeat split].
  destruct (String.eqb _ _); now repeat split.
Qed.

Lemma messages_frame messages : forall st,
  let st' := fold_left (fun st data => onmessage data st) messages st in
  Generator.step st' = Generator.step st
  /\ Generator.mappings st' = Generator.mappings st
  /\ Generator.docxPlaceholders st' = Generator.docxPlaceholders st
  /\ Generator.isGenerating st' = Generator.isGenerating st
  /\ Generator.wsConnection st' = Generator.wsConnection st
  /\ Generator.generationComplete st' = Generator.generationComplete st
  /\ Generator.downloadUrl st' = Generator.downloadUrl st
  /\ Generator.errorMsg st' = Generator.errorMsg st
  /\ Generator.options st' = Generator.options st
  /\ Generator.docSettings st' = Generator.docSettings st
  /\ Generator.rowsPerDoc st' = Generator.rowsPerDoc st
  /\ Generator.sessionId st' = Generator.sessionId st.
Proof.
  induction messages as [|data messages IH]; intros st; simpl; [now repeat split|].
  destruct (IH (onmessage data st))
    as (H1 & H2 & H3 & H4 & H5 & H6 & H7 & H8 & H9 & H10 & H11 & H12).
  destruct (onmessage_frame data st)
    as (G1 & G2 & G3 & G4 & G5 & G6 & G7 & G8 & G9 & G10 & G11 & G12).
  cbv zeta in *.
  rewrite H1, H2, H3, H4, H5, H6, H7, H8, H9, H10, H11, H12.
  now repeat split.
Qed.


(** X11: [handleGenerate] of the component, with any progress messages
    arriving while it awaits: the request is the one built from the state
    at the click; afterwards [isGenerating] is false and the progress
    socket is closed on every path, and the mappings, options and document
    settings are as before; an ok answer with a readable body moves to step
    3 with [generationComplete] and the URL of the archive and no error;
    any other answer leaves [step], [generationComplete] and [downloadUrl]
    as they were and shows the message of the failure. *)
Theorem studio_generate_outcomes :
  forall (messages : list (option Progress)) (answer : promise (response Blob))
         (st : Generator.State),
    let st' := fst (generate messages answer st) in
    Generator.isGenerating st' = false
    /\ Generator.wsConnection st' = None
    /\ snd (generate messages answer st) = Generator.generate_body st
    /\ Generator.mappings st' = Generator.mappings st
    /\ Generator.options st' = Generator.options st
    /\ Generator.docSettings st' = Generator.docSettings st
    /\ (forall res b, answer = Resolves res -> ok res = true ->
          body res = Resolves b ->
          Generator.step st' = 3%Z /\ Generator.generationComplete st' = true
          /\ Generator.downloadUrl st' = ObjectUrl b
          /\ Generator.errorMsg st' = "")
    /\ ((forall res, answer = Resolves res -> ok res = false \/ exists m, body res = Rejects m) ->
        Generator.step st' = Generator.step st
        /\ Generator.generationComplete st' = Generator.generationComplete st
        /\ Generator.downloadUrl st' = Generator.downloadUrl st
        /\ Generator.errorMsg st'
           = match answer with
             | Rejects m => m
             | Resolves res =>
                 if ok res then
                   match body res with Rejects m => m | Resolves _ => "" end
                 else "Generation failed"
             end).
Proof.
  intros messages answer st st'. subst st'. unfold generate.
  destruct (Generator.handleGenerate_request st) as [st1 request] eqn:Hreq.
  unfold Generator.handleGenerate_request in Hreq. injection Hreq as <- <-.
  match goal with
  | |- context [fold_left ?f messages ?s1] =>
      destruct (messages_frame messages s1)
        as (H1 & H2 & H3 & H4 & H5 & H6 & H7 & H8 & H9 & H10 & H11 & H12);
      set (st2 := fold_left f messages s1) in *
  end.
  cbv zeta in *. simpl in H1, H2, H3, H4, H5, H6, H7, H8, H9, H10, H11, H12.
  cbn [fst snd]. unfold Generator.handleGenerate_answer.
  destruct answer as [m|res]; simpl.
  - do 6 (split; [first [reflexivity | assumption]|]).
    split; [discriminate|]. intros _. now repeat split.
  - destruct (ok res) eqn:Hok; simpl.
    + destruct (body res) as [m|b] eqn:Hbody; simpl.
      * do 6 (split; [first [reflexivity | assumption]|]).
        split.
        -- intros res' b' Hres _ Hb. injection Hres as <-. congruence.
        -- intros _. now repeat split.
      * do 6 (split; [first [reflexivity | assumption]|]).
        split.
        -- intros res' b' Hres _ Hb. injection Hres as <-.
           rewrite Hbody in Hb. injection Hb as ->. now repeat split.
        -- intros Hfail. destruct (Hfail res eq_refl) as [Hf|[m Hm]]; congruence.
    + do 6 (split; [first [reflexivity | assumption]|]).
      split.
      * intros res' b' Hres Hok'. injection Hres as <-. congruence.
      * intros _. now repeat split.
Qed.

Lemma generate_frame messages answer st :
  let st' := fst (generate messages answer st) in
  Generator.mappings st' = Generator.mappings st
  /\ Generator.docxPlaceholders st' = Generator.docxPlaceholders st
  /\ (Generator.step st' = Generator.step st \/ Generator.step st' = 3%Z).
Proof.
  unfold generate. simpl.
  match goal with
  | |- context [fold_left ?f messages ?s1] =>
      destruct (messages_frame messages s1) as (H1 & H2 & H3 & _);
      set (st2 := fold_left f messages s1) in *
  end.
  cbv zeta in H1, H2, H3. simpl in H1, H2, H3.
  unfold Generator.handleGenerate_answer.
  destruct answer as [m|res]; simpl; [now repeat split; auto|].
  destruct (ok res); simpl; [|now repeat split; auto].
  destruct (body res); simpl; now repeat split; auto.
Qed.

Lemma studio_generate_click_keeps messages answer c :
  studio_mapped_once c ->
  studio_mapped_once (fst (generate_click messages answer c)).
Proof.
  intros Hc. pose proof Hc as (Hnd & Hfirst & Hlater).
  unfold generate_click.
  destruct (mapping_shown c && negb (Generator.isGenerating (core c))
            && negb (Generator.generate_disabled (core c))) eqn:Hcond;
    [|exact Hc].
  apply andb_true_iff in Hcond as [Hcond _].
  apply andb_true_iff in Hcond as [Hshown _].
  unfold mapping_shown in Hshown. apply Z.eqb_eq in Hshown.
  pose proof (generate_frame messages answer (core c)) as Hframe.
  destruct (generate messages answer (core c)) as [st' request].
  cbv zeta in Hframe. cbn [fst snd] in Hframe |- *.
  destruct Hframe as (Hm & Hp & Hs).
  unfold studio_mapped_once. simpl. rewrite Hm, Hp.
  split; [exact Hnd|]. split; [intros H; destruct Hs; congruence|].
  intros _. apply Hlater. congruence.
Qed.

Lemma studio_save_click_keeps answer c :
  studio_mapped_once c -> studio_mapped_once (save_click answer c).
Proof.
  intros Hc. unfold save_click.
  destruct (mapping_shown c && isEditingData c && negb (isSavingData c));
    [|exact Hc].
  unfold saveEditedData. simpl.
  destruct answer as [m|res]; [exact Hc|].
  destruct (ok res); [|exact Hc]. destruct (body res); exact Hc.
Qed.

Lemma studio_replace_click_keeps c :
  studio_mapped_once c -> studio_mapped_once (replace_click c).
Proof.
  intros Hc. unfold replace_click. destruct (mapping_shown c && isEditingData c);
    [|exact Hc].
  unfold replaceAllData. destruct (negb (truthy (findText c))); exact Hc.
Qed.

Lemma studio_edit_cell_keeps i head text c :
  studio_mapped_once c -> studio_mapped_once (edit_cell i head text c).
Proof.
  intros Hc. unfold edit_cell.
  destruct (mapping_shown c && isEditingData c && includes (rawHeaders c) head);
    [|exact Hc].
  destruct (nth_error (Generator.previewRows (core c)) i); exact Hc.
Qed.

Lemma studio_toggle_option_keeps flip c :
  studio_mapped_once c -> studio_mapped_once (toggle_option flip c).
Proof.
  intros Hc. unfold toggle_option. destruct (mapping_shown c); exact Hc.
Qed.

Lemma studio_edit_settings_keeps change c :
  studio_mapped_once c -> studio_mapped_once (edit_settings change c).
Proof.
  intros Hc. unfold edit_settings.
  destruct (mapping_shown c && showDocSettings c); exact Hc.
Qed.

Lemma studio_init_mapped_once : studio_mapped_once init.
Proof. split; [constructor | split; [reflexivity | intros H; now elim H]]. Qed.

Lemma studio_start_another_keeps c :
  studio_mapped_once c -> studio_mapped_once (start_another c).
Proof.
  intros Hc. unfold start_another.
  destruct (Generator.step (core c) =? 3)%Z;
    [exact studio_init_mapped_once | exact Hc].
Qed.

Lemma studio_on_event_keeps ev c :
  studio_mapped_once c -> studio_mapped_once (on_event ev c).
Proof.
  intros H. destruct ev; simpl;
    first [ exact H
          | now apply studio_upload_click_keeps
          | now apply studio_smart_click_keeps
          | now apply studio_edit_keeps
          | now apply studio_save_click_keeps
          | now apply studio_replace_click_keeps
          | now apply studio_generate_click_keeps
          | now apply studio_edit_cell_keeps
          | now apply studio_toggle_option_keeps
          | now apply studio_edit_settings_keeps
          | now apply studio_start_another_keeps
          | idtac ].
  - destruct (mapping_shown c); exact H.
  - destruct (mapping_shown c); exact H.
Qed.

Lemma studio_run_keeps evs : forall c,
  studio_mapped_once c -> studio_mapped_once (run evs c).
Proof.
  unfold run. induction evs as [|ev evs IH]; simpl; intros c H;
    [exact H | apply IH; now apply studio_on_event_keeps].
Qed.

Lemma generator_cleanMapping_map (m : obj Generator.MappingConfig) :
  NoDup (obj_keys m) ->
  Generator.cleanMapping m
  = map (fun kc => (fst kc, Generator.clean_entry (snd kc))) m.
Proof.
  intros Hnd. unfold Generator.cleanMapping.
  now rewrite (copy_each_NoDup Generator.clean_entry m []).
Qed.

Lemma studio_on_event_ordinary ev c :
  ordinary ev ->
  ~ In "__proto__" (Generator.docxPlaceholders (core c)) ->
  ~ In "__proto__" (Generator.docxPlaceholders (core (on_event ev c))).
Proof.
  intros Hev Hc.
  destruct ev; cbn [on_event]; try exact Hc.
  - unfold upload_click.
    destruct ((Generator.step (core c) =? 1)%Z && negb (upload_disabled c));
      [|exact Hc].
    destruct (studio_handleUpload_cases memory up meta c)
      as [(_ & _ & Hp & _)|(md & mres & -> & _ & Hbody & _ & _ & _ & _ & _ & Hp & _)].
    + now rewrite Hp.
    + rewrite Hp. cbn [ordinary] in Hev. now rewrite Hbody in Hev.
  - unfold smart_click. destruct (mapping_shown c); exact Hc.
  - unfold edit. destruct (mapping_shown c && _); [|exact Hc].
    destruct (obj_get ph _); exact Hc.
  - unfold edit. destruct (mapping_shown c && _); [|exact Hc].
    destruct (obj_get ph _); exact Hc.
  - unfold edit. destruct (mapping_shown c && _); [|exact Hc].
    destruct (obj_get ph _); exact Hc.
  - unfold edit. destruct (mapping_shown c && _); [|exact Hc].
    destruct (obj_get ph _); exact Hc.
  - unfold edit. destruct (mapping_shown c && _); [|exact Hc].
    destruct (obj_get ph _); exact Hc.
  - destruct (mapping_shown c); exact Hc.
  - unfold replace_click. destruct (mapping_shown c && isEditingData c);
      [|exact Hc].
    unfold replaceAllData. destruct (negb (truthy (findText c))); exact Hc.
  - unfold save_click.
    destruct (mapping_shown c && isEditingData c && negb (isSavingData c));
      [|exact Hc].
    unfold saveEditedData. simpl.
    destruct answer as [m|res]; [exact Hc|].
    destruct (ok res); [|exact Hc]. destruct (body res); exact Hc.
  - unfold generate_click.
    destruct (mapping_shown c && negb (Generator.isGenerating (core c))
              && negb (Generator.generate_disabled (core c))); [|exact Hc].
    pose proof (generate_frame messages answer (core c)) as Hframe.
    destruct (generate messages answer (core c)) as [st' request].
    cbv zeta in Hframe. cbn [fst snd] in Hframe |- *.
    destruct Hframe as (_ & Hp & _). simpl. now rewrite Hp.
  - unfold edit_cell.
    destruct (mapping_shown c && isEditingData c && includes (rawHeaders c) head);
      [|exact Hc].
    destruct (nth_error (Generator.previewRows (core c)) i); exact Hc.
  - unfold toggle_option. destruct (mapping_shown c); exact Hc.
  - unfold toggle_option. destruct (mapping_shown c); exact Hc.
  - unfold toggle_option. destruct (mapping_shown c); exact Hc.
  - unfold toggle_option. destruct (mapping_shown c); exact Hc.
  - destruct (mapping_shown c); exact Hc.
  - unfold edit_settings.
    destruct (mapping_shown c && showDocSettings c); exact Hc.
  - unfold start_another.
    destruct (Generator.step (core c) =? 3)%Z; [|exact Hc].
    intros [].
Qed.

Lemma studio_run_ordinary evs : forall c,
  Forall ordinary evs ->
  ~ In "__proto__" (Generator.docxPlaceholders (core c)) ->
  ~ In "__proto__" (Generator.docxPlaceholders (core (run evs c))).
Proof.
  unfold run. induction evs as [|ev evs IH]; simpl; intros c Hevs Hc;
    [exact Hc|].
  inversion Hevs as [|ev' evs' Hev Hrest]; subst.
  apply IH; [exact Hrest|]. now apply studio_on_event_ordinary.
Qed.

(** X12: whatever the user does with the component from its initial state
    (uploads with any remembered mappings, "Smart Map All", edits of the
    cards, of the data and of the settings), as long as no upload brings a
    template with a placeholder [__proto__], when a click on "Forge" sends
    a request no placeholder of the template is [__proto__], the mapping
    record has exactly one entry for every placeholder of the template and
    none for anything else, and the [mapping] field of the request has the
    same keys, with the cleaned entry of each placeholder under it. *)
Theorem studio_generation_maps_every_placeholder :
  forall evs messages answer request,
    Forall ordinary evs ->
    let c := run evs init in
    let st := core c in
    snd (generate_click messages answer c) = Some request ->
    request = Generator.generate_body st
    /\ ~ In "__proto__" (Generator.docxPlaceholders st)
    /\ (forall ph, In ph (Generator.docxPlaceholders st) ->
          one_entry ph (Generator.mappings st))
    /\ (forall ph, In ph (obj_keys (Generator.mappings st)) ->
          In ph (Generator.docxPlaceholders st))
    /\ exists entries,
         json_get "mapping" request = Some (JObj entries)
         /\ map fst entries = obj_keys (Generator.mappings st)
         /\ forall ph, In ph (Generator.docxPlaceholders st) ->
              exists conf,
                obj_get ph (Generator.mappings st) = Some conf
                /\ obj_get ph entries
                   = Some (Page.entry_json (Generator.clean_entry conf)).
Proof.
  intros evs messages answer request Hevs c st Hclick.
  destruct (studio_run_keeps evs init studio_init_mapped_once) as (Hnd & _ & Hlater).
  pose proof (studio_run_ordinary evs init Hevs (fun H => H)) as Hord.
  fold c in Hnd, Hlater, Hord. fold st in Hnd, Hlater, Hord.
  unfold generate_click in Hclick. fold st in Hclick.
  destruct (mapping_shown c && negb (Generator.isGenerating st)
            && negb (Generator.generate_disabled st)) eqn:Hcond;
    [|discriminate Hclick].
  apply andb_true_iff in Hcond as [Hcond _].
  apply andb_true_iff in Hcond as [Hstep _].
  unfold mapping_shown in Hstep. fold st in Hstep. apply Z.eqb_eq in Hstep.
  unfold generate in Hclick. simpl in Hclick. injection Hclick as <-.
  assert (Generator.step st <> 1%Z) as Hnot1 by congruence.
  split; [reflexivity|]. split; [exact Hord|]. split; [|split].
  - intros ph Hin. apply NoDup_one_entry; [exact Hnd|]. now apply Hlater.
  - intros ph Hin. now apply Hlater.
  - eexists. split; [reflexivity|]. split.
    + rewrite generator_cleanMapping_map by exact Hnd.
      unfold obj_keys. rewrite !map_map. reflexivity.
    + intros ph Hin. apply (Hlater Hnot1) in Hin.
      destruct (obj_get ph (Generator.mappings st)) as [conf|] eqn:Hget.
      * exists conf. split; [reflexivity|].
        rewrite generator_cleanMapping_map by exact Hnd.
        rewrite map_map. simpl.
        rewrite (obj_get_map (fun conf => Page.entry_json (Generator.clean_entry conf))).
        now rewrite Hget.
      * apply obj_get_None in Hget. contradiction.
Qed.

End StudioFacts.

(** ** The global memory of mappings *)

Section MemoryFacts.





End MemoryFacts.

(** ** The theme switcher *)

Section ThemeFacts.

Lemma themes_cases name theme :
  obj_get name Theme.themes = Some theme ->
  (name = "crimson" /\ theme = Theme.crimson)
  \/ (name = "neon" /\ theme = Theme.neon)
  \/ (name = "ocean" /\ theme = Theme.ocean)
  \/ (name = "emerald" /\ theme = Theme.emerald)
  \/ (name = "amethyst" /\ theme = Theme.amethyst).
Proof.
  unfold Theme.themes. cbn [obj_get].
  destruct (String.eqb_spec name "crimson") as [->|_];
    [intros H; injection H as <-; tauto|].
  destruct (String.eqb_spec name "neon") as [->|_];
    [intros H; injection H as <-; tauto|].
  destruct (String.eqb_spec name "ocean") as [->|_];
    [intros H; injection H as <-; tauto|].
  destruct (String.eqb_spec name "emerald") as [->|_];
    [intros H; injection H as <-; tauto|].
  destruct (String.eqb_spec name "amethyst") as [->|_];
    [intros H; injection H as <-; tauto|].
  discriminate.
Qed.

Lemma set_vars_over name theme name' theme' :
  obj_get name Theme.themes = Some theme ->
  obj_get name' Theme.themes = Some theme' ->
  Theme.set_vars theme' (Theme.set_vars theme []) = Theme.set_vars theme' [].
Proof.
  intros H H'. apply themes_cases in H, H'.
  destruct H as [[_ ->]|[[_ ->]|[[_ ->]|[[_ ->]|[_ ->]]]]];
    destruct H' as [[_ ->]|[[_ ->]|[[_ ->]|[[_ ->]|[_ ->]]]]];
    vm_compute; reflexivity.
Qed.

Lemma lookup_own name theme :
  obj_get name Theme.themes = Some theme -> Theme.lookup name = Theme.Own theme.
Proof. intros H. unfold Theme.lookup. now rewrite H. Qed.

Lemma lookup_cases name :
  (exists theme, obj_get name Theme.themes = Some theme
                 /\ Theme.lookup name = Theme.Own theme)
  \/ (obj_get name Theme.themes = None /\ In name Theme.inherited
      /\ Theme.lookup name = Theme.Inherited)
  \/ (obj_get name Theme.themes = None /\ ~ In name Theme.inherited
      /\ Theme.lookup name = Theme.Undefined).
Proof.
  unfold Theme.lookup.
  destruct (obj_get name Theme.themes) as [theme|]; [left; now exists theme|].
  right. destruct (includes Theme.inherited name) eqn:Hin.
  - left. apply includes_In in Hin. now repeat split.
  - right. repeat split. intros H. apply includes_In in H. congruence.
Qed.

Lemma applyTheme_own name theme st :
  obj_get name Theme.themes = Some theme ->
  Theme.applyTheme name st
  = Theme.Returns
      {| Theme.currentTheme := name; Theme.isOpen := false;
         Theme.root_style := Theme.set_vars theme (Theme.root_style st);
         Theme.body_backgroundColor := Theme.body theme;
         Theme.body_backgroundImage := Theme.gradients (Theme.glow theme);
         Theme.body_color := Theme.text theme;
         Theme.stored := Some name |}.
Proof.
  intros H. unfold Theme.applyTheme. now rewrite (lookup_own name theme H).
Qed.

Lemma applyTheme_in_force name st st' :
  theme_in_force st -> Theme.applyTheme name st = Theme.Returns st' ->
  theme_in_force st'.
Proof.
  intros Hst Happly.
  destruct (lookup_cases name)
    as [(theme' & Hname & _)|[(_ & _ & Hl)|(_ & _ & Hl)]].
  - rewrite (applyTheme_own name theme' st Hname) in Happly.
    injection Happly as <-.
    exists theme'. split; [exact Hname|]. right. simpl.
    split; [|now repeat split].
    destruct Hst as (theme & Hcur & [(_ & -> & _)|(-> & _)]); [reflexivity|].
    now apply (set_vars_over (Theme.currentTheme st) theme name theme').
  - unfold Theme.applyTheme in Happly. rewrite Hl in Happly. discriminate.
  - unfold Theme.applyTheme in Happly. rewrite Hl in Happly.
    now injection Happly as <-.
Qed.

Lemma init_in_force saved :
  (forall s, saved = Some s -> obj_get s Theme.themes = None) ->
  theme_in_force (Theme.init saved).
Proof.
  intros Hbad. exists Theme.crimson. split; [reflexivity|]. left.
  now repeat split.
Qed.

Lemma onMount_cases saved :
  (exists s theme, saved = Some s /\ obj_get s Theme.themes = Some theme
     /\ Theme.onMount (Theme.init saved)
        = Theme.applyTheme s (Theme.init saved))
  \/ (exists s, saved = Some s /\ In s Theme.inherited
        /\ obj_get s Theme.themes = None
        /\ Theme.onMount (Theme.init saved) = Theme.Throws Theme.TypeError)
  \/ ((forall s, saved = Some s ->
         obj_get s Theme.themes = None
         /\ Theme.lookup s = Theme.Undefined)
      /\ Theme.onMount (Theme.init saved) = Theme.Returns (Theme.init saved)).
Proof.
  unfold Theme.onMount. cbn [Theme.stored Theme.init].
  destruct saved as [s|]; [|right; right; split; [discriminate | reflexivity]].
  destruct (lookup_cases s)
    as [(theme & Hs & Hl)|[(Hs & Hin & Hl)|(Hs & Hout & Hl)]]; rewrite Hl.
  - left. exists s, theme. split; [reflexivity|]. split; [exact Hs|].
    assert (truthy s = true) as ->; [|reflexivity].
    apply themes_cases in Hs.
    destruct Hs as [[-> _]|[[-> _]|[[-> _]|[[-> _]|[-> _]]]]]; reflexivity.
  - right. left. exists s. split; [reflexivity|]. split; [exact Hin|].
    split; [exact Hs|].
    assert (truthy s = true) as ->.
    { cbn [Theme.inherited In] in Hin.
      repeat (destruct Hin as [<-|Hin]; [reflexivity|]). destruct Hin. }
    cbn [andb]. unfold Theme.applyTheme. now rewrite Hl.
  - right. right. rewrite andb_false_r. split; [|reflexivity].
    intros s' H. injection H as <-. now split.
Qed.

Lemma onMount_in_force saved st0 :
  Theme.onMount (Theme.init saved) = Theme.Returns st0 -> theme_in_force st0.
Proof.
  intros Hmount.
  destruct (onMount_cases saved)
    as [(s & theme & -> & Hs & Heq)|[(s & _ & _ & _ & Heq)|(Hbad & Heq)]];
    rewrite Heq in Hmount.
  - rewrite (applyTheme_own s theme _ Hs) in Hmount. injection Hmount as <-.
    exists theme. split; [exact Hs|]. right. now repeat split.
  - discriminate Hmount.
  - injection Hmount as <-. apply init_in_force.
    intros s Hs. now apply Hbad.
Qed.

Lemma mount_in_force saved : theme_in_force (Theme.mount saved).
Proof.
  unfold Theme.mount.
  destruct (Theme.onMount (Theme.init saved)) as [st0|e] eqn:Hmount;
    cbn [Theme.state_after]; [now apply (onMount_in_force saved)|].
  destruct (onMount_cases saved)
    as [(s & theme & -> & Hs & Heq)|[(s & -> & _ & Hs & _)|(_ & Heq)]].
  - rewrite Heq, (applyTheme_own s theme _ Hs) in Hmount. discriminate Hmount.
  - apply init_in_force. intros s' H. now injection H as <-.
  - rewrite Heq in Hmount. discriminate Hmount.
Qed.

Lemma theme_click_applies key st :
  includes (obj_keys Theme.themes) key = true ->
  exists theme,
    obj_get key Theme.themes = Some theme
    /\ Theme.state_after (Theme.applyTheme key st) st
       = {| Theme.currentTheme := key; Theme.isOpen := false;
            Theme.root_style := Theme.set_vars theme (Theme.root_style st);
            Theme.body_backgroundColor := Theme.body theme;
            Theme.body_backgroundImage := Theme.gradients (Theme.glow theme);
            Theme.body_color := Theme.text theme;
            Theme.stored := Some key |}.
Proof.
  intros Hkey. apply includes_In in Hkey.
  destruct (obj_get key Theme.themes) as [theme|] eqn:Hget.
  - exists theme. split; [reflexivity|].
    now rewrite (applyTheme_own key theme st Hget).
  - apply obj_get_None in Hget. contradiction.
Qed.

Lemma on_event_in_force ev st :
  theme_in_force st -> theme_in_force (Theme.on_event ev st).
Proof.
  intros Hst. destruct ev as [|key|inside]; cbn [Theme.on_event].
  - exact Hst.
  - destruct (Theme.isOpen st); cbn [andb]; [|exact Hst].
    destruct (includes (obj_keys Theme.themes) key) eqn:Hkey; [|exact Hst].
    destruct (theme_click_applies key st Hkey) as (theme & Hget & Heq).
    apply (applyTheme_in_force key st); [exact Hst|].
    rewrite Heq. now apply applyTheme_own.
  - unfold Theme.handleClickOutside. destruct (negb inside); exact Hst.
Qed.

Lemma run_in_force evs : forall st,
  theme_in_force st -> theme_in_force (Theme.run evs st).
Proof.
  unfold Theme.run. induction evs as [|ev evs IH]; simpl; intros st H;
    [exact H | apply IH; now apply on_event_in_force].
Qed.

Lemma own_is_safe name theme :
  obj_get name Theme.themes = Some theme ->
  Theme.lookup name <> Theme.Inherited.
Proof. intros H. now rewrite (lookup_own name theme H). Qed.

Lemma onMount_is_safe saved st0 :
  Theme.onMount (Theme.init saved) = Theme.Returns st0 -> stored_is_safe st0.
Proof.
  intros Hmount.
  destruct (onMount_cases saved)
    as [(s & theme & -> & Hs & Heq)|[(s & _ & _ & _ & Heq)|(Hbad & Heq)]];
    rewrite Heq in Hmount.
  - rewrite (applyTheme_own s theme _ Hs) in Hmount. injection Hmount as <-.
    intros s' H. cbn [Theme.stored] in H. injection H as <-.
    now apply (own_is_safe s theme).
  - discriminate Hmount.
  - injection Hmount as <-. intros s H. cbn [Theme.stored Theme.init] in H.
    destruct (Hbad s H) as (_ & Hl). now rewrite Hl.
Qed.

Lemma on_event_is_safe ev st :
  stored_is_safe st -> stored_is_safe (Theme.on_event ev st).
Proof.
  intros Hst. destruct ev as [|key|inside]; cbn [Theme.on_event].
  - exact Hst.
  - destruct (Theme.isOpen st); cbn [andb]; [|exact Hst].
    destruct (includes (obj_keys Theme.themes) key) eqn:Hkey; [|exact Hst].
    destruct (theme_click_applies key st Hkey) as (theme & Hget & ->).
    intros s H. cbn [Theme.stored] in H. injection H as <-.
    now apply (own_is_safe key theme).
  - unfold Theme.handleClickOutside. destruct (negb inside); exact Hst.
Qed.

Lemma run_is_safe evs : forall st,
  stored_is_safe st -> stored_is_safe (Theme.run evs st).
Proof.
  unfold Theme.run. induction evs as [|ev evs IH]; simpl; intros st H;
    [exact H | apply IH; now apply on_event_is_safe].
Qed.

(** X14: when the theme switcher mounts without throwing and whatever is
    clicked afterwards, [currentTheme] is one of the five themes of the
    table (so the swatch of the toggle button is always defined), and the
    custom properties of the root element are either untouched, under the
    name "crimson", or exactly those of the current theme together with
    the body's colours: no property of an earlier theme is left behind; a
    name that [themes] does not have changes nothing; a name that [themes]
    has through its prototype only, such as "constructor" or "toString",
    makes [applyTheme] throw a [TypeError], and so does mounting the
    switcher while [localStorage] holds such a name. *)
Theorem theme_is_one_of_the_table :
  forall saved st0 evs,
    Theme.onMount (Theme.init saved) = Theme.Returns st0 ->
    let st := Theme.run evs st0 in
    exists theme,
      obj_get (Theme.currentTheme st) Theme.themes = Some theme
      /\ In (Theme.currentTheme st)
           ["crimson"; "neon"; "ocean"; "emerald"; "amethyst"]
      /\ ((Theme.currentTheme st = "crimson" /\ Theme.root_style st = []
           /\ Theme.body_backgroundColor st = "" /\ Theme.body_color st = "")
          \/ (Theme.root_style st = Theme.set_vars theme []
              /\ Theme.body_backgroundColor st = Theme.body theme
              /\ Theme.body_color st = Theme.text theme
              /\ Theme.body_backgroundImage st
                 = Theme.gradients (Theme.glow theme)))
      /\ (forall name, obj_get name Theme.themes = None ->
            ~ In name Theme.inherited ->
            Theme.applyTheme name st = Theme.Returns st)
      /\ (forall name, In name Theme.inherited ->
            Theme.applyTheme name st = Theme.Throws Theme.TypeError
            /\ Theme.onMount (Theme.init (Some name))
               = Theme.Throws Theme.TypeError).
Proof.
  intros saved st0 evs Hmount st.
  destruct (run_in_force evs _ (onMount_in_force saved st0 Hmount))
    as (theme & Hcur & Hcase).
  fold st in Hcur, Hcase. exists theme. split; [exact Hcur|]. split.
  - apply themes_cases in Hcur. simpl.
    destruct Hcur as [[-> _]|[[-> _]|[[-> _]|[[-> _]|[-> _]]]]]; tauto.
  - split; [|split].
    + destruct Hcase as [(H1 & H2 & H3 & _ & H5 & _)|(H1 & H2 & H3 & H4 & _)];
        [left | right]; now repeat split.
    + intros name Hname Hout. unfold Theme.applyTheme.
      destruct (lookup_cases name)
        as [(t & Ht & _)|[(_ & Hin & _)|(_ & _ & ->)]];
        [congruence | contradiction | reflexivity].
    + intros name Hin.
      destruct (lookup_cases name)
        as [(t & Ht & _)|[(_ & _ & Hl)|(_ & Hout & _)]].
      * apply themes_cases in Ht. cbn [Theme.inherited In] in Hin.
        destruct Ht as [[-> _]|[[-> _]|[[-> _]|[[-> _]|[-> _]]]]];
          repeat (destruct Hin as [Hin|Hin]; [discriminate Hin|]);
          destruct Hin.
      * split; [unfold Theme.applyTheme; now rewrite Hl|].
        destruct (onMount_cases (Some name))
          as [(s & t & Hs & Ht & _)|[(_ & _ & _ & _ & Heq)|(Hbad & _)]].
        -- injection Hs as <-. unfold Theme.lookup in Hl. rewrite Ht in Hl.
           discriminate Hl.
        -- exact Heq.
        -- destruct (Hbad name eq_refl) as (_ & Hu). congruence.
      * contradiction.
Qed.

(** X15: the chosen theme survives a reload: when the switcher has
    mounted without throwing, mounting it anew over what it left in
    [localStorage] does not throw either and gives the current theme, the
    custom properties and the body's style it had, with the dropdown
    closed. *)
Theorem theme_survives_a_reload :
  forall saved st0 evs,
    Theme.onMount (Theme.init saved) = Theme.Returns st0 ->
    let st := Theme.run evs st0 in
    Theme.onMount (Theme.init (Theme.stored st))
    = Theme.Returns (Theme.set_isOpen false st)
    /\ Theme.mount (Theme.stored st) = Theme.set_isOpen false st.
Proof.
  intros saved st0 evs Hmount st.
  assert (Theme.onMount (Theme.init (Theme.stored st))
          = Theme.Returns (Theme.set_isOpen false st)) as Hre.
  { destruct (run_in_force evs _ (onMount_in_force saved st0 Hmount))
      as (theme & Hcur & Hcase).
    pose proof (run_is_safe evs _ (onMount_is_safe saved st0 Hmount)) as Hsafe.
    fold st in Hcur, Hcase, Hsafe. destruct st as [cur open style bc bi bcol sto].
    unfold stored_is_safe in Hsafe.
    cbn [Theme.currentTheme Theme.root_style Theme.body_backgroundColor
         Theme.body_backgroundImage Theme.body_color Theme.stored]
      in Hcur, Hcase, Hsafe.
    unfold Theme.set_isOpen.
    cbn [Theme.currentTheme Theme.root_style Theme.body_backgroundColor
         Theme.body_backgroundImage Theme.body_color Theme.stored].
    destruct Hcase as [(-> & -> & -> & -> & -> & Hbad)|(-> & -> & -> & -> & ->)].
    - destruct (onMount_cases sto)
        as [(s & t & -> & Hs & _)|[(s & -> & Hin & _ & _)|(_ & Heq)]].
      + rewrite (Hbad s eq_refl) in Hs. discriminate Hs.
      + exfalso. apply (Hsafe s eq_refl).
        destruct (lookup_cases s)
          as [(t & Ht & _)|[(_ & _ & Hl)|(_ & Hout & _)]];
          [|exact Hl|].
        * rewrite (Hbad s eq_refl) in Ht. discriminate Ht.
        * contradiction.
      + exact Heq.
    - destruct (onMount_cases (Some cur))
        as [(s & t & Hs & Ht & Heq)|[(s & Hs & _ & Hnone & _)|(Hbad & _)]].
      + injection Hs as <-. rewrite Heq, (applyTheme_own cur t _ Ht).
        assert (t = theme) as -> by congruence. reflexivity.
      + injection Hs as <-. congruence.
      + destruct (Hbad cur eq_refl) as (Hnone & _). congruence. }
  split; [exact Hre|]. unfold Theme.mount. now rewrite Hre.
Qed.

Lemma theme_table_after_a_click :
  let st := Theme.run [Theme.ToggleClick; Theme.ThemeClick "neon"]
              (Theme.mount (Some "ocean")) in
  exists theme,
    obj_get (Theme.currentTheme st) Theme.themes = Some theme
    /\ In (Theme.currentTheme st)
         ["crimson"; "neon"; "ocean"; "emerald"; "amethyst"]
    /\ ((Theme.currentTheme st = "crimson" /\ Theme.root_style st = []
         /\ Theme.body_backgroundColor st = "" /\ Theme.body_color st = "")
        \/ (Theme.root_style st = Theme.set_vars theme []
            /\ Theme.body_backgroundColor st = Theme.body theme
            /\ Theme.body_color st = Theme.text theme
            /\ Theme.body_backgroundImage st
               = Theme.gradients (Theme.glow theme)))
    /\ (forall name, obj_get name Theme.themes = None ->
          ~ In name Theme.inherited ->
          Theme.applyTheme name st = Theme.Returns st)
    /\ (forall name, In name Theme.inherited ->
          Theme.applyTheme name st = Theme.Throws Theme.TypeError
          /\ Theme.onMount (Theme.init (Some name))
             = Theme.Throws Theme.TypeError).
Proof.
  apply (theme_is_one_of_the_table (Some "ocean") (Theme.mount (Some "ocean"))
           [Theme.ToggleClick; Theme.ThemeClick "neon"]).
  reflexivity.
Defined.

Lemma theme_reload_after_a_click :
  let st := Theme.run [Theme.ToggleClick; Theme.ThemeClick "neon"]
              (Theme.mount (Some "ocean")) in
  Theme.onMount (Theme.init (Theme.stored st))
  = Theme.Returns (Theme.set_isOpen false st)
  /\ Theme.mount (Theme.stored st) = Theme.set_isOpen false st.
Proof.
  apply (theme_survives_a_reload (Some "ocean") (Theme.mount (Some "ocean"))
           [Theme.ToggleClick; Theme.ThemeClick "neon"]).
  reflexivity.
Defined.

End ThemeFacts.

(** ** More on the extractor *)

Section ExtractorMore.

Lemma or_else_nonempty a b : b <> "" -> or_else a b <> "".
Proof.
  intros Hb. unfold or_else, truthy.
  destruct (String.eqb_spec a ""); simpl; assumption.
Qed.

Lemma extract_catch_shows message st :
  Extractor.errorMsg (Extractor.extract_catch message st) <> "".
Proof. simpl. apply or_else_nonempty. discriminate. Qed.

Lemma processPdfSelection_file_and_step file st :
  file_and_step st -> file_and_step (Extractor.processPdfSelection file st).
Proof.
  intros H. unfold Extractor.processPdfSelection.
  destruct (negb _); [exact H|]. right. split; [reflexivity | now exists file].
Qed.

Lemma handleExtract_answer_cases answer now st :
  let st' := fst (Extractor.handleExtract_answer answer now st) in
  let dl := snd (Extractor.handleExtract_answer answer now st) in
  (dl = None
   /\ st' = Extractor.set_isUploading false
              (Extractor.set_errorMsg (Extractor.errorMsg st') st)
   /\ Extractor.errorMsg st' <> "")
  \/ (exists res b,
        answer = Resolves res /\ Extractor.ok res = true
        /\ Extractor.blob res = Resolves b
        /\ (exists file_name,
              dl = Some {| Extractor.href := ObjectUrl b;
                           Extractor.download := file_name |})
        /\ st' = Extractor.set_isUploading false (Extractor.clearFile st)).
Proof.
  unfold Extractor.handleExtract_answer.
  destruct answer as [m|res].
  - left. cbn [fst snd]. split; [reflexivity|].
    split; [reflexivity | apply extract_catch_shows].
  - destruct (Extractor.ok res) eqn:Hok; cbn [negb].
    + destruct (Extractor.blob res) as [m|b] eqn:Hblob.
      * left. cbn [fst snd]. split; [reflexivity|].
        split; [reflexivity | apply extract_catch_shows].
      * right. exists res, b. cbn [fst snd]. split; [reflexivity|].
        split; [assumption|]. split; [assumption|].
        split; [eexists; reflexivity | reflexivity].
    + destruct (Extractor.error_detail res) as [m|d].
      * left. cbn [fst snd]. split; [reflexivity|].
        split; [reflexivity | apply extract_catch_shows].
      * left. cbn [fst snd]. split; [reflexivity|].
        split; [reflexivity | apply extract_catch_shows].
Qed.

Lemma extractor_on_event_keeps ev st :
  file_and_step st -> file_and_step (fst (Extractor.on_event ev st)).
Proof.
  intros H. destruct ev as [files|files| | | | | |answer now]; cbn [Extractor.on_event fst].
  - destruct files; [exact H | now apply processPdfSelection_file_and_step].
  - destruct files; [exact H | now apply processPdfSelection_file_and_step].
  - left. split; reflexivity.
  - exact H.
  - exact H.
  - exact H.
  - unfold Extractor.handleExtract_request.
    destruct (Extractor.pdfFile st) eqn:Hfile; cbn [fst]; [|exact H].
    unfold file_and_step. cbn. rewrite Hfile. unfold file_and_step in H.
    rewrite Hfile in H. exact H.
  - destruct (handleExtract_answer_cases answer now st)
      as [(_ & -> & _)|(_ & _ & _ & _ & _ & _ & ->)].
    + exact H.
    + left. split; reflexivity.
Qed.

Lemma extractor_run_keeps evs : forall st,
  file_and_step st -> file_and_step (fst (Extractor.run evs st)).
Proof.
  induction evs as [|ev evs IH]; intros st H; [exact H|].
  cbn [Extractor.run].
  pose proof (extractor_on_event_keeps ev st H) as H1.
  destruct (Extractor.on_event ev st) as [st1 sent1]. cbn [fst] in H1.
  specialize (IH st1 H1).
  destruct (Extractor.run evs st1) as [st2 sent2]. exact IH.
Qed.

(** X16: whatever happens to the extractor from its initial state, it is
    either in step 1 without a file, where [handleExtract] does nothing and
    posts nothing, or in step 2 with a file, where [handleExtract] posts
    that file with the names of the two options chosen. *)
Theorem extractor_step_follows_the_file :
  forall evs,
    let st := fst (Extractor.run evs Extractor.init) in
    (Extractor.step st = 1%Z /\ Extractor.pdfFile st = None
     /\ forall answer now,
          Extractor.handleExtract answer now st = (st, None, None))
    \/ (Extractor.step st = 2%Z
        /\ exists file,
             Extractor.pdfFile st = Some file
             /\ forall answer now,
                  snd (fst (Extractor.handleExtract answer now st))
                  = Some {| Extractor.form_pdfFile := file;
                            Extractor.form_processingOption :=
                              Extractor.option_name (Extractor.processingOption st);
                            Extractor.form_outputFormat :=
                              Extractor.format_name (Extractor.outputFormat st) |}).
Proof.
  intros evs st.
  destruct (extractor_run_keeps evs Extractor.init) as [[Hs Hf]|[Hs [file Hf]]].
  - left. split; reflexivity.
  - left. fold st in Hs, Hf. split; [assumption|]. split; [assumption|].
    intros answer now. unfold Extractor.handleExtract, Extractor.handleExtract_request.
    now rewrite Hf.
  - right. fold st in Hs, Hf. split; [assumption|]. exists file.
    split; [assumption|].
    intros answer now. unfold Extractor.handleExtract, Extractor.handleExtract_request.
    rewrite Hf.
    destruct (Extractor.handleExtract_answer _ _ _). reflexivity.
Qed.

(** X17: when the answer to an extraction is in, [isUploading] is false
    and the two options are as they were; either the answer was ok with a
    readable body, a download of that body is started and the extractor is
    back in step 1 without file and without error, or nothing is
    downloaded, the file and the step are kept for another try, and the
    error shown is not empty. *)
Theorem extract_answer_outcomes :
  forall (answer : promise Extractor.ExtractResponse) (now : Z)
         (st : Extractor.State),
    let st' := fst (Extractor.handleExtract_answer answer now st) in
    let dl := snd (Extractor.handleExtract_answer answer now st) in
    Extractor.isUploading st' = false
    /\ Extractor.processingOption st' = Extractor.processingOption st
    /\ Extractor.outputFormat st' = Extractor.outputFormat st
    /\ ((dl = None
         /\ Extractor.step st' = Extractor.step st
         /\ Extractor.pdfFile st' = Extractor.pdfFile st
         /\ Extractor.errorMsg st' <> "")
        \/ (exists res b file_name,
              answer = Resolves res /\ Extractor.ok res = true
              /\ Extractor.blob res = Resolves b
              /\ dl = Some {| Extractor.href := ObjectUrl b;
                              Extractor.download := file_name |}
              /\ Extractor.step st' = 1%Z
              /\ Extractor.pdfFile st' = None
              /\ Extractor.errorMsg st' = "")).
Proof.
  intros answer now st st' dl.
  destruct (handleExtract_answer_cases answer now st)
    as [(Hdl & Hst & Herr)|(res & b & Hans & Hok & Hblob & [file_name Hdl] & Hst)];
    fold st' in Hdl, Hst; try fold st' in Herr; fold dl in Hdl.
  - rewrite Hst. cbn. split; [reflexivity|]. split; [reflexivity|].
    split; [reflexivity|]. left. split; [assumption|].
    split; [reflexivity|]. split; [reflexivity | assumption].
  - rewrite Hst. cbn. split; [reflexivity|]. split; [reflexivity|].
    split; [reflexivity|]. right. exists res, b, file_name. now repeat split.
Qed.

End ExtractorMore.

(** ** Detection by name and the live preview *)

Section DetectFacts.

Lemma find_match_none ph headers :
  (forall h, In h headers -> Matcher.exact_match ph h = false) ->
  Page.find_match ph (Matcher.clean_placeholder ph) headers = "".
Proof.
  induction headers as [|h rest IH]; intros Hno; [reflexivity|].
  cbn [Page.find_match]. fold (Matcher.clean_header h).
  fold (Matcher.exact_match ph h). rewrite (Hno h) by now left.
  apply IH. intros h' Hh'. apply Hno. now right.
Qed.

Lemma find_match_first ph headers h :
  first_match ph headers h ->
  Page.find_match ph (Matcher.clean_placeholder ph) headers = h.
Proof.
  intros (before & after & -> & Hh & Hbefore).
  induction before as [|h0 before IH]; cbn [app Page.find_match].
  - fold (Matcher.clean_header h). fold (Matcher.exact_match ph h).
    now rewrite Hh.
  - fold (Matcher.clean_header h0). fold (Matcher.exact_match ph h0).
    rewrite (Hbefore h0) by now left.
    apply IH. intros h' Hh'. apply Hbefore. now right.
Qed.

Lemma find_match_found ph headers :
  Page.find_match ph (Matcher.clean_placeholder ph) headers <> "" ->
  first_match ph headers (Page.find_match ph (Matcher.clean_placeholder ph) headers).
Proof.
  induction headers as [|h rest IH]; cbn [Page.find_match]; [congruence|].
  fold (Matcher.clean_header h). fold (Matcher.exact_match ph h).
  destruct (Matcher.exact_match ph h) eqn:Hh.
  - intros _. exists [], rest. split; [reflexivity|]. split; [assumption|].
    intros h' [].
  - intros Hfound. destruct (IH Hfound) as (before & after & Heq & Hm & Hbefore).
    exists (h :: before), after. split; [now rewrite Heq at 1|].
    split; [assumption|]. intros h' [<-|Hh']; [assumption | now apply Hbefore].
Qed.

(** X18: [autoDetectMappings], on the page and in the component alike
    when nothing is remembered, binds a placeholder to the first header
    that matches it (equal once lower-cased and stripped of white space and
    of the first [#]), and to no header when none matches; the entry is a
    column binding exactly when the header found is not the empty string,
    a static text otherwise, and its text, prefix and suffix are empty. *)
Theorem autoDetect_binds_the_first_matching_header :
  forall (headers : list string) (ph : string),
    let conf := Page.detect headers ph in
    let conf' := Generator.detect_by_name headers ph in
    Generator.value conf' = Page.value conf
    /\ (forall h, first_match ph headers h -> Page.value conf = h)
    /\ (Page.value conf <> "" -> first_match ph headers (Page.value conf))
    /\ ((forall h, In h headers -> Matcher.exact_match ph h = false) ->
        Page.value conf = "")
    /\ (Page.type conf = Page.csv_column <-> Page.value conf <> "")
    /\ (Page.type conf = Page.custom_text <-> Page.value conf = "")
    /\ (Generator.type conf' = Generator.data_column <-> Page.value conf <> "")
    /\ (Generator.type conf' = Generator.custom_text <-> Page.value conf = "")
    /\ Page.customText conf = "" /\ Page.prefix conf = "" /\ Page.suffix conf = ""
    /\ Generator.customText conf' = "" /\ Generator.prefix conf' = ""
    /\ Generator.suffix conf' = "".
Proof.
  intros headers ph conf conf'. subst conf conf'.
  unfold Page.detect, Generator.detect_by_name, Generator.find_match.
  fold (Matcher.clean_placeholder ph). cbn [Page.value Generator.value
    Page.type Generator.type Page.customText Page.prefix Page.suffix
    Generator.customText Generator.prefix Generator.suffix].
  split; [reflexivity|].
  split; [intros h Hh; now apply find_match_first|].
  split; [apply find_match_found|].
  split; [apply find_match_none|].
  unfold truthy.
  destruct (String.eqb_spec
              (Page.find_match ph (Matcher.clean_placeholder ph) headers) "")
    as [Hnone|Hsome]; cbn [negb].
  - rewrite Hnone. repeat split; try discriminate; try congruence.
  - repeat split; try discriminate; try congruence.
Qed.

End DetectFacts.

Section PreviewFacts.

Lemma map_chars_empty f s : map_chars f s = "" <-> s = "".
Proof. destruct s; simpl; split; congruence. Qed.

Lemma append_empty a b : a ++ b = "" <-> a = "" /\ b = "".
Proof.
  destruct a; simpl; split.
  - intros ->. now split.
  - now intros [_ ->].
  - discriminate.
  - intros [H _]. discriminate.
Qed.

Lemma computePreview_as_map (maps : obj Generator.MappingConfig) row rest :
  NoDup (obj_keys maps) ->
  Generator.computePreview maps (row :: rest)
  = map (fun pc => (fst pc, Generator.preview_entry (snd pc) row)) maps.
Proof.
  intros Hnd. unfold Generator.computePreview.
  now rewrite (copy_each_NoDup (fun conf => Generator.preview_entry conf row) maps []).
Qed.

Lemma or_else_empty a : or_else a "" = a.
Proof.
  unfold or_else, truthy. now destruct (String.eqb_spec a "") as [->|_].
Qed.

Lemma if_truthy_prefix p v : (if truthy p then p ++ v else v) = p ++ v.
Proof. unfold truthy. now destruct (String.eqb_spec p "") as [->|_]. Qed.

Lemma if_truthy_suffix s v : (if truthy s then v ++ s else v) = v ++ s.
Proof.
  unfold truthy. destruct (String.eqb_spec s "") as [->|_]; cbn [negb];
    [now rewrite append_empty_r | reflexivity].
Qed.

Lemma preview_entry_data_column conf row :
  Generator.type conf = Generator.data_column ->
  let cell := match obj_get (Generator.value conf) row with
              | Some v => v
              | None => ""
              end in
  let shown := (Generator.prefix conf
                ++ (if truthy (Generator.value conf) then cell else ""))
               ++ Generator.suffix conf in
  let cased :=
    if Generator.is_modifier "uppercase" conf then toUpperCase shown
    else if Generator.is_modifier "lowercase" conf then toLowerCase shown
    else shown in
  Generator.preview_entry conf row
  = match Generator.fallback conf with
    | Some fb => if String.eqb cased "" then fb else cased
    | None => cased
    end.
Proof.
  intros Htype cell shown cased. unfold Generator.preview_entry.
  rewrite Htype, or_else_empty, if_truthy_prefix, if_truthy_suffix.
  fold cell. fold shown.
  assert ((if Generator.is_modifier "lowercase" conf
           then toLowerCase
                  (if Generator.is_modifier "uppercase" conf
                   then toUpperCase shown else shown)
           else if Generator.is_modifier "uppercase" conf
                then toUpperCase shown else shown) = cased) as ->.
  { subst cased. unfold Generator.is_modifier.
    destruct (Generator.modifier conf) as [m|]; [|reflexivity].
    destruct (String.eqb_spec m "uppercase") as [->|_]; reflexivity. }
  destruct (Generator.fallback conf) as [fb|]; [|reflexivity].
  unfold truthy. destruct (String.eqb_spec cased "") as [->|_]; cbn [negb andb];
    [|reflexivity].
  now destruct (String.eqb_spec fb "") as [->|_].
Qed.

(** X19: [computePreview] shows nothing when there is no row, and
    otherwise one value per mapping, in the order of the record, computed
    from the first row; a combined mapping is previewed as its prefix and
    suffix alone, without the column; a column mapping as prefix, cell and
    suffix, the case modifier applied to all three, with the fallback text
    in place of an empty result; so a fallback never shows once a prefix
    or a suffix is set, and shows when there is neither and the cell is
    missing or empty. *)
Theorem computePreview_cases :
  (forall maps, Generator.computePreview maps [] = [])
  /\ (forall (maps : obj Generator.MappingConfig) row rest,
        NoDup (obj_keys maps) ->
        obj_keys (Generator.computePreview maps (row :: rest)) = obj_keys maps
        /\ forall ph,
             obj_get ph (Generator.computePreview maps (row :: rest))
             = option_map (fun conf => Generator.preview_entry conf row)
                 (obj_get ph maps))
  /\ (forall conf row,
        Generator.type conf = Generator.combined ->
        Generator.preview_entry conf row
        = Generator.prefix conf ++ Generator.suffix conf)
  /\ (forall conf row,
        Generator.type conf = Generator.data_column ->
        let cell := match obj_get (Generator.value conf) row with
                    | Some v => v
                    | None => ""
                    end in
        let shown := (Generator.prefix conf
                      ++ (if truthy (Generator.value conf) then cell else ""))
                     ++ Generator.suffix conf in
        let cased :=
          if Generator.is_modifier "uppercase" conf then toUpperCase shown
          else if Generator.is_modifier "lowercase" conf then toLowerCase shown
          else shown in
        Generator.preview_entry conf row
        = match Generator.fallback conf with
          | Some fb => if String.eqb cased "" then fb else cased
          | None => cased
          end)
  /\ (forall conf row fb,
        Generator.type conf = Generator.data_column ->
        Generator.fallback conf = Some fb ->
        (Generator.prefix conf <> "" \/ Generator.suffix conf <> "" ->
         Generator.preview_entry conf row <> ""
         /\ Generator.preview_entry conf row
            = Generator.preview_entry (no_fallback conf) row)
        /\ (Generator.prefix conf = "" -> Generator.suffix conf = "" ->
            Generator.value conf = ""
            \/ obj_get (Generator.value conf) row = None
            \/ obj_get (Generator.value conf) row = Some "" ->
            Generator.preview_entry conf row = fb)).
Proof.
  split; [reflexivity|]. split; [|split; [|split]].
  - intros maps row rest Hnd. rewrite computePreview_as_map by assumption. split.
    + unfold obj_keys. rewrite map_map. reflexivity.
    + intros ph.
      apply (obj_get_map (fun conf => Generator.preview_entry conf row)).
  - intros conf row Htype. unfold Generator.preview_entry. rewrite Htype.
    now rewrite if_truthy_prefix, if_truthy_suffix, append_empty_r.
  - intros conf row Htype. now apply preview_entry_data_column.
  - intros conf row fb Htype Hfb. split.
    + intros Hfix.
      rewrite (preview_entry_data_column (no_fallback conf) row Htype).
      rewrite (preview_entry_data_column conf row Htype), Hfb.
      cbn [no_fallback Generator.value Generator.prefix Generator.suffix
           Generator.fallback].
      change (Generator.is_modifier "uppercase" (no_fallback conf))
        with (Generator.is_modifier "uppercase" conf).
      change (Generator.is_modifier "lowercase" (no_fallback conf))
        with (Generator.is_modifier "lowercase" conf).
      set (shown := (Generator.prefix conf ++ _) ++ Generator.suffix conf).
      assert (shown <> "") as Hshown.
      { subst shown. intros H. apply append_empty in H as [H Hs].
        apply append_empty in H as [Hp _]. tauto. }
      set (cased := if Generator.is_modifier "uppercase" conf then _ else _).
      assert (cased <> "") as Hcased.
      { subst cased. unfold toUpperCase, toLowerCase.
        destruct (Generator.is_modifier "uppercase" conf);
          [now rewrite map_chars_empty|].
        destruct (Generator.is_modifier "lowercase" conf);
          [now rewrite map_chars_empty | assumption]. }
      apply String.eqb_neq in Hcased. rewrite Hcased.
      apply String.eqb_neq in Hcased. split; [assumption | reflexivity].
    + intros Hp Hs Hcell.
      rewrite (preview_entry_data_column conf row Htype), Hfb, Hp, Hs.
      assert ((if truthy (Generator.value conf)
               then match obj_get (Generator.value conf) row with
                    | Some v => v
                    | None => ""
                    end
               else "") = "") as ->.
      { destruct Hcell as [->|[->| ->]]; [reflexivity | |];
          now destruct (truthy (Generator.value conf)). }
      cbn [append]. unfold toUpperCase, toLowerCase. cbn [map_chars].
      now destruct (Generator.is_modifier "uppercase" conf),
                   (Generator.is_modifier "lowercase" conf).
Qed.

End PreviewFacts.

(** ** The data editor and the upload of the component *)

Section StudioMore.
Import Studio.

Lemma arr_set_nth_error {A} (rows : list A) i v :
  (i < length rows)%nat ->
  length (Matcher.arr_set i v rows) = length rows
  /\ nth_error (Matcher.arr_set i v rows) i = Some v
  /\ forall j, j <> i ->
       nth_error (Matcher.arr_set i v rows) j = nth_error rows j.
Proof.
  unfold Matcher.arr_set. revert i. induction rows as [|r rows IH]; intros i Hi;
    [simpl in Hi; lia|].
  destruct i as [|i].
  - split; [reflexivity|]. split; [reflexivity|].
    intros [|j] Hj; [congruence | reflexivity].
  - simpl in Hi. destruct (IH i ltac:(lia)) as (Hlen & Hat & Hother).
    change (firstn (S i) (r :: rows) ++ v :: skipn (S (S i)) (r :: rows))%list
      with (r :: (firstn i rows ++ v :: skipn (S i) rows))%list.
    split; [cbn [length]; now rewrite Hlen|]. split; [exact Hat|].
    intros [|j] Hj; [reflexivity|]. cbn [nth_error]. apply Hother. congruence.
Qed.

(** X20: in the live data editor, a text typed into the cell of row [i]
    under a header is what the next save posts at that place; the other
    cells of the row, the other rows, the headers and the session are
    posted as they were, and the mapping record is not touched. *)
Theorem typed_cells_are_saved :
  forall (c : Component) (i : nat) (head text : string) (row : obj string)
         (answer : promise (response SaveData)),
    mapping_shown c = true -> isEditingData c = true ->
    In head (rawHeaders c) ->
    nth_error (Generator.previewRows (core c)) i = Some row ->
    let c' := edit_cell i head text c in
    let request := snd (saveEditedData answer c') in
    (exists row',
       nth_error (save_rows request) i = Some row'
       /\ obj_get head row' = Some text
       /\ forall other, other <> head -> obj_get other row' = obj_get other row)
    /\ (forall j, j <> i ->
          nth_error (save_rows request) j
          = nth_error (Generator.previewRows (core c)) j)
    /\ length (save_rows request) = length (Generator.previewRows (core c))
    /\ save_headers request = rawHeaders c
    /\ save_session_id request = Generator.sessionId (core c)
    /\ Generator.mappings (core c') = Generator.mappings (core c).
Proof.
  intros c i head text row answer Hshown Hedit Hhead Hrow c' request.
  subst request c'. unfold edit_cell.
  assert (includes (rawHeaders c) head = true) as Hinc.
  { unfold includes. apply existsb_exists. exists head.
    split; [assumption | apply String.eqb_refl]. }
  rewrite Hshown, Hedit, Hinc, Hrow. cbn.
  assert (i < length (Generator.previewRows (core c)))%nat as Hi.
  { apply nth_error_Some. congruence. }
  destruct (arr_set_nth_error (Generator.previewRows (core c)) i
              (obj_set head text row) Hi) as (Hlen & Hat & Hother).
  split; [|now repeat split].
  exists (obj_set head text row). split; [exact Hat|].
  split; [apply obj_get_set_same|].
  intros other Hne. apply obj_get_set_other. congruence.
Qed.


End StudioMore.

(** ** The properties above on the sample session *)

Section MoreWitnesses.
Import Studio.

Lemma studio_upload_defaults_on_bare_metadata :
  let c' := handleUpload [] Samples.upload_ok
              (Resolves MoreSamples.meta_bare_response) MoreSamples.picked in
  Generator.step (core c') = 2%Z
  /\ Generator.sessionId (core c') = "s-1"
  /\ Generator.rowsPerDoc (core c') <> 0%Z
  /\ (rows_per_doc MoreSamples.meta_bare_data = None
      \/ rows_per_doc MoreSamples.meta_bare_data = Some 0%Z ->
      Generator.rowsPerDoc (core c') = 1%Z
      /\ Generator.estimatedDocs (core c') = 2%Z)
  /\ (template_page_size MoreSamples.meta_bare_data = None
      \/ template_page_size MoreSamples.meta_bare_data = Some "" ->
      templatePageSize c' = "letter")
  /\ (template_page_width MoreSamples.meta_bare_data = None ->
      templatePageWidth c' = 17 # 2)
  /\ (template_page_height MoreSamples.meta_bare_data = None ->
      templatePageHeight c' = 11 # 1)
  /\ (placeholder_counts MoreSamples.meta_bare_data = None ->
      placeholderCounts c' = [])
  /\ json_get "rows_per_doc" (Generator.generate_body (core c'))
     <> Some (JNum (inject_Z 0)).
Proof.
  exact (studio_upload_defaults [] Samples.upload_ok
           MoreSamples.meta_bare_response MoreSamples.meta_bare_data
           Samples.upload_ok_response {| Page.session_id := "s-1" |}
           MoreSamples.picked Samples.data_csv Samples.template_docx
           eq_refl eq_refl eq_refl eq_refl eq_refl eq_refl eq_refl).
Defined.

Lemma studio_generation_on_a_session :
  let st := core MoreSamples.mapped_studio in
  Generator.generate_body st = Generator.generate_body st
  /\ ~ In "__proto__" (Generator.docxPlaceholders st)
  /\ (forall ph, In ph (Generator.docxPlaceholders st) ->
        one_entry ph (Generator.mappings st))
  /\ (forall ph, In ph (obj_keys (Generator.mappings st)) ->
        In ph (Generator.docxPlaceholders st))
  /\ exists entries,
       json_get "mapping" (Generator.generate_body st) = Some (JObj entries)
       /\ map fst entries = obj_keys (Generator.mappings st)
       /\ forall ph, In ph (Generator.docxPlaceholders st) ->
            exists conf,
              obj_get ph (Generator.mappings st) = Some conf
              /\ obj_get ph entries
                 = Some (Page.entry_json (Generator.clean_entry conf)).
Proof.
  apply (studio_generation_maps_every_placeholder MoreSamples.studio_session
           [] Samples.archive_ok
           (Generator.generate_body (core MoreSamples.mapped_studio))).
  - repeat constructor. simpl. intuition discriminate.
  - reflexivity.
Defined.

Lemma typed_cells_on_a_session :
  let c' := edit_cell 1 "Amount" "7" MoreSamples.mapped_studio in
  let request := snd (saveEditedData (Rejects "offline") c') in
  (exists row',
     nth_error (save_rows request) 1 = Some row'
     /\ obj_get "Amount" row' = Some "7"
     /\ forall other, other <> "Amount" ->
          obj_get other row'
          = obj_get other
              [("Full Name", "Max Born"); ("Amount", ""); ("Adress", "2, Main St.")])
  /\ (forall j, j <> 1%nat ->
        nth_error (save_rows request) j
        = nth_error (Generator.previewRows (core MoreSamples.mapped_studio)) j)
  /\ length (save_rows request)
     = length (Generator.previewRows (core MoreSamples.mapped_studio))
  /\ save_headers request = rawHeaders MoreSamples.mapped_studio
  /\ save_session_id request
     = Generator.sessionId (core MoreSamples.mapped_studio)
  /\ Generator.mappings (core c')
     = Generator.mappings (core MoreSamples.mapped_studio).
Proof.
  apply (typed_cells_are_saved MoreSamples.mapped_studio 1 "Amount" "7"
           [("Full Name", "Max Born"); ("Amount", ""); ("Adress", "2, Main St.")]
           (Rejects "offline")).
  - reflexivity.
  - reflexivity.
  - vm_compute. tauto.
  - reflexivity.
Defined.


End MoreWitnesses.

(** ** "Smart Map All" again *)

Section SmartTwice.
Import Matcher.

Lemma obj_set_same_value {A} (k : string) (v : A) (o : obj A) :
  obj_get k o = Some v -> obj_set k v o = o.
Proof.
  induction o as [|[k0 v0] o IH]; cbn [obj_get obj_set]; [discriminate|].
  destruct (String.eqb_spec k k0) as [->|_].
  - intros H. now injection H as ->.
  - intros H. now rewrite IH.
Qed.

Lemma assign_some_fixed {A} (p : string -> bool) (f : string -> A) ks (o : obj A) :
  (forall k, In k ks -> p k = true -> obj_get k o = Some (f k)) ->
  fold_left (fun m k => if p k then obj_set k (f k) m else m) ks o = o.
Proof.
  induction ks as [|k ks IH]; intros Hall; [reflexivity|]. cbn [fold_left].
  assert ((if p k then obj_set k (f k) o else o) = o) as ->.
  { destruct (p k) eqn:Hp; [|reflexivity].
    apply obj_set_same_value. apply Hall; [now left | assumption]. }
  apply IH. intros k' Hk'. apply Hall. now right.
Qed.

(** X22: "Smart Map All" clicked twice gives the mapping record that one
    click gives. *)
Theorem smartMapAll_twice_is_once :
  forall headers phs (m : obj Generator.MappingConfig),
    smartMapAll headers phs (smartMapAll headers phs m)
    = smartMapAll headers phs m.
Proof.
  intros headers phs m.
  unfold smartMapAll at 1.
  destruct ((length headers =? 0)%nat || (length phs =? 0)%nat) eqn:Hempty;
    [reflexivity|].
  rewrite (assign_some_any_as_set
             (fun k => truthy (best_match k headers "" None))
             (fun k => matched (best_match k headers "" None))
             phs (smartMapAll headers phs m) m).
  - apply assign_some_fixed. intros k Hk Hp.
    rewrite smartMapAll_get by assumption. now rewrite Hp.
  - unfold smartMapAll. rewrite Hempty.
    apply (assign_some_any_proto
             (fun k => truthy (best_match k headers "" None))
             (fun k => matched (best_match k headers "" None))).
Qed.

End SmartTwice.

(** ** "Replace All" in the data editor *)

Section ReplaceMore.
Import Studio.

Lemma replace_in_row_fixed findText replaceText (row : obj string) :
  (forall head text, In (head, text) row ->
     replaceAll findText replaceText text = text) ->
  replace_in_row findText replaceText row = row.
Proof.
  intros Hfixed. unfold replace_in_row.
  generalize (obj_keys row) as ks. induction ks as [|k ks IH]; [reflexivity|].
  cbn [fold_left].
  destruct (obj_get k row) as [text|] eqn:Hget; [|exact IH].
  rewrite (Hfixed k text) by now apply obj_get_In.
  rewrite obj_set_same_value by assumption. exact IH.
Qed.

Lemma with_core_same (c : Component) :
  with_core (fun st => core_previewRows (Generator.previewRows st) st) c = c.
Proof. destruct c as [[] ? ? ? ? ? ? ? ? ? ? ? ? ?]. reflexivity. Qed.

Lemma replaceAllData_fixed (c : Component) :
  (forall row head text,
     In row (Generator.previewRows (core c)) -> In (head, text) row ->
     replaceAll (findText c) (replaceText c) text = text) ->
  replaceAllData c = c.
Proof.
  intros Hfixed. unfold replaceAllData.
  destruct (negb (truthy (findText c))); [reflexivity|].
  rewrite <- (with_core_same c) at 2. unfold with_core. f_equal.
  f_equal. rewrite <- (map_id (Generator.previewRows (core c))) at 2.
  apply map_ext_in. intros row Hrow. apply replace_in_row_fixed.
  intros head text Hcell. now apply (Hfixed row head text).
Qed.

Lemma replaceAllData_empty (c : Component) :
  findText c = "" -> replaceAllData c = c.
Proof. intros H. unfold replaceAllData. now rewrite H. Qed.

(** X6: "Replace All" changes nothing when the find text occurs in no
    cell of the preview rows, and nothing when the replacement is the find
    text itself and holds no dollar sign. *)
Theorem replaceAllData_changes_nothing_without_a_match :
  forall c : Component,
    ((forall row head text,
        In row (Generator.previewRows (core c)) -> In (head, text) row ->
        ~ occurs (findText c) text) ->
     replaceAllData c = c)
    /\ (replaceText c = findText c -> ~ occurs "$" (replaceText c) ->
        replaceAllData c = c).
Proof.
  intros c. split.
  - intros Hnone. apply replaceAllData_fixed. intros row head text Hrow Hcell.
    apply replaceAll_from_without. now apply (Hnone row head text).
  - intros Hsame Hplain.
    destruct (string_dec (findText c) "") as [Hempty|Hfind];
      [now apply replaceAllData_empty|].
    apply replaceAllData_fixed. intros row head text _ _.
    rewrite Hsame in *. now apply replaceAll_same.
Qed.

(** X7: "Replace All" reads a dollar sign in the replacement as a pattern
    of [replaceAll]: with [$&] as the replacement no cell changes; a cell
    that starts with the find text and holds it nowhere else becomes the
    replacement followed by the rest when the replacement has no dollar
    sign, but a single dollar sign and the rest for [$$], the rest twice
    for [$'] and the rest alone for [$`]. *)
Theorem replaceAllData_reads_dollar_patterns :
  forall c : Component,
    (replaceText c = "$&" -> replaceAllData c = c)
    /\ (forall i row head after,
          findText c <> "" ->
          nth_error (Generator.previewRows (core c)) i = Some row ->
          NoDup (obj_keys row) ->
          obj_get head row = Some (findText c ++ after) ->
          ~ occurs (findText c) after ->
          exists row',
            nth_error (Generator.previewRows (core (replaceAllData c))) i
            = Some row'
            /\ obj_get head row'
               = Some (substitution (findText c) "" after (replaceText c)
                       ++ after)
            /\ (~ occurs "$" (replaceText c) ->
                obj_get head row' = Some (replaceText c ++ after))
            /\ (replaceText c = "$$" ->
                obj_get head row' = Some (String "$" after))
            /\ (replaceText c = "$'" ->
                obj_get head row' = Some (after ++ after))
            /\ (replaceText c = "$`" -> obj_get head row' = Some after)).
Proof.
  intros c. split.
  - intros Hamp.
    destruct (string_dec (findText c) "") as [Hempty|Hfind];
      [now apply replaceAllData_empty|].
    apply replaceAllData_fixed. intros row head text _ _. rewrite Hamp.
    apply replaceAll_from_itself; [assumption|].
    intros before after. simpl. apply append_empty_r.
  - intros i row head after Hfind Hrow Hnd Hcell Hnone.
    exists (replace_in_row (findText c) (replaceText c) row).
    assert (obj_get head (replace_in_row (findText c) (replaceText c) row)
            = Some (substitution (findText c) "" after (replaceText c) ++ after))
      as Hnew.
    { rewrite replace_in_row_get by assumption. rewrite Hcell. cbn [option_map].
      unfold replaceAll. rewrite replaceAll_from_match by assumption.
      now rewrite replaceAll_from_without. }
    split.
    + unfold replaceAllData.
      assert (truthy (findText c) = true) as ->
        by (unfold truthy; apply negb_true_iff; now apply String.eqb_neq).
      cbn. now rewrite nth_error_map, Hrow.
    + split; [exact Hnew|]. rewrite Hnew.
      split; [intros Hplain; now rewrite substitution_plain|].
      split; [intros ->; reflexivity|].
      split; [intros ->; cbn; now rewrite append_empty_r|].
      intros ->. reflexivity.
Qed.

End ReplaceMore.

(** ** The colour of the particles *)

Section ParticleFacts.

Lemma table_colour name theme :
  obj_get name Theme.themes = Some theme ->
  obj_get "--color-primary-500" (Theme.set_vars theme []) = Some (Theme.swatch theme)
  /\ exists r g b,
       Particles.theme_colour (Theme.swatch theme) = (Some r, Some g, Some b)
       /\ (0 <= r <= 255)%Z /\ (0 <= g <= 255)%Z /\ (0 <= b <= 255)%Z
       /\ Studio.starts_with
            ("rgba(" ++ string_of_Z r ++ ", " ++ string_of_Z g ++ ", "
             ++ string_of_Z b ++ ", ")
            (Theme.glow theme) = true.
Proof.
  intros H. apply themes_cases in H.
  destruct H as [[_ ->]|[[_ ->]|[[_ ->]|[[_ ->]|[_ ->]]]]];
    (split; [reflexivity|]); do 3 eexists;
    (split; [vm_compute; reflexivity|]);
    (split; [lia|]); (split; [lia|]); (split; [lia|]); reflexivity.
Qed.

(** X23: whenever the theme switcher has written [--color-primary-500],
    its value is the swatch of the current theme, and the [r], [g] and [b]
    that [draw] parses from it are numbers from 0 to 255, the very numbers
    of the theme's glow; when the property reads as empty, [draw] falls
    back on the colour of the crimson theme, 244, 63 and 94. *)
Theorem particles_take_the_colour_of_the_theme :
  forall saved evs,
    let st := Theme.run evs (Theme.mount saved) in
    (forall computed,
       obj_get "--color-primary-500" (Theme.root_style st) = Some computed ->
       exists theme r g b,
         obj_get (Theme.currentTheme st) Theme.themes = Some theme
         /\ computed = Theme.swatch theme
         /\ Particles.theme_colour computed = (Some r, Some g, Some b)
         /\ (0 <= r <= 255)%Z /\ (0 <= g <= 255)%Z /\ (0 <= b <= 255)%Z
         /\ Studio.starts_with
              ("rgba(" ++ string_of_Z r ++ ", " ++ string_of_Z g ++ ", "
               ++ string_of_Z b ++ ", ")
              (Theme.glow theme) = true)
    /\ Particles.theme_colour "" = Particles.theme_colour (Theme.swatch Theme.crimson)
    /\ Particles.theme_colour "" = (Some 244%Z, Some 63%Z, Some 94%Z).
Proof.
  intros saved evs st. split; [|split; reflexivity].
  intros computed Hvar.
  destruct (run_in_force evs _ (mount_in_force saved)) as (theme & Hcur & Hcase).
  fold st in Hcur, Hcase.
  destruct Hcase as [(_ & Hnone & _)|(Hstyle & _)].
  - rewrite Hnone in Hvar. discriminate Hvar.
  - rewrite Hstyle in Hvar.
    destruct (table_colour _ _ Hcur) as (Hswatch & r & g & b & Hrgb).
    rewrite Hswatch in Hvar. injection Hvar as <-.
    exists theme, r, g, b. split; [exact Hcur|]. split; [reflexivity | exact Hrgb].
Qed.

End ParticleFacts.
